(** * Security event aggregator: normalizers, correlator, risk scorer, alerting

    A shallow embedding of the Python services
    - [event-ingest/src/normalizers/cloudtrail.py] and [guardduty.py],
    - [event-ingest/src/main.py] ([serialize_event], [ingest_cloudtrail]),
    - [event-processor/src/correlators/correlator.py],
    - [event-processor/src/alerting/alerts.py],
    - [event-processor/src/main.py] ([process_message], the polling loop),
    - [api-gateway/src/utils/dynamodb.py] ([get_event_stats]),
    followed by the properties of the design specification stated over it
    and by further properties of the services.

    Python [str] values are modelled as [string] (a string is the sequence of
    its UTF-8 bytes), Python [int] as [Z], [Optional[T]] and [dict.get] without
    default as [option], dictionaries iterated in insertion order as
    association lists, and a raised exception as the [Raised] case of
    [result].  Case folding is modelled on ASCII letters; a statement that
    depends on it is made for ASCII text ([Py.is_ascii]). *)

From Stdlib Require Import ZArith List Bool Ascii String Lia Sorted.
From Stdlib Require QArith Lqa.
From stdpp Require Import base option list strings gmap.

Import ListNotations.
Local Open Scope Z_scope.
Local Open Scope string_scope.
Local Open Scope list_scope.

(* ===================================================================== *)
(** ** Python string primitives *)
(* ===================================================================== *)

Module Py.

(** [s[:n]] *)
Fixpoint str_take (n : nat) (s : string) : string :=
  match n, s with
  | O, _ => EmptyString
  | S _, EmptyString => EmptyString
  | S n', String c s' => String c (str_take n' s')
  end.

(** [s[n:]] *)
Fixpoint str_drop (n : nat) (s : string) : string :=
  match n, s with
  | O, _ => s
  | S _, EmptyString => EmptyString
  | S n', String _ s' => str_drop n' s'
  end.

(** [s.startswith(p)] *)
Fixpoint startswith (p s : string) : bool :=
  match p, s with
  | EmptyString, _ => true
  | String _ _, EmptyString => false
  | String a p', String b s' => Ascii.eqb a b && startswith p' s'
  end.

(** [p in s] for strings: [p] occurs as a contiguous substring of [s]. *)
Fixpoint contains (p s : string) : bool :=
  startswith p s ||
  match s with
  | EmptyString => false
  | String _ s' => contains p s'
  end.

(** [x in xs] for a list (or set) of strings. *)
Definition str_in (x : string) (xs : list string) : bool :=
  existsb (String.eqb x) xs.

(** [any(s.startswith(p) for p in ps)], also [s.startswith(tuple)]. *)
Definition startswith_any (ps : list string) (s : string) : bool :=
  existsb (fun p => startswith p s) ps.

(** A text of ASCII characters only: every byte is below 128. *)
Fixpoint is_ascii (s : string) : bool :=
  match s with
  | EmptyString => true
  | String c s' => Nat.ltb (nat_of_ascii c) 128 && is_ascii s'
  end.

(** One character of [str.lower()], on ASCII letters.  Python also folds
    letters outside ASCII (U+00C0, U+0130, ...); they are not modelled, and
    every byte from 128 on is kept as it is. *)
Definition lower_ascii (c : ascii) : ascii :=
  let n := nat_of_ascii c in
  if (Nat.leb 65 n && Nat.leb n 90)%bool then ascii_of_nat (n + 32) else c.

(** [s.lower()] for an ASCII text [s] ([is_ascii]); a statement about the
    lower-cased form of a text is made for ASCII texts only. *)
Fixpoint lower (s : string) : string :=
  match s with
  | EmptyString => EmptyString
  | String c s' => String (lower_ascii c) (lower s')
  end.

(** [s.split(".")[0]]: the text before the first dot. *)
Fixpoint before_dot (s : string) : string :=
  match s with
  | EmptyString => EmptyString
  | String c s' => if Ascii.eqb c "."%char then EmptyString
                   else String c (before_dot s')
  end.

(** [s.split(":")[0]]: the text before the first colon, all of [s] when it
    has none. *)
Fixpoint before_colon (s : string) : string :=
  match s with
  | EmptyString => EmptyString
  | String c s' => if Ascii.eqb c ":"%char then EmptyString
                   else String c (before_colon s')
  end.

(** [d.get(k)] on a dictionary literal, kept as the list of its items in
    source order. *)
Fixpoint dict_get {A} (k : string) (d : list (string * A)) : option A :=
  match d with
  | [] => None
  | (k', v) :: d' => if String.eqb k k' then Some v else dict_get k d'
  end.

(** [a <= b] on strings: lexicographic on code points. *)
Definition str_le (a b : string) : bool := String.leb a b.

(** Truthiness of a Python [str]. *)
Definition truthy_str (s : string) : bool :=
  match s with EmptyString => false | _ => true end.

(** [a or b] on optional strings: the first truthy operand. *)
Definition truthy_opt (o : option string) : option string :=
  match o with
  | Some s => if truthy_str s then Some s else None
  | None => None
  end.

End Py.

(* ===================================================================== *)
(** ** hashlib.sha256 (FIPS 180-4), on 32-bit words held in [Z] *)
(* ===================================================================== *)

Module Sha256.

Definition mask32 : Z := 4294967295.

Definition add32 (x y : Z) : Z := Z.land (x + y) mask32.

Definition rotr (n x : Z) : Z :=
  Z.lor (Z.shiftr x n) (Z.land (Z.shiftl x (32 - n)) mask32).

Definition xor3 (a b c : Z) : Z := Z.lxor (Z.lxor a b) c.

Definition Ch (x y z : Z) : Z :=
  Z.lxor (Z.land x y) (Z.land (Z.lxor x mask32) z).

Definition Maj (x y z : Z) : Z :=
  xor3 (Z.land x y) (Z.land x z) (Z.land y z).

Definition bsig0 (x : Z) : Z := xor3 (rotr 2 x) (rotr 13 x) (rotr 22 x).
Definition bsig1 (x : Z) : Z := xor3 (rotr 6 x) (rotr 11 x) (rotr 25 x).
Definition ssig0 (x : Z) : Z := xor3 (rotr 7 x) (rotr 18 x) (Z.shiftr x 3).
Definition ssig1 (x : Z) : Z := xor3 (rotr 17 x) (rotr 19 x) (Z.shiftr x 10).

(** The first sixty-four primes. *)
Definition PRIMES : list Z :=
  [2; 3; 5; 7; 11; 13; 17; 19; 23; 29; 31; 37; 41; 43; 47; 53; 59; 61; 67;
   71; 73; 79; 83; 89; 97; 101; 103; 107; 109; 113; 127; 131; 137; 139; 149;
   151; 157; 163; 167; 173; 179; 181; 191; 193; 197; 199; 211; 223; 227;
   229; 233; 239; 241; 251; 257; 263; 269; 271; 277; 281; 283; 293; 307;
   311].

(** The integer cube root, found bit by bit from [2^bit] down. *)
Fixpoint cube_root_from (bit : nat) (n acc : Z) : Z :=
  match bit with
  | O => acc
  | S bit' =>
      let candidate := acc + Z.shiftl 1 (Z.of_nat bit') in
      if Z.leb (candidate * candidate * candidate) n
      then cube_root_from bit' n candidate
      else cube_root_from bit' n acc
  end.

(** The round constants: the first 32 bits of the fractional part of the
    cube root of each prime. *)
Definition K : list Z :=
  Eval vm_compute in
    List.map (fun p => Z.land (cube_root_from 40 (Z.shiftl p 96) 0) mask32)
             PRIMES.

(** The initial hash value: the same for the square roots of the first
    eight primes. *)
Definition H0 : list Z :=
  Eval vm_compute in
    List.map (fun p => Z.land (Z.sqrt (Z.shiftl p 64)) mask32)
             (List.firstn 8 PRIMES).

Definition bytes_of_string (s : string) : list Z :=
  List.map (fun c => Z.of_nat (nat_of_ascii c)) (list_ascii_of_string s).

(** The 64-bit big-endian encoding of the message length in bits. *)
Definition be64 (n : Z) : list Z :=
  List.map (fun i => Z.land (Z.shiftr n (8 * i)) 255) [7; 6; 5; 4; 3; 2; 1; 0].

(** Append 0x80, zero bytes up to 56 modulo 64, then the bit length. *)
Definition pad (msg : list Z) : list Z :=
  let len := Z.of_nat (List.length msg) in
  let zeros := Z.to_nat (Z.modulo (55 - len) 64) in
  msg ++ [128] ++ List.repeat 0 zeros ++ be64 (8 * len).

Fixpoint words_of_bytes (bs : list Z) : list Z :=
  match bs with
  | b0 :: b1 :: b2 :: b3 :: rest =>
      (Z.shiftl b0 24 + Z.shiftl b1 16 + Z.shiftl b2 8 + b3)
        :: words_of_bytes rest
  | _ => []
  end.

Definition word (i : nat) (ws : list Z) : Z := List.nth i ws 0.

(** One round. [win] is the sliding window of the message schedule:
    its head is W[t], and W[t+16] is appended for later rounds. *)
Definition round (acc : list Z * list Z) (k : Z) : list Z * list Z :=
  let (st, win) := acc in
  let a := word 0 st in let b := word 1 st in
  let c := word 2 st in let d := word 3 st in
  let e := word 4 st in let f := word 5 st in
  let g := word 6 st in let h := word 7 st in
  let w := word 0 win in
  let t1 := add32 (add32 (add32 (add32 h (bsig1 e)) (Ch e f g)) k) w in
  let t2 := add32 (bsig0 a) (Maj a b c) in
  let next :=
    add32 (add32 (add32 (ssig1 (word 14 win)) (word 9 win))
                 (ssig0 (word 1 win))) (word 0 win) in
  ([add32 t1 t2; a; b; c; add32 d t1; e; f; g], List.tl win ++ [next]).

Fixpoint add_words (xs ys : list Z) : list Z :=
  match xs, ys with
  | x :: xs', y :: ys' => add32 x y :: add_words xs' ys'
  | _, _ => []
  end.

Definition compress (st block : list Z) : list Z :=
  add_words st (fst (List.fold_left round K (st, block))).

(** Consume the padded message sixteen words at a time. *)
Fixpoint blocks (fuel : nat) (st ws : list Z) : list Z :=
  match fuel with
  | O => st
  | S fuel' =>
      match ws with
      | [] => st
      | _ => blocks fuel' (compress st (List.firstn 16 ws)) (List.skipn 16 ws)
      end
  end.

Definition hex_digit (n : Z) : ascii :=
  List.nth (Z.to_nat n)
    (list_ascii_of_string "0123456789abcdef") "0"%char.

Definition hex_of_word (w : Z) : string :=
  string_of_list_ascii
    (List.map (fun i => hex_digit (Z.land (Z.shiftr w (4 * i)) 15))
              [7; 6; 5; 4; 3; 2; 1; 0]).

Definition digest (s : string) : list Z :=
  let ws := words_of_bytes (pad (bytes_of_string s)) in
  blocks (List.length ws) H0 ws.

(** [hashlib.sha256(s.encode()).hexdigest()] *)
Definition hexdigest (s : string) : string :=
  List.fold_right (fun w acc => String.append (hex_of_word w) acc) EmptyString (digest s).

End Sha256.

(* ===================================================================== *)
(** ** Raw vendor payloads: [Dict[str, Any]] as parsed from JSON *)
(* ===================================================================== *)

Module Json.

#[local] Set Warnings "-register-all".

(** A payload value.  Only the kind and truthiness of a number are ever
    inspected, so numbers are kept as integers. *)
Inductive json :=
| JNull
| JBool (b : bool)
| JNum (n : Z)
| JStr (s : string)
| JList (l : list json)
| JObj (kv : list (string * json)).

Definition dict := list (string * json).

Fixpoint lookup (k : string) (d : dict) : option json :=
  match d with
  | [] => None
  | (k', v) :: d' => if String.eqb k k' then Some v else lookup k d'
  end.

(** [d.get(k, default)] *)
Definition get_or (k : string) (d : dict) (default : json) : json :=
  match lookup k d with Some v => v | None => default end.

(** [d.get(k)] *)
Definition get (k : string) (d : dict) : json := get_or k d JNull.

(** Truthiness, as tested by [if v:] and [v or ...]. *)
Definition truthy (v : json) : bool :=
  match v with
  | JNull => false
  | JBool b => b
  | JNum n => negb (Z.eqb n 0)
  | JStr s => Py.truthy_str s
  | JList l => match l with [] => false | _ => true end
  | JObj kv => match kv with [] => false | _ => true end
  end.

(** The outcome of a call: a value, or an exception that propagates to
    the caller. *)
Inductive result (A : Type) :=
| Ok (a : A)
| Raised.
Arguments Ok {A} a.
Arguments Raised {A}.

#[global] Instance result_bind : MBind result :=
  fun A B k r =>
    match r with
    | Ok a => k a
    | Raised => Raised
    end.

(** The receiver of [v.get(...)]: anything but a dictionary raises
    [AttributeError]. *)
Definition as_dict (v : json) : result dict :=
  match v with
  | JObj kv => Ok kv
  | _ => Raised
  end.

(** Validation of a model field declared [Optional[str]]: [None] and
    strings pass, any other value raises [ValidationError]. *)
Definition opt_str (v : json) : result (option string) :=
  match v with
  | JNull => Ok None
  | JStr s => Ok (Some s)
  | _ => Raised
  end.

End Json.

(* ===================================================================== *)
(** ** models/events.py *)
(* ===================================================================== *)

Module Models.

Inductive EventSeverity := CRITICAL | HIGH | MEDIUM | LOW | INFO.

Inductive EventStatus := NEW | PROCESSING | PROCESSED | CORRELATED | ALERTED.

Inductive EventSource := CLOUDTRAIL | GUARDDUTY | SECURITYHUB | CUSTOM.

(** [EventSeverity.X.value] *)
Definition severity_value (s : EventSeverity) : string :=
  match s with
  | CRITICAL => "critical"
  | HIGH => "high"
  | MEDIUM => "medium"
  | LOW => "low"
  | INFO => "info"
  end.

(** [MitreAttackInfo]: every entry of the mapping tables sets all three
    fields, and a stored technique is one of those entries. *)
Record MitreAttackInfo := {
  tactic : string;
  technique_id : string;
  technique_name : string
}.

(** [resource_arn] and [resource_type] are assigned after construction,
    which the model class does not validate: they hold the raw value. *)
Record AWSContext := {
  account_id : option string;
  region : option string;
  service : option string;
  resource_arn : Json.json;
  resource_type : Json.json
}.

Record ActorInfo := {
  principal_id : option string;
  principal_type : option string;
  arn : option string;
  access_key_id : option string;
  user_name : option string;
  session_name : option string
}.

Record NetworkInfo := {
  source_ip : option string;
  source_port : option Z;
  destination_ip : option string;
  destination_port : option Z;
  protocol : option string;
  user_agent : option string
}.

(** [NetworkInfo()] *)
Definition NetworkInfo_default : NetworkInfo :=
  {| source_ip := None; source_port := None; destination_ip := None;
     destination_port := None; protocol := None; user_agent := None |}.

(** [SecurityEvent].  [description], free text that embeds [str()] of
    arbitrary payload values, is left out; formatting it cannot raise. *)
Record SecurityEvent (datetime : Type) := {
  event_id : string;
  source : EventSource;
  source_event_id : option string;
  event_time : datetime;
  ingested_at : datetime;
  processed_at : option datetime;
  event_type : string;
  event_category : string;
  severity : EventSeverity;
  status : EventStatus;
  title : string;
  aws_context : option AWSContext;
  actor : option ActorInfo;
  network : option NetworkInfo;
  mitre_attack : option MitreAttackInfo;
  correlation_id : option string;
  related_event_ids : list string;
  raw_event : option Json.dict;
  tags : list string
}.
Arguments event_id {datetime}.
Arguments source {datetime}.
Arguments source_event_id {datetime}.
Arguments event_time {datetime}.
Arguments ingested_at {datetime}.
Arguments processed_at {datetime}.
Arguments event_type {datetime}.
Arguments event_category {datetime}.
Arguments severity {datetime}.
Arguments status {datetime}.
Arguments title {datetime}.
Arguments aws_context {datetime}.
Arguments actor {datetime}.
Arguments network {datetime}.
Arguments mitre_attack {datetime}.
Arguments correlation_id {datetime}.
Arguments related_event_ids {datetime}.
Arguments raw_event {datetime}.
Arguments tags {datetime}.

End Models.

(* ===================================================================== *)
(** ** correlators/correlator.py *)
(* ===================================================================== *)

Module Correlator.

(** The event dictionaries handed to the correlator are the items written
    by [serialize_event]: keys holding [None] are removed, so a field is
    either absent or carries a value of its schema type.  Only the keys the
    correlator and the risk scorer read are kept.  [source_ip] is the
    top-level key of that name; the network address is
    [network.net_source_ip]. *)
Record Actor := {
  user_name : option string;
  arn : option string
}.

Record Network := {
  net_source_ip : option string
}.

Record Event := {
  event_id : option string;
  event_type : option string;
  event_time : option string;
  severity : option string;
  source_ip : option string;
  network : option Network;
  actor : option Actor;
  tags : option (list string);
  mitre_attack : option Models.MitreAttackInfo
}.

(** [d.get(k, default)] *)
Definition get {A} (o : option A) (default : A) : A :=
  match o with Some v => v | None => default end.

(** The entries of [CORRELATION_RULES] read by the evaluators. *)
Record Rule := {
  rule_description : string;
  event_types : list string;
  event_type_prefixes : list string;
  min_events : nat;
  severity_boost : Models.EventSeverity
}.

Definition RULE_brute_force : Rule :=
  {| rule_description := "Multiple failed authentication attempts";
     event_types := ["ConsoleLogin"];
     event_type_prefixes := [];
     min_events := 5;
     severity_boost := Models.HIGH |}.

Definition RULE_privilege_escalation : Rule :=
  {| rule_description := "IAM modifications following authentication";
     event_types := [];
     event_type_prefixes := [];
     min_events := 0;
     severity_boost := Models.CRITICAL |}.

Definition RULE_logging_tampering : Rule :=
  {| rule_description := "CloudTrail logging modifications";
     event_types := ["StopLogging"; "DeleteTrail"; "UpdateTrail"];
     event_type_prefixes := [];
     min_events := 0;
     severity_boost := Models.CRITICAL |}.

Definition RULE_reconnaissance : Rule :=
  {| rule_description := "Multiple discovery API calls";
     event_types := [];
     event_type_prefixes := ["List"; "Describe"; "Get"];
     min_events := 20;
     severity_boost := Models.MEDIUM |}.

(** The dictionary returned by a rule evaluator.  [event_types], a list
    built from a Python [set] whose iteration order is unspecified, is read
    by none of the properties below and is left out. *)
Record CorrelationRecord := {
  rule : string;
  description : string;
  cr_source_ip : option string;
  cr_actor : option string;
  sequence : option (list (option string));
  event_count : nat;
  event_ids : list (option string);
  cr_severity : string;
  correlation_id : string
}.

(** [generate_correlation_id]: [events[0] if events else {}], then the
    f-string over its top-level [event_type] and [source_ip] keys. *)
Definition hash_input (events : list Event) (rule_name : string) : string :=
  let first_event_type :=
    match events with e :: _ => get (event_type e) "" | [] => "" end in
  let first_source_ip :=
    match events with e :: _ => get (source_ip e) "" | [] => "" end in
  String.append rule_name
    (String.append ":" (String.append first_event_type
       (String.append ":" first_source_ip))).

Definition generate_correlation_id (events : list Event) (rule_name : string)
  : string :=
  Py.str_take 16 (Sha256.hexdigest (hash_input events rule_name)).

(** [e.get("event_type") in xs] *)
Definition event_type_in (xs : list string) (e : Event) : bool :=
  match event_type e with
  | Some t => Py.str_in t xs
  | None => false
  end.

(** [event.get("network", {}).get("source_ip", "unknown")] *)
Definition ip_of (e : Event) : string :=
  match network e with
  | Some n => get (net_source_ip n) "unknown"
  | None => "unknown"
  end.

(** [actor.get("user_name") or actor.get("arn") or "unknown"] *)
Definition actor_id_of (e : Event) : string :=
  match actor e with
  | Some a =>
      match Py.truthy_opt (user_name a) with
      | Some u => u
      | None => match Py.truthy_opt (arn a) with
                | Some r => r
                | None => "unknown"
                end
      end
  | None => "unknown"
  end.

(** One iteration of the grouping loop: create the bucket on first sight
    of the key, then append the event.  Buckets keep insertion order. *)
Fixpoint bucket_append (k : string) (e : Event)
    (m : list (string * list Event)) : list (string * list Event) :=
  match m with
  | [] => [(k, [e])]
  | (k', es) :: m' =>
      if String.eqb k k' then (k', es ++ [e]) :: m'
      else (k', es) :: bucket_append k e m'
  end.

Definition group_by (key : Event -> string) (events : list Event)
  : list (string * list Event) :=
  List.fold_left (fun m e => bucket_append (key e) e m) events [].

Definition ids_of (events : list Event) : list (option string) :=
  List.map event_id events.

(** [any(tag in e.get("tags", []) for tag in [...])] *)
Definition has_failure_tag (e : Event) : bool :=
  existsb (fun tag => Py.str_in tag (get (tags e) []))
          ["accessdenied"; "unauthorizedaccess"; "error"].

(** The loop over [events_by_ip.items()] of [check_brute_force]. *)
Fixpoint brute_force_scan (buckets : list (string * list Event))
  : option CorrelationRecord :=
  match buckets with
  | [] => None
  | (ip, ip_events) :: rest =>
      let failed_events := List.filter has_failure_tag ip_events in
      if Nat.leb (min_events RULE_brute_force) (List.length failed_events)
      then Some {| rule := "brute_force";
                   description := rule_description RULE_brute_force;
                   cr_source_ip := Some ip;
                   cr_actor := None;
                   sequence := None;
                   event_count := List.length failed_events;
                   event_ids := ids_of failed_events;
                   cr_severity :=
                     Models.severity_value (severity_boost RULE_brute_force);
                   correlation_id :=
                     generate_correlation_id failed_events "brute_force" |}
      else brute_force_scan rest
  end.

Definition check_brute_force (events : list Event)
  : option CorrelationRecord :=
  let login_events :=
    List.filter (event_type_in (event_types RULE_brute_force)) events in
  if Nat.ltb (List.length login_events) (min_events RULE_brute_force)
  then None
  else brute_force_scan (group_by ip_of login_events).

(** [sorted(actor_events, key=lambda e: e.get("event_time", ""))]:
    a stable sort on the ISO-8601 strings. *)
Definition time_of (e : Event) : string := get (event_time e) "".

Fixpoint insert_by_time (e : Event) (l : list Event) : list Event :=
  match l with
  | [] => [e]
  | h :: t => if Py.str_le (time_of e) (time_of h) then e :: h :: t
              else h :: insert_by_time e t
  end.

Definition sorted_by_time (l : list Event) : list Event :=
  List.fold_right insert_by_time [] l.

Definition IAM_CHANGES : list string :=
  ["CreateAccessKey"; "CreateUser"; "AttachUserPolicy"; "AttachRolePolicy"].

(** The body of the scan over [sorted_events]; the state is
    [(login_event, iam_events)]. *)
Definition escalation_step (st : option Event * list Event) (e : Event)
  : option Event * list Event :=
  let (login_event, iam_events) := st in
  let ty := get (event_type e) "" in
  if String.eqb ty "ConsoleLogin"
     && negb (Py.str_in "error" (get (tags e) []))
  then (Some e, iam_events)
  else match login_event with
       | Some _ =>
           if Py.str_in ty IAM_CHANGES then (login_event, iam_events ++ [e])
           else st
       | None => st
       end.

Definition escalation_scan (sorted_events : list Event)
  : option Event * list Event :=
  List.fold_left escalation_step sorted_events (None, []).

(** The loop over [events_by_actor.items()]. *)
Fixpoint privilege_escalation_scan (buckets : list (string * list Event))
  : option CorrelationRecord :=
  match buckets with
  | [] => None
  | (actor_id, actor_events) :: rest =>
      match escalation_scan (sorted_by_time actor_events) with
      | (Some login_event, (_ :: _) as iam_events) =>
          let all_events := login_event :: iam_events in
          Some {| rule := "privilege_escalation";
                  description := rule_description RULE_privilege_escalation;
                  cr_source_ip := None;
                  cr_actor := Some actor_id;
                  sequence := Some (List.map event_type all_events);
                  event_count := List.length all_events;
                  event_ids := ids_of all_events;
                  cr_severity :=
                    Models.severity_value (severity_boost RULE_privilege_escalation);
                  correlation_id :=
                    generate_correlation_id all_events "privilege_escalation" |}
      | _ => privilege_escalation_scan rest
      end
  end.

Definition check_privilege_escalation (events : list Event)
  : option CorrelationRecord :=
  privilege_escalation_scan (group_by actor_id_of events).

Definition check_logging_tampering (events : list Event)
  : option CorrelationRecord :=
  let tampering_events :=
    List.filter (event_type_in (event_types RULE_logging_tampering)) events in
  match tampering_events with
  | [] => None
  | _ :: _ =>
      Some {| rule := "logging_tampering";
              description := rule_description RULE_logging_tampering;
              cr_source_ip := None;
              cr_actor := None;
              sequence := None;
              event_count := List.length tampering_events;
              event_ids := ids_of tampering_events;
              cr_severity :=
                Models.severity_value (severity_boost RULE_logging_tampering);
              correlation_id :=
                generate_correlation_id tampering_events "logging_tampering" |}
  end.

Definition is_discovery (e : Event) : bool :=
  Py.startswith_any (event_type_prefixes RULE_reconnaissance)
                    (get (event_type e) "").

(** The loop over [events_by_ip.items()] of [check_reconnaissance]. *)
Fixpoint reconnaissance_scan (buckets : list (string * list Event))
  : option CorrelationRecord :=
  match buckets with
  | [] => None
  | (ip, ip_events) :: rest =>
      if Nat.leb (min_events RULE_reconnaissance) (List.length ip_events)
      then Some {| rule := "reconnaissance";
                   description := rule_description RULE_reconnaissance;
                   cr_source_ip := Some ip;
                   cr_actor := None;
                   sequence := None;
                   event_count := List.length ip_events;
                   event_ids := ids_of (List.firstn 20 ip_events);
                   cr_severity :=
                     Models.severity_value (severity_boost RULE_reconnaissance);
                   correlation_id :=
                     generate_correlation_id ip_events "reconnaissance" |}
      else reconnaissance_scan rest
  end.

Definition check_reconnaissance (events : list Event)
  : option CorrelationRecord :=
  let recon_events := List.filter is_discovery events in
  if Nat.ltb (List.length recon_events) (min_events RULE_reconnaissance)
  then None
  else reconnaissance_scan (group_by ip_of recon_events).

Definition checks : list (list Event -> option CorrelationRecord) :=
  [ check_brute_force; check_privilege_escalation;
    check_logging_tampering; check_reconnaissance ].

(** [correlate_events]: every returned dictionary is non-empty, hence
    truthy, and is appended. *)
Definition correlate_events (events : list Event) : list CorrelationRecord :=
  List.fold_left
    (fun correlations check =>
       match check events with
       | Some result => correlations ++ [result]
       | None => correlations
       end)
    checks [].

(** [severity_scores.get(event.get("severity", "info"), 10)] *)
Definition severity_scores (s : string) : option Z :=
  if String.eqb s "critical" then Some 80
  else if String.eqb s "high" then Some 60
  else if String.eqb s "medium" then Some 40
  else if String.eqb s "low" then Some 20
  else if String.eqb s "info" then Some 10
  else None.

(** [event_id in correlation.get("event_ids", [])] *)
Definition id_in (eid : string) (ids : list (option string)) : bool :=
  existsb (fun o => match o with Some i => String.eqb eid i | None => false end)
          ids.

Definition calculate_risk_score (event : Event)
    (correlations : list CorrelationRecord) : Z :=
  let score := get (severity_scores (get (severity event) "info")) 10 in
  let eid := get (event_id event) "" in
  let score :=
    List.fold_left
      (fun score correlation =>
         if id_in eid (event_ids correlation) then score + 20 else score)
      correlations score in
  let score :=
    match mitre_attack event with Some _ => score + 10 | None => score end in
  let score :=
    if Py.str_in "root-account" (get (tags event) []) then score + 30
    else score in
  Z.min score 100.

End Correlator.

(* ===================================================================== *)
(** ** normalizers/cloudtrail.py *)
(* ===================================================================== *)

Module CloudTrail.
Import Models.

Definition mitre (t i n : string) : MitreAttackInfo :=
  {| tactic := t; technique_id := i; technique_name := n |}.

Definition MITRE_MAPPINGS : gmap string MitreAttackInfo :=
  list_to_map
    [ ("ConsoleLogin", mitre "Initial Access" "T1078" "Valid Accounts");
      ("CreateUser",
        mitre "Persistence" "T1136.003" "Create Account: Cloud Account");
      ("CreateAccessKey",
        mitre "Persistence" "T1098.001"
              "Account Manipulation: Additional Cloud Credentials");
      ("CreateRole", mitre "Persistence" "T1098" "Account Manipulation");
      ("AttachUserPolicy", mitre "Persistence" "T1098" "Account Manipulation");
      ("AttachRolePolicy", mitre "Persistence" "T1098" "Account Manipulation");
      ("AssumeRole",
        mitre "Privilege Escalation" "T1548" "Abuse Elevation Control Mechanism");
      ("UpdateAssumeRolePolicy",
        mitre "Privilege Escalation" "T1548" "Abuse Elevation Control Mechanism");
      ("StopLogging",
        mitre "Defense Evasion" "T1562.008" "Impair Defenses: Disable Cloud Logs");
      ("DeleteTrail",
        mitre "Defense Evasion" "T1562.008" "Impair Defenses: Disable Cloud Logs");
      ("UpdateTrail",
        mitre "Defense Evasion" "T1562.008" "Impair Defenses: Disable Cloud Logs");
      ("PutEventSelectors",
        mitre "Defense Evasion" "T1562.008" "Impair Defenses: Disable Cloud Logs");
      ("DeleteFlowLogs",
        mitre "Defense Evasion" "T1562.008" "Impair Defenses: Disable Cloud Logs");
      ("GetSecretValue",
        mitre "Credential Access" "T1555" "Credentials from Password Stores");
      ("GetPasswordData",
        mitre "Credential Access" "T1555" "Credentials from Password Stores");
      ("DescribeInstances",
        mitre "Discovery" "T1580" "Cloud Infrastructure Discovery");
      ("ListBuckets", mitre "Discovery" "T1580" "Cloud Infrastructure Discovery");
      ("ListUsers",
        mitre "Discovery" "T1087.004" "Account Discovery: Cloud Account");
      ("ListRoles",
        mitre "Discovery" "T1087.004" "Account Discovery: Cloud Account");
      ("GetObject", mitre "Exfiltration" "T1530" "Data from Cloud Storage");
      ("DeleteBucket", mitre "Impact" "T1485" "Data Destruction");
      ("TerminateInstances", mitre "Impact" "T1489" "Service Stop") ].

Definition HIGH_SEVERITY_EVENTS : gset string :=
  list_to_set
    [ "ConsoleLogin"; "CreateUser"; "CreateAccessKey"; "DeleteTrail";
      "StopLogging"; "PutBucketPolicy"; "PutBucketAcl";
      "AuthorizeSecurityGroupIngress"; "CreateSecurityGroup";
      "ModifyInstanceAttribute"; "RunInstances" ].

(** The regular expressions of [CRITICAL_SEVERITY_PATTERNS] are sequences
    of [.*] and literal text. *)
Inductive re_item :=
| AnyStar
| Lit (s : string).

Definition regex := list re_item.

Definition CRITICAL_SEVERITY_PATTERNS : list regex :=
  [ [AnyStar; Lit "Delete"; AnyStar; Lit "Trail"; AnyStar];
    [AnyStar; Lit "Stop"; AnyStar; Lit "Logging"; AnyStar];
    [AnyStar; Lit "Disable"; AnyStar];
    [AnyStar; Lit "Root"; AnyStar] ].

(** Two ASCII characters are equal under [re.IGNORECASE].  On a text with
    characters outside ASCII the flag also folds Unicode letters (U+017F
    matches [s], U+212A matches [k]); the matcher below is the one of the
    code for ASCII event names. *)
Definition eq_ci (a b : ascii) : bool :=
  Ascii.eqb (Py.lower_ascii a) (Py.lower_ascii b).

(** Consume the literal [l] at the head of [s], ignoring case. *)
Fixpoint strip_ci (l s : string) : option string :=
  match l, s with
  | EmptyString, _ => Some s
  | String _ _, EmptyString => None
  | String a l', String b s' => if eq_ci a b then strip_ci l' s' else None
  end.

(** [.] matches any character except a line feed. *)
Definition dot (c : ascii) : bool := negb (Ascii.eqb c "010"%char).

(** [re.match(p, s, re.IGNORECASE) is not None]: the pattern is anchored
    at the start of [s] and need not reach its end. *)
Fixpoint re_match (p : regex) (s : string) {struct p} : bool :=
  match p with
  | [] => true
  | Lit l :: p' =>
      match strip_ci l s with
      | Some rest => re_match p' rest
      | None => false
      end
  | AnyStar :: p' =>
      (fix star (s : string) : bool :=
         re_match p' s ||
         match s with
         | EmptyString => false
         | String c s' => dot c && star s'
         end) s
  end.

Definition determine_severity (event_name : string)
    (error_code user_type : option string) : EventSeverity :=
  if bool_decide (user_type = Some "Root") then CRITICAL
  else if existsb (fun pattern => re_match pattern event_name)
                  CRITICAL_SEVERITY_PATTERNS then CRITICAL
  else if match error_code with
          | Some c => Py.str_in c
                        ["AccessDenied"; "UnauthorizedAccess";
                         "InvalidClientTokenId"]
          | None => false
          end then HIGH
  else if bool_decide (event_name ∈ HIGH_SEVERITY_EVENTS) then HIGH
  else if Py.startswith "List" event_name
          || Py.startswith "Describe" event_name then LOW
  else if Py.startswith "Get" event_name then LOW
  else INFO.

Definition AUTHENTICATION_NAMES : list string :=
  ["ConsoleLogin"; "GetFederationToken"; "GetSessionToken"; "AssumeRole";
   "AssumeRoleWithSAML"; "AssumeRoleWithWebIdentity"].

Definition IAM_VERBS : list string :=
  ["Create"; "Delete"; "Update"; "Attach"; "Detach"; "Put"].

(** The test under the comment "IAM events".  Python's [and] binds
    tighter than [or], so the condition reads [A or (B and C) or D or E]. *)
Definition identity_test (event_name event_source : string) : bool :=
  String.eqb event_source "iam.amazonaws.com"
  || (Py.startswith_any IAM_VERBS event_name
      && Py.contains "User" event_name)
  || Py.contains "Role" event_name
  || Py.contains "Policy" event_name.

Definition categorize_event (event_name event_source : string) : string :=
  if Py.str_in event_name AUTHENTICATION_NAMES
  then "authentication"
  else if identity_test event_name event_source
  then "identity_management"
  else if Py.str_in event_source ["ec2.amazonaws.com"]
          && existsb (fun x => Py.contains x event_name)
               ["SecurityGroup"; "Vpc"; "Subnet"; "Route"; "NetworkAcl"]
  then "network_security"
  else if String.eqb event_source "s3.amazonaws.com"
          || Py.str_in event_name ["GetObject"; "PutObject"; "DeleteObject"]
  then "data_access"
  else if Py.str_in event_source
            ["cloudtrail.amazonaws.com"; "logs.amazonaws.com"]
  then "logging"
  else if Py.startswith_any
            ["Create"; "Delete"; "Modify"; "Update"; "Terminate"] event_name
  then "resource_modification"
  else if Py.startswith_any ["List"; "Describe"; "Get"] event_name
  then "discovery"
  else "other".

(** [s.replace("Z", "+00:00")] *)
Fixpoint replace_Z (s : string) : string :=
  match s with
  | EmptyString => EmptyString
  | String c s' =>
      if Ascii.eqb c "Z"%char then String.append "+00:00" (replace_Z s')
      else String c (replace_Z s')
  end.

Section Normalize.
Import Json.

(** The standard library's [datetime] and the environment of one call:
    [fromisoformat] returns [None] where Python raises [ValueError];
    [now_default], [now_fallback] and [now_ingested] are the successive
    readings of [datetime.utcnow()], and [fresh_uuid] is [str(uuid4())]. *)
Variable datetime : Type.
Variable fromisoformat : string -> option datetime.
Variable isoformat : datetime -> string.
Variables now_default now_fallback now_ingested : datetime.
Variable fresh_uuid : string.

(** The [try]/[except] around the time parse: the bare [except] also
    catches the [AttributeError] of a non-string [eventTime]. *)
Definition parse_event_time (event_time_str : json) : datetime :=
  match event_time_str with
  | JStr s =>
      match fromisoformat (replace_Z s) with
      | Some t => t
      | None => now_fallback
      end
  | _ => now_fallback
  end.

(** [event_source.split(".")[0] if event_source else None]: a truthy
    value that is not a string has no [split]. *)
Definition service_of (event_source : json) : result (option string) :=
  if truthy event_source then
    match event_source with
    | JStr s => Ok (Some (Py.before_dot s))
    | _ => Raised
    end
  else Ok None.

(** [resources[0]] for a truthy [resources]: only a non-empty list can be
    indexed by [0] (a dictionary raises [KeyError], a number
    [TypeError]; the first character of a string has no [get]). *)
Definition first_resource (resources : json) : result dict :=
  match resources with
  | JList (r :: _) => as_dict r
  | _ => Raised
  end.

Definition normalize_cloudtrail_event (raw_event : dict)
  : result (SecurityEvent datetime) :=
  let event_name := get_or "eventName" raw_event (JStr "Unknown") in
  let event_source := get_or "eventSource" raw_event (JStr "unknown") in
  let event_time_str :=
    get_or "eventTime" raw_event (JStr (isoformat now_default)) in
  let event_time := parse_event_time event_time_str in
  user_identity ← as_dict (get_or "userIdentity" raw_event (JObj []));
  let user_type := get "type" user_identity in
  session_context ←
    as_dict (get_or "sessionContext" user_identity (JObj []));
  session_issuer ←
    as_dict (get_or "sessionIssuer" session_context (JObj []));
  a_principal_id ← opt_str (get "principalId" user_identity);
  a_principal_type ← opt_str user_type;
  a_arn ← opt_str (get "arn" user_identity);
  a_access_key_id ← opt_str (get "accessKeyId" user_identity);
  a_user_name ← opt_str (get "userName" user_identity);
  a_session_name ← opt_str (get "userName" session_issuer);
  let actor :=
    {| principal_id := a_principal_id; principal_type := a_principal_type;
       arn := a_arn; access_key_id := a_access_key_id;
       user_name := a_user_name; session_name := a_session_name |} in
  n_source_ip ← opt_str (get "sourceIPAddress" raw_event);
  n_user_agent ← opt_str (get "userAgent" raw_event);
  let network :=
    {| source_ip := n_source_ip; source_port := None;
       destination_ip := None; destination_port := None;
       protocol := None; user_agent := n_user_agent |} in
  c_service ← service_of event_source;
  c_account_id ← opt_str (get "accountId" user_identity);
  c_region ← opt_str (get "awsRegion" raw_event);
  let resources := get_or "resources" raw_event (JList []) in
  aws_context ←
    (if truthy resources then
       r0 ← first_resource resources;
       Ok {| account_id := c_account_id; region := c_region;
             service := c_service;
             resource_arn := get "ARN" r0;
             resource_type := get "type" r0 |}
     else
       Ok {| account_id := c_account_id; region := c_region;
             service := c_service;
             resource_arn := JNull; resource_type := JNull |});
  let error_code := get "errorCode" raw_event in
  (* A non-string [eventName] raises in every continuation: in
     [re.match], in [startswith], or when [event_type] is validated. *)
  event_name ← match event_name with JStr s => Ok s | _ => Raised end;
  let severity :=
    determine_severity event_name
      (match error_code with JStr c => Some c | _ => None end)
      a_principal_type in
  let mitre_attack := MITRE_MAPPINGS !! event_name in
  (* A truthy [errorCode] that is not a string raises in [.lower()]. *)
  error_tags ←
    (if truthy error_code then
       match error_code with
       | JStr c => Ok (Some c)
       | _ => Raised
       end
     else Ok None);
  let title :=
    String.append "CloudTrail: "
      (String.append event_name
         (match error_tags with
          | Some c => String.append " (" (String.append c ")")
          | None => ""
          end)) in
  (* Comparisons of a falsy non-string [eventSource] are all false, as
     they are for the empty string. *)
  let category :=
    categorize_event event_name
      (match event_source with JStr s => s | _ => "" end) in
  (* The same conditional as for [service], with ["aws"] for [None]. *)
  let tag_service :=
    match c_service with Some name => name | None => "aws" end in
  let tags :=
    ["cloudtrail"; tag_service]
    ++ match error_tags with
       | Some c => ["error"; Py.lower c]
       | None => []
       end
    ++ (if bool_decide (a_principal_type = Some "Root")
        then ["root-account"] else [])
    ++ match mitre_attack with
       | Some m => [String.append "mitre-" (technique_id m)]
       | None => []
       end in
  e_source_event_id ← opt_str (get "eventID" raw_event);
  Ok {| event_id := fresh_uuid;
        source := CLOUDTRAIL;
        source_event_id := e_source_event_id;
        event_time := event_time;
        ingested_at := now_ingested;
        processed_at := None;
        event_type := event_name;
        event_category := category;
        severity := severity;
        status := NEW;
        title := title;
        aws_context := Some aws_context;
        actor := Some actor;
        network := Some network;
        mitre_attack := mitre_attack;
        correlation_id := None;
        related_event_ids := [];
        raw_event := Some raw_event;
        tags := tags |}.

End Normalize.

End CloudTrail.

(* ===================================================================== *)
(** ** normalizers/guardduty.py *)
(* ===================================================================== *)

Module GuardDuty.
Import Models.

(** *** The network part of [normalize_guardduty_finding] *)

(** The [Service.Action] sub-tree of a finding, with the fields the
    normalizer reads at the types GuardDuty gives them.  For each nested
    dictionary [None] stands for a missing or empty (falsy) one and [Some]
    for a non-empty one, which may still lack any of the listed keys. *)
Record IpDetails := {
  IpAddressV4 : option string
}.

Record PortDetails := {
  Port : option Z
}.

Record NetworkConnection := {
  nc_RemoteIpDetails : option IpDetails;
  LocalPortDetails : option PortDetails;
  RemotePortDetails : option PortDetails;
  Protocol : option string
}.

Record AwsApiCall := {
  api_RemoteIpDetails : option IpDetails;
  UserAgent : option string
}.

Record Action := {
  NetworkConnectionAction : option NetworkConnection;
  AwsApiCallAction : option AwsApiCall
}.

(** [d.get("RemoteIpDetails", {}).get("IpAddressV4")] *)
Definition ip_address (d : option IpDetails) : option string :=
  match d with Some r => IpAddressV4 r | None => None end.

(** [d.get("...PortDetails", {}).get("Port")] *)
Definition port (d : option PortDetails) : option Z :=
  match d with Some r => Port r | None => None end.

(** The block "Network connection action". *)
Definition network_of_connection (action : Action) : option NetworkInfo :=
  match NetworkConnectionAction action with
  | Some network_info =>
      Some {| source_ip := ip_address (nc_RemoteIpDetails network_info);
              source_port := port (RemotePortDetails network_info);
              destination_ip := None;
              destination_port := port (LocalPortDetails network_info);
              protocol := Protocol network_info;
              user_agent := None |}
  | None => None
  end.

(** The block "AWS API call action": it runs after the first one and
    assigns [source_ip] and [user_agent] on whatever [network] holds. *)
Definition network_of_api_call (action : Action)
    (network : option NetworkInfo) : option NetworkInfo :=
  match AwsApiCallAction action with
  | Some api_call =>
      let network :=
        match network with
        | Some n => n
        | None => NetworkInfo_default
        end in
      Some {| source_ip := ip_address (api_RemoteIpDetails api_call);
              source_port := source_port network;
              destination_ip := destination_ip network;
              destination_port := destination_port network;
              protocol := protocol network;
              user_agent := UserAgent api_call |}
  | None => network
  end.

(** The value of [network] passed to [SecurityEvent]. *)
Definition extract_network (action : Action) : option NetworkInfo :=
  network_of_api_call action (network_of_connection action).

(** *** Severity, category and technique *)

Import QArith_base.

(** [map_guardduty_severity].  The argument is a Python [float] or [int];
    a finite one is the rational number it denotes, and its comparison
    with a float literal is the comparison of the two rationals. *)
Definition map_guardduty_severity (severity : Q) : EventSeverity :=
  if Qle_bool 8.0%Q severity then CRITICAL
  else if Qle_bool 6.0%Q severity then HIGH
  else if Qle_bool 4.0%Q severity then MEDIUM
  else if Qle_bool 2.0%Q severity then LOW
  else INFO.

(** The items of [MITRE_MAPPINGS], in source order: the prefix search of
    the normalizer walks them in this order. *)
Definition MITRE_MAPPINGS : list (string * MitreAttackInfo) :=
  [ ("Recon:EC2/PortProbeUnprotectedPort",
      CloudTrail.mitre "Reconnaissance" "T1595.001"
        "Active Scanning: Scanning IP Blocks");
    ("Recon:EC2/Portscan",
      CloudTrail.mitre "Reconnaissance" "T1595.001"
        "Active Scanning: Scanning IP Blocks");
    ("UnauthorizedAccess:EC2/SSHBruteForce",
      CloudTrail.mitre "Initial Access" "T1110.001"
        "Brute Force: Password Guessing");
    ("UnauthorizedAccess:EC2/RDPBruteForce",
      CloudTrail.mitre "Initial Access" "T1110.001"
        "Brute Force: Password Guessing");
    ("UnauthorizedAccess:IAMUser/ConsoleLoginSuccess.B",
      CloudTrail.mitre "Initial Access" "T1078.004"
        "Valid Accounts: Cloud Accounts");
    ("Execution:EC2/SuspiciousFile",
      CloudTrail.mitre "Execution" "T1204" "User Execution");
    ("Persistence:IAMUser/UserPermissions",
      CloudTrail.mitre "Persistence" "T1098" "Account Manipulation");
    ("PrivilegeEscalation:IAMUser/AdministrativePermissions",
      CloudTrail.mitre "Privilege Escalation" "T1098" "Account Manipulation");
    ("Stealth:IAMUser/CloudTrailLoggingDisabled",
      CloudTrail.mitre "Defense Evasion" "T1562.008"
        "Impair Defenses: Disable Cloud Logs");
    ("DefenseEvasion:EC2/UnusualDNSResolver",
      CloudTrail.mitre "Defense Evasion" "T1568" "Dynamic Resolution");
    ("CredentialAccess:IAMUser/AnomalousBehavior",
      CloudTrail.mitre "Credential Access" "T1528"
        "Steal Application Access Token");
    ("Discovery:IAMUser/AnomalousBehavior",
      CloudTrail.mitre "Discovery" "T1087.004"
        "Account Discovery: Cloud Account");
    ("Exfiltration:S3/ObjectRead.Unusual",
      CloudTrail.mitre "Exfiltration" "T1530" "Data from Cloud Storage");
    ("Exfiltration:S3/MaliciousIPCaller",
      CloudTrail.mitre "Exfiltration" "T1530" "Data from Cloud Storage");
    ("Impact:EC2/WinRMBruteForce",
      CloudTrail.mitre "Impact" "T1110" "Brute Force");
    ("Impact:S3/MaliciousIPCaller",
      CloudTrail.mitre "Impact" "T1485" "Data Destruction");
    ("CryptoCurrency:EC2/BitcoinTool.B",
      CloudTrail.mitre "Impact" "T1496" "Resource Hijacking");
    ("CryptoCurrency:EC2/BitcoinTool.B!DNS",
      CloudTrail.mitre "Impact" "T1496" "Resource Hijacking");
    ("Trojan:EC2/BlackholeTraffic",
      CloudTrail.mitre "Command and Control" "T1071"
        "Application Layer Protocol");
    ("Trojan:EC2/DropPoint",
      CloudTrail.mitre "Command and Control" "T1071"
        "Application Layer Protocol");
    ("Backdoor:EC2/DenialOfService.Tcp",
      CloudTrail.mitre "Impact" "T1498" "Network Denial of Service");
    ("Backdoor:EC2/DenialOfService.Udp",
      CloudTrail.mitre "Impact" "T1498" "Network Denial of Service") ].

Definition category_mapping : list (string * string) :=
  [ ("Recon", "reconnaissance");
    ("UnauthorizedAccess", "unauthorized_access");
    ("Execution", "execution");
    ("Persistence", "persistence");
    ("PrivilegeEscalation", "privilege_escalation");
    ("DefenseEvasion", "defense_evasion");
    ("Stealth", "defense_evasion");
    ("CredentialAccess", "credential_access");
    ("Discovery", "discovery");
    ("Exfiltration", "exfiltration");
    ("Impact", "impact");
    ("CryptoCurrency", "cryptomining");
    ("Trojan", "malware");
    ("Backdoor", "malware");
    ("Behavior", "anomaly");
    ("PenTest", "pentest");
    ("Policy", "policy_violation") ].

(** [categorize_guardduty_finding]: both arms of the conditional give the
    text before the first colon. *)
Definition categorize_guardduty_finding (finding_type : string) : string :=
  let prefix := Py.before_colon finding_type in
  Correlator.get (Py.dict_get prefix category_mapping) "other".

(** The loop "If no exact match, try prefix match": the first item whose
    key, cut at its colon and followed by a colon, starts the finding
    type. *)
Fixpoint prefix_match (finding_type : string)
    (items : list (string * MitreAttackInfo)) : option MitreAttackInfo :=
  match items with
  | [] => None
  | (key, value) :: rest =>
      if Py.startswith (String.append (Py.before_colon key) ":") finding_type
      then Some value
      else prefix_match finding_type rest
  end.

(** The technique of a finding type.  A model instance is always truthy,
    so [not mitre_attack] tests for [None]. *)
Definition technique_of (finding_type : string) : option MitreAttackInfo :=
  match Py.dict_get finding_type MITRE_MAPPINGS with
  | Some value => Some value
  | None => prefix_match finding_type MITRE_MAPPINGS
  end.

(** *** The finding and its normalization *)

(** The finding, with the fields the normalizer reads at the types
    GuardDuty gives them; as for [Action], [None] is a missing key and, for
    a nested dictionary, also an empty one.  [Description], [UpdatedAt] and
    [Service.Count] only reach [description] and [metadata], which
    [SecurityEvent] here does not carry. *)
Record InstanceDetails := {
  InstanceId : option string
}.

Record S3BucketDetail := {
  Arn : option string
}.

Record AccessKeyDetails := {
  PrincipalId : option string;
  UserType : option string;
  AccessKeyId : option string;
  UserName : option string
}.

Record Resource := {
  ResourceType : option string;
  res_InstanceDetails : option InstanceDetails;
  S3BucketDetails : list S3BucketDetail;
  res_AccessKeyDetails : option AccessKeyDetails
}.

Record Finding := {
  finding_Type : option string;
  Id : option string;
  AccountId : option string;
  Region : option string;
  CreatedAt : option string;
  Severity : option Q;
  fd_Resource : option Resource;
  fd_Action : option Action;
  Title : option string;
  payload : Json.dict
}.

(** A value assigned to [aws_context.resource_arn]. *)
Definition arn_value (o : option string) : Json.json :=
  match o with
  | Some s => Json.JStr s
  | None => Json.JNull
  end.

(** The tags of the normalized finding. *)
Definition finding_tags (category : string) (severity : EventSeverity)
    (mitre_attack : option MitreAttackInfo) (resource_type : string)
  : list string :=
  ["guardduty"; category]
  ++ match severity with
     | CRITICAL | HIGH => ["high-priority"]
     | _ => []
     end
  ++ match mitre_attack with
     | Some m => [String.append "mitre-" (technique_id m)]
     | None => []
     end
  ++ (if Py.truthy_str resource_type then [Py.lower resource_type] else []).

Section Normalize.

(** The environment of one call, as for the CloudTrail normalizer. *)
Variable datetime : Type.
Variable fromisoformat : string -> option datetime.
Variables now_fallback now_ingested : datetime.
Variable fresh_uuid : string.

Definition normalize_guardduty_finding (raw_finding : Finding)
  : SecurityEvent datetime :=
  let finding_type := Correlator.get (finding_Type raw_finding) "Unknown" in
  let finding_id := Correlator.get (Id raw_finding) "" in
  let account_id := Correlator.get (AccountId raw_finding) "" in
  let region := Correlator.get (Region raw_finding) "" in
  let created_at := Correlator.get (CreatedAt raw_finding) "" in
  let event_time :=
    CloudTrail.parse_event_time datetime fromisoformat now_fallback
      (Json.JStr created_at) in
  let gd_severity := Correlator.get (Severity raw_finding) 0%Q in
  let severity := map_guardduty_severity gd_severity in
  let resource := fd_Resource raw_finding in
  let resource_type :=
    match resource with
    | Some r => Correlator.get (ResourceType r) ""
    | None => ""
    end in
  let resource_arn := Json.JNull in
  let resource_arn :=
    match resource ≫= res_InstanceDetails with
    | Some instance_details => arn_value (InstanceId instance_details)
    | None => resource_arn
    end in
  let resource_arn :=
    match resource with
    | Some {| S3BucketDetails := s3_bucket :: _ |} => arn_value (Arn s3_bucket)
    | _ => resource_arn
    end in
  let aws_context :=
    {| account_id := Some account_id; region := Some region;
       service := None; resource_arn := resource_arn;
       resource_type := Json.JStr resource_type |} in
  let actor :=
    match resource ≫= res_AccessKeyDetails with
    | Some access_key_details =>
        Some {| principal_id := PrincipalId access_key_details;
                principal_type := UserType access_key_details;
                arn := None;
                access_key_id := AccessKeyId access_key_details;
                user_name := UserName access_key_details;
                session_name := None |}
    | None => None
    end in
  let network :=
    match fd_Action raw_finding with
    | Some action => extract_network action
    | None => None
    end in
  let mitre_attack := technique_of finding_type in
  let title :=
    Correlator.get (Title raw_finding)
      (String.append "GuardDuty: " finding_type) in
  let category := categorize_guardduty_finding finding_type in
  let tags := finding_tags category severity mitre_attack resource_type in
  {| event_id := fresh_uuid;
     source := GUARDDUTY;
     source_event_id := Some finding_id;
     event_time := event_time;
     ingested_at := now_ingested;
     processed_at := None;
     event_type := finding_type;
     event_category := category;
     severity := severity;
     status := NEW;
     title := title;
     aws_context := Some aws_context;
     actor := actor;
     network := network;
     mitre_attack := mitre_attack;
     correlation_id := None;
     related_event_ids := [];
     raw_event := Some (payload raw_finding);
     tags := tags |}.

End Normalize.

End GuardDuty.

(* ===================================================================== *)
(** ** alerting/alerts.py *)
(* ===================================================================== *)

Module Alerts.

(** The two settings read from the environment at import time. *)
Record Config := {
  ALERT_THRESHOLD_SEVERITY : string;
  ALERT_THRESHOLD_RISK_SCORE : Z
}.

(** The defaults of [os.environ.get]. *)
Definition default_config : Config :=
  {| ALERT_THRESHOLD_SEVERITY := "high";
     ALERT_THRESHOLD_RISK_SCORE := 70 |}.

Definition should_alert (cfg : Config) (event : Correlator.Event)
    (risk_score : Z) : bool :=
  let severity := Correlator.get (Correlator.severity event) "info" in
  if String.eqb severity "critical" then true
  else if String.eqb severity "high"
          && Py.str_in (ALERT_THRESHOLD_SEVERITY cfg)
               ["high"; "medium"; "low"; "info"] then true
  else if Z.leb (ALERT_THRESHOLD_RISK_SCORE cfg) risk_score then true
  else false.

End Alerts.

(* ===================================================================== *)
(** ** event-ingest/src/main.py *)
(* ===================================================================== *)

Module Ingest.
Import Models.

Section Ingest.

Variable datetime : Type.
Variable fromisoformat : string -> option datetime.
Variable isoformat : datetime -> string.

(** [serialize_event], on the keys the correlator, the risk scorer and the
    alerting decision read.  [model_dump] has no top-level [source_ip]
    key; a datetime and a severity are truthy and are replaced by their
    ISO text and their value; the nested dictionaries lose the keys that
    hold [None]; [tags], a list, is kept even when empty. *)
Definition serialize_event (event : SecurityEvent datetime)
  : Correlator.Event :=
  {| Correlator.event_id := Some (event_id event);
     Correlator.event_type := Some (event_type event);
     Correlator.event_time := Some (isoformat (event_time event));
     Correlator.severity := Some (severity_value (severity event));
     Correlator.source_ip := None;
     Correlator.network :=
       match network event with
       | Some n => Some {| Correlator.net_source_ip := source_ip n |}
       | None => None
       end;
     Correlator.actor :=
       match actor event with
       | Some a => Some {| Correlator.user_name := user_name a;
                           Correlator.arn := arn a |}
       | None => None
       end;
     Correlator.tags := Some (tags event);
     Correlator.mitre_attack := mitre_attack event |}.

(** What one call of the normalizer reads from its surroundings: three
    readings of the clock and a fresh identifier. *)
Record Readings := {
  now_default : datetime;
  now_fallback : datetime;
  now_ingested : datetime;
  fresh_uuid : string
}.

Record IngestionResponse := {
  status : string;
  events_received : nat;
  events_processed : nat;
  event_ids : list string
}.

(** The state of the loop of [ingest_cloudtrail]: the tasks handed to
    [background_tasks] (each stores and queues one event), [event_ids] and
    [processed]. *)
Record IngestState := {
  tasks : list (SecurityEvent datetime);
  ids : list string;
  processed : nat
}.

(** The body of the loop: [try] the normalizer; [except Exception] logs
    and goes on to the next record. *)
Definition ingest_step (st : IngestState) (item : Readings * Json.dict)
  : IngestState :=
  match CloudTrail.normalize_cloudtrail_event datetime fromisoformat
          isoformat (now_default item.1) (now_fallback item.1)
          (now_ingested item.1) (fresh_uuid item.1) item.2 with
  | Json.Ok normalized =>
      {| tasks := tasks st ++ [normalized];
         ids := ids st ++ [event_id normalized];
         processed := S (processed st) |}
  | Json.Raised => st
  end.

(** [ingest_cloudtrail]: each record of the request comes with the
    readings its normalization takes. *)
Definition ingest_cloudtrail (events : list (Readings * Json.dict))
  : IngestionResponse * list (SecurityEvent datetime) :=
  let st :=
    List.fold_left ingest_step events
      {| tasks := []; ids := []; processed := 0 |} in
  ({| status := "accepted";
      events_received := List.length events;
      events_processed := processed st;
      event_ids := ids st |},
   tasks st).

End Ingest.

Arguments now_default {datetime}.
Arguments now_fallback {datetime}.
Arguments now_ingested {datetime}.
Arguments fresh_uuid {datetime}.
Arguments tasks {datetime}.
Arguments ids {datetime}.
Arguments processed {datetime}.

End Ingest.

(* ===================================================================== *)
(** ** event-processor/src/main.py *)
(* ===================================================================== *)

Module Processor.
Import Correlator.

(** An SQS message: [Body] is the outcome of [json.loads] on the body
    text ([Raised] for text that is not JSON; a missing body reads as the
    empty object). *)
Record Message := {
  Body : Json.result Json.json;
  ReceiptHandle : string
}.

(** The calls to the outside made while a batch is processed. *)
Inductive Call :=
| send_event_alert (event : Event) (risk_score : Z)
    (correlations : list CorrelationRecord)
| send_correlation_alert (correlation : CorrelationRecord)
| update_event_status (event_id status : string) (risk_score : Z)
    (correlation_id : option string)
| delete_message (receipt_handle : string).

(** The global [stats], without the time of the last run. *)
Record Stats := {
  events_processed : nat;
  alerts_sent : nat;
  correlations_found : nat
}.

(** [correlation.get("event_ids", [])[:1] == [event_id]] *)
Definition first_id_is (event_id : string) (correlation : CorrelationRecord)
  : bool :=
  match event_ids correlation with
  | Some i :: _ => String.eqb i event_id
  | _ => false
  end.

(** [process_message].  Any exception ends the call with [False]; the two
    senders and [update_event_status] catch their own.  An [event_id]
    that is not text is either falsy or equal to no stored id, and the
    message is skipped in both cases. *)
Definition process_message (cfg : Alerts.Config) (message : Message)
    (recent_events : list Event) (stats : Stats)
  : bool * list Call * Stats :=
  match Body message ≫= Json.as_dict with
  | Json.Raised => (false, [], stats)
  | Json.Ok body =>
      match Json.get "event_id" body with
      | Json.JStr event_id =>
          if negb (Py.truthy_str event_id) then (false, [], stats)
          else
            match List.find
                    (fun e => bool_decide (Correlator.event_id e = Some event_id))
                    recent_events with
            | None => (false, [], stats)
            | Some event =>
                let correlations := correlate_events recent_events in
                let risk_score := calculate_risk_score event correlations in
                let event_correlations :=
                  List.filter (fun c => id_in event_id (event_ids c))
                              correlations in
                let correlation_id :=
                  match event_correlations with
                  | c :: _ => Some (Correlator.correlation_id c)
                  | [] => None
                  end in
                let alert := Alerts.should_alert cfg event risk_score in
                (true,
                 (if alert
                  then [send_event_alert event risk_score event_correlations]
                  else [])
                 ++ List.map send_correlation_alert
                      (List.filter (first_id_is event_id) correlations)
                 ++ [update_event_status event_id "processed" risk_score
                       correlation_id],
                 {| events_processed := S (events_processed stats);
                    alerts_sent :=
                      if alert then S (alerts_sent stats)
                      else alerts_sent stats;
                    correlations_found := List.length correlations |})
            end
      | _ => (false, [], stats)
      end
  end.


End Processor.

(* ===================================================================== *)
(** ** api-gateway/src/utils/dynamodb.py: [get_event_stats] *)
(* ===================================================================== *)

Module Dynamodb.

(** A scanned item, on the keys the statistics read. *)
Record Item := {
  severity : option string;
  source : option string;
  event_category : option string;
  event_type : option string;
  network : option Correlator.Network;
  event_time : option string
}.

(** [counts[k] = counts.get(k, 0) + 1] on a dictionary kept in insertion
    order. *)
Fixpoint increment (k : string) (counts : list (string * nat))
  : list (string * nat) :=
  match counts with
  | [] => [(k, 1%nat)]
  | (k', n) :: counts' =>
      if String.eqb k k' then (k', S n) :: counts'
      else (k', n) :: increment k counts'
  end.

(** The local variables of the counting loop. *)
Record Counters := {
  severity_counts : list (string * nat);
  source_counts : list (string * nat);
  category_counts : list (string * nat);
  event_type_counts : list (string * nat);
  source_ip_counts : list (string * nat);
  events_24h : nat;
  critical_24h : nat
}.

(** [network and network.get("source_ip")]: a truthy address. *)
Definition source_ip_of (item : Item) : option string :=
  match network item with
  | Some n => Py.truthy_opt (Correlator.net_source_ip n)
  | None => None
  end.

(** The body of the loop over the items. *)
Definition count_item (last_24h : string) (c : Counters) (item : Item)
  : Counters :=
  let sev := Correlator.get (severity item) "info" in
  let src := Correlator.get (source item) "unknown" in
  let cat := Correlator.get (event_category item) "unknown" in
  let et := Correlator.get (event_type item) "unknown" in
  let recent := Py.str_le last_24h (Correlator.get (event_time item) "") in
  {| severity_counts := increment sev (severity_counts c);
     source_counts := increment src (source_counts c);
     category_counts := increment cat (category_counts c);
     event_type_counts := increment et (event_type_counts c);
     source_ip_counts :=
       match source_ip_of item with
       | Some ip => increment ip (source_ip_counts c)
       | None => source_ip_counts c
       end;
     events_24h := if recent then S (events_24h c) else events_24h c;
     critical_24h :=
       if recent && String.eqb sev "critical" then S (critical_24h c)
       else critical_24h c |}.

(** [sorted(counts.items(), key=lambda x: x[1], reverse=True)]: a stable
    sort, so items with equal counts keep their order. *)
Fixpoint insert_by_count (x : string * nat) (l : list (string * nat))
  : list (string * nat) :=
  match l with
  | [] => [x]
  | h :: t => if Nat.leb h.2 x.2 then x :: h :: t
              else h :: insert_by_count x t
  end.

Definition sorted_by_count (l : list (string * nat)) : list (string * nat) :=
  List.fold_right insert_by_count [] l.

Record EventStats := {
  total_events : nat;
  events_by_severity : list (string * nat);
  events_by_source : list (string * nat);
  events_by_category : list (string * nat);
  events_last_24h : nat;
  critical_events_last_24h : nat;
  top_event_types : list (string * nat);
  top_source_ips : list (string * nat)
}.

(** [get_event_stats] on the scanned items; [last_24h] is the ISO text of
    the instant a day before the call. *)
Definition get_event_stats (last_24h : string) (items : list Item)
  : EventStats :=
  let c :=
    List.fold_left (count_item last_24h) items
      {| severity_counts := []; source_counts := []; category_counts := [];
         event_type_counts := []; source_ip_counts := [];
         events_24h := 0; critical_24h := 0 |} in
  {| total_events := List.length items;
     events_by_severity := severity_counts c;
     events_by_source := source_counts c;
     events_by_category := category_counts c;
     events_last_24h := events_24h c;
     critical_events_last_24h := critical_24h c;
     top_event_types := List.firstn 10 (sorted_by_count (event_type_counts c));
     top_source_ips := List.firstn 10 (sorted_by_count (source_ip_counts c)) |}.

End Dynamodb.

(* ===================================================================== *)
(** ** The properties of the design specification, in its own words *)
(* ===================================================================== *)

Module Spec.
Import Correlator.

(** §4.4, correlation-id derivation: the members are sorted
    chronologically, the first one is taken, and its event type and
    network source address are hashed with the rule name. *)
Definition network_source_ip (e : Event) : string :=
  match network e with
  | Some n => get (net_source_ip n) ""
  | None => ""
  end.

Definition correlation_id (rule_name : string) (members : list Event)
  : string :=
  let first_event := List.hd_error (sorted_by_time members) in
  let ty := match first_event with
            | Some e => get (event_type e) ""
            | None => "" end in
  let ip := match first_event with
            | Some e => network_source_ip e
            | None => "" end in
  Py.str_take 16
    (Sha256.hexdigest
       (String.append rule_name
          (String.append ":" (String.append ty (String.append ":" ip))))).

(** Chronological order of member events: no event is listed before an
    earlier one. *)
Definition earlier_eq (a b : Event) : Prop :=
  Py.str_le (time_of a) (time_of b) = true.

Definition chronological (members : list Event) : Prop :=
  StronglySorted earlier_eq members.

(** The same for a list of event ids, resolved against the events they
    name. *)
Definition time_of_id (events : list Event) (id : option string) : string :=
  match List.find (fun e => bool_decide (event_id e = id)) events with
  | Some e => time_of e
  | None => ""
  end.

Fixpoint nondecreasing (ts : list string) : bool :=
  match ts with
  | a :: ((b :: _) as rest) => Py.str_le a b && nondecreasing rest
  | _ => true
  end.

Definition ids_chronological (events : list Event)
    (ids : list (option string)) : bool :=
  nondecreasing (List.map (time_of_id events) ids).

(** §4.4, R2: a successful console login. *)
Definition successful_login (e : Event) : Prop :=
  get (event_type e) "" = "ConsoleLogin" /\ "error" ∉ get (tags e) [].

(** §4.5, the risk scorer. *)
Definition severity_of (s : option string) : Models.EventSeverity :=
  match s with
  | Some "critical" => Models.CRITICAL
  | Some "high" => Models.HIGH
  | Some "medium" => Models.MEDIUM
  | Some "low" => Models.LOW
  | _ => Models.INFO
  end.

Definition base (s : Models.EventSeverity) : Z :=
  match s with
  | Models.CRITICAL => 80
  | Models.HIGH => 60
  | Models.MEDIUM => 40
  | Models.LOW => 20
  | Models.INFO => 10
  end.

Definition clamp (lo hi x : Z) : Z := Z.max lo (Z.min x hi).

(** The correlations whose [event_ids] contain the id of [e]. *)
Definition containing (e : Event) (cs : list CorrelationRecord)
  : list CorrelationRecord :=
  List.filter
    (fun c => bool_decide (Some (get (event_id e) "") ∈ event_ids c)) cs.

Definition risk_score (e : Event) (cs : list CorrelationRecord) : Z :=
  clamp 0 100
    (base (severity_of (severity e))
     + 20 * Z.of_nat (List.length (containing e cs))
     + (if bool_decide (mitre_attack e = None) then 0 else 10)
     + (if bool_decide ("root-account" ∈ get (tags e) []) then 30 else 0)).

(** §4.2, what it means for an event name to match a pattern
    case-insensitively: [.*] stands for any text without a line feed, a
    literal for itself up to the case of letters, and the match is
    anchored at the start of the name only. *)
Fixpoint one_line (u : string) : bool :=
  match u with
  | EmptyString => true
  | String c u' => negb (Ascii.eqb c "010"%char) && one_line u'
  end.

Inductive Matches : CloudTrail.regex -> string -> Prop :=
| Matches_end s :
    Matches [] s
| Matches_lit l p x s :
    Py.lower x = Py.lower l -> Matches p s ->
    Matches (CloudTrail.Lit l :: p) (String.append x s)
| Matches_star p u s :
    one_line u = true -> Matches p s ->
    Matches (CloudTrail.AnyStar :: p) (String.append u s).

(** §4.2, input: the value under [k] is acceptable to a schema field
    declared [Optional[str]], that is, the key is missing or holds null or
    text. *)
Definition text_or_absent (k : string) (raw_event : Json.dict) : Prop :=
  Json.lookup k raw_event = None
  \/ Json.lookup k raw_event = Some Json.JNull
  \/ exists s, Json.lookup k raw_event = Some (Json.JStr s).

End Spec.

(* ===================================================================== *)
(** ** Notions used to state the properties of the code *)
(* ===================================================================== *)

Module Notions.

(** *** Dictionaries and groups *)

Definition option_list {A} (o : option A) : list A :=
  match o with Some a => [a] | None => [] end.

(** The events of [l] whose key is [k]. *)
Definition with_key (key : Correlator.Event -> string) (k : string)
    (l : list Correlator.Event) : list Correlator.Event :=
  List.filter (fun e => String.eqb (key e) k) l.

(** The state of the grouping loop after the events [pre]: one bucket per
    key seen, holding the events of that key in order. *)
Definition grouped (key : Correlator.Event -> string)
    (pre : list Correlator.Event)
    (m : list (string * list Correlator.Event)) : Prop :=
  NoDup m.*1
  /\ forall k, match Py.dict_get k m with
               | Some es => es = with_key key k pre /\ es <> []
               | None => with_key key k pre = []
               end.

(** *** Correlation rules *)

(** The failed console logins from the address [ip]. *)
Definition failed_logins_from (ip : string) (events : list Correlator.Event)
  : list Correlator.Event :=
  List.filter
    (fun e => Correlator.event_type_in ["ConsoleLogin"] e
              && String.eqb (Correlator.ip_of e) ip
              && Correlator.has_failure_tag e)
    events.

(** The discovery calls from the address [ip]. *)
Definition discovery_calls_from (ip : string)
    (events : list Correlator.Event) : list Correlator.Event :=
  List.filter
    (fun e => Correlator.is_discovery e
              && String.eqb (Correlator.ip_of e) ip)
    events.

(** The two tests of the privilege-escalation scan. *)
Definition is_login (e : Correlator.Event) : bool :=
  String.eqb (Correlator.get (Correlator.event_type e) "") "ConsoleLogin"
  && negb (Py.str_in "error" (Correlator.get (Correlator.tags e) [])).

Definition is_iam_change (e : Correlator.Event) : bool :=
  Py.str_in (Correlator.get (Correlator.event_type e) "")
            Correlator.IAM_CHANGES.

(** A login with an IAM change somewhere after it. *)
Fixpoint has_follow_up (l : list Correlator.Event) : bool :=
  match l with
  | [] => false
  | e :: l' => if is_login e then existsb is_iam_change l'
               else has_follow_up l'
  end.

(** The event [e] with [t] as its [event_time] entry. *)
Definition at_time (t : option string) (e : Correlator.Event)
  : Correlator.Event :=
  {| Correlator.event_id := Correlator.event_id e;
     Correlator.event_type := Correlator.event_type e;
     Correlator.event_time := t;
     Correlator.severity := Correlator.severity e;
     Correlator.source_ip := Correlator.source_ip e;
     Correlator.network := Correlator.network e;
     Correlator.actor := Correlator.actor e;
     Correlator.tags := Correlator.tags e;
     Correlator.mitre_attack := Correlator.mitre_attack e |}.

(** A bucket with every event passed through [g]. *)
Definition map_bucket (g : Correlator.Event -> Correlator.Event)
    (b : string * list Correlator.Event) : string * list Correlator.Event :=
  (b.1, List.map g b.2).

(** *** Correlation ids *)

Definition is_hex (c : ascii) : bool :=
  existsb (Ascii.eqb c) (list_ascii_of_string "0123456789abcdef").

(** A text of lower-case hexadecimal digits. *)
Fixpoint all_hex (s : string) : bool :=
  match s with
  | EmptyString => true
  | String c s' => is_hex c && all_hex s'
  end.

(** *** The processor *)

(** The event id a message names: the text under [event_id] in its
    body. *)
Definition message_event_id (message : Processor.Message) : option string :=
  match Processor.Body message ≫= Json.as_dict with
  | Json.Ok body =>
      match Json.get "event_id" body with
      | Json.JStr event_id => Some event_id
      | _ => None
      end
  | Json.Raised => None
  end.

(** The stored event a message is about: the first one with the id. *)
Definition message_event (message : Processor.Message)
    (recent_events : list Correlator.Event) : option Correlator.Event :=
  match message_event_id message with
  | Some event_id =>
      if Py.truthy_str event_id
      then List.find
             (fun e => bool_decide (Correlator.event_id e = Some event_id))
             recent_events
      else None
  | None => None
  end.



(** *** The CloudTrail normalizer and the ingestion loop *)

(** The error code of a record when it is text. *)
Definition error_code_of (raw_event : Json.dict) : option string :=
  match Json.get "errorCode" raw_event with
  | Json.JStr c => Some c
  | _ => None
  end.

(** Whether the CloudTrail normalizer accepts a record, tried with a
    clock that has a single instant. *)
Definition accepts (raw_event : Json.dict) : bool :=
  match CloudTrail.normalize_cloudtrail_event unit (fun _ => None)
          (fun _ => "") tt tt tt "" raw_event with
  | Json.Ok _ => true
  | Json.Raised => false
  end.

(** The normalizer on a record of a request, with the readings that come
    with it. *)
Definition normalize_item (datetime : Type)
    (fromisoformat : string -> option datetime)
    (isoformat : datetime -> string)
    (item : Ingest.Readings datetime * Json.dict)
  : Json.result (Models.SecurityEvent datetime) :=
  CloudTrail.normalize_cloudtrail_event datetime fromisoformat isoformat
    (Ingest.now_default item.1) (Ingest.now_fallback item.1)
    (Ingest.now_ingested item.1) (Ingest.fresh_uuid item.1) item.2.

(** *** The GuardDuty tables *)

(** For each text that starts a key of [MITRE_MAPPINGS] up to its colon,
    the technique id of the first such key. *)
Definition PREFIX_TECHNIQUES : list (string * string) :=
  [ ("Recon", "T1595.001"); ("UnauthorizedAccess", "T1110.001");
    ("Execution", "T1204"); ("Persistence", "T1098");
    ("PrivilegeEscalation", "T1098"); ("Stealth", "T1562.008");
    ("DefenseEvasion", "T1568"); ("CredentialAccess", "T1528");
    ("Discovery", "T1087.004"); ("Exfiltration", "T1530");
    ("Impact", "T1110"); ("CryptoCurrency", "T1496");
    ("Trojan", "T1071"); ("Backdoor", "T1498") ].

(** *** The statistics *)

(** The keys under which the statistics count an item. *)
Definition severity_key (item : Dynamodb.Item) : string :=
  Correlator.get (Dynamodb.severity item) "info".

Definition source_key (item : Dynamodb.Item) : string :=
  Correlator.get (Dynamodb.source item) "unknown".

Definition category_key (item : Dynamodb.Item) : string :=
  Correlator.get (Dynamodb.event_category item) "unknown".

Definition event_type_key (item : Dynamodb.Item) : string :=
  Correlator.get (Dynamodb.event_type item) "unknown".

(** The number of items whose key is [k]. *)
Definition occurrences (key : Dynamodb.Item -> string) (k : string)
    (items : list Dynamodb.Item) : nat :=
  List.length (List.filter (fun item => String.eqb (key item) k) items).

(** The sum of the counts of a table. *)
Definition total (counts : list (string * nat)) : nat :=
  List.fold_right (fun kv acc => (kv.2 + acc)%nat) 0%nat counts.

(** An item of the last day. *)
Definition recent (last_24h : string) (item : Dynamodb.Item) : bool :=
  Py.str_le last_24h (Correlator.get (Dynamodb.event_time item) "").

(** Counts in non-increasing order. *)
Definition by_count_desc (a b : string * nat) : Prop := (b.2 <= a.2)%nat.

(** The state of one counting table after the items [pre]. *)
Definition tallied (key : Dynamodb.Item -> string)
    (pre : list Dynamodb.Item) (m : list (string * nat)) : Prop :=
  NoDup m.*1
  /\ total m = List.length pre
  /\ forall k, match Py.dict_get k m with
               | Some n => n = occurrences key k pre /\ (0 < n)%nat
               | None => occurrences key k pre = 0%nat
               end.

End Notions.

(* ===================================================================== *)
(** ** Concrete inputs *)
(* ===================================================================== *)

Module Examples.
Import Correlator.

(** A stored CloudTrail event as [serialize_event] writes it. *)
Definition stored (id ty time : string) (ip user : option string)
    (tgs : list string) : Event :=
  {| event_id := Some id;
     event_type := Some ty;
     event_time := Some time;
     severity := Some "high";
     source_ip := None;
     network := Some {| net_source_ip := ip |};
     actor := Some {| user_name := user; arn := None |};
     tags := Some tgs;
     mitre_attack := None |}.

(** Two tampering events, the later one first. *)
Definition stop_logging_late : Event :=
  stored "event-003-stop-logging" "StopLogging" "2024-05-01T10:20:00"
         (Some "198.51.100.100") (Some "suspicious") ["cloudtrail"].

Definition delete_trail_early : Event :=
  stored "event-007-delete-trail" "DeleteTrail" "2024-05-01T10:10:00"
         (Some "192.0.2.1") (Some "suspicious") ["cloudtrail"].

(** A login, a key creation five minutes later, and a second login. *)
Definition login_1 : Event :=
  stored "event-001-console-login" "ConsoleLogin" "2024-05-01T10:00:00"
         (Some "203.0.113.50") (Some "alice") ["cloudtrail"; "signin"].

Definition create_key : Event :=
  stored "event-002-create-access-key" "CreateAccessKey"
         "2024-05-01T10:05:00"
         (Some "203.0.113.50") (Some "alice") ["cloudtrail"; "iam"].

Definition login_2 : Event :=
  stored "event-009-console-login" "ConsoleLogin" "2024-05-01T10:30:00"
         (Some "203.0.113.50") (Some "alice") ["cloudtrail"; "signin"].

(** The record emitted for [login_1; create_key]. *)
Definition escalation_emitted : CorrelationRecord :=
  {| rule := "privilege_escalation";
     description := "IAM modifications following authentication";
     cr_source_ip := None;
     cr_actor := Some "alice";
     sequence := Some [Some "ConsoleLogin"; Some "CreateAccessKey"];
     event_count := 2;
     event_ids := [Some "event-001-console-login";
                   Some "event-002-create-access-key"];
     cr_severity := "critical";
     correlation_id := "f766f1247f683ff4" |}.

(** The record emitted for [delete_trail_early; login_1;
    stop_logging_late]. *)
Definition tampering_emitted : CorrelationRecord :=
  {| rule := "logging_tampering";
     description := "CloudTrail logging modifications";
     cr_source_ip := None;
     cr_actor := None;
     sequence := None;
     event_count := 2;
     event_ids := [Some "event-007-delete-trail";
                   Some "event-003-stop-logging"];
     cr_severity := "critical";
     correlation_id := "5d1912b7de0d4dc6" |}.

(** Six failed console logins from one address (scenario 2). *)
Definition failed_login (minute : string) : Event :=
  stored (String.append "event-brute-" minute) "ConsoleLogin"
         (String.append "2024-05-01T11:0" (String.append minute ":00"))
         (Some "198.51.100.200") (Some "target")
         ["cloudtrail"; "signin"; "error"; "accessdenied"].

Definition failed_logins : list Event :=
  List.map failed_login ["5"; "6"; "7"; "8"; "9"; "4"].

Definition brute_force_emitted : CorrelationRecord :=
  {| rule := "brute_force";
     description := "Multiple failed authentication attempts";
     cr_source_ip := Some "198.51.100.200";
     cr_actor := None;
     sequence := None;
     event_count := 6;
     event_ids := List.map event_id failed_logins;
     cr_severity := "high";
     correlation_id := "14431a1dda66b198" |}.

(** Twenty-one discovery calls from one address. *)
Definition discovery_call (n : string) : Event :=
  stored (String.append "event-list-" n) "ListBuckets"
         (String.append "2024-05-01T11:30:" n)
         (Some "203.0.113.77") (Some "scanner") ["cloudtrail"; "s3"].

Definition discovery_calls : list Event :=
  List.map discovery_call
    ["00"; "01"; "02"; "03"; "04"; "05"; "06"; "07"; "08"; "09"; "10";
     "11"; "12"; "13"; "14"; "15"; "16"; "17"; "18"; "19"; "20"].

Definition reconnaissance_emitted : CorrelationRecord :=
  {| rule := "reconnaissance";
     description := "Multiple discovery API calls";
     cr_source_ip := Some "203.0.113.77";
     cr_actor := None;
     sequence := None;
     event_count := 21;
     event_ids := List.map event_id (List.firstn 20 discovery_calls);
     cr_severity := "medium";
     correlation_id := "1b23c6d3835d643b" |}.

(** A HIGH event with a technique, without and with the root tag. *)
Definition high_event (tgs : list string) : Event :=
  {| event_id := Some "event-001-console-login";
     event_type := Some "ConsoleLogin";
     event_time := Some "2024-05-01T10:00:00";
     severity := Some "high";
     source_ip := None;
     network := Some {| net_source_ip := Some "203.0.113.50" |};
     actor := Some {| user_name := Some "alice"; arn := None |};
     tags := Some tgs;
     mitre_attack :=
       Some (CloudTrail.mitre "Initial Access" "T1078" "Valid Accounts") |}.

(** A finding that carries both actions, with different remote
    addresses. *)
Definition connection : GuardDuty.NetworkConnection :=
  {| GuardDuty.nc_RemoteIpDetails :=
       Some {| GuardDuty.IpAddressV4 := Some "203.0.113.100" |};
     GuardDuty.LocalPortDetails := Some {| GuardDuty.Port := Some 22 |};
     GuardDuty.RemotePortDetails := Some {| GuardDuty.Port := Some 8333 |};
     GuardDuty.Protocol := Some "TCP" |}.

Definition api_call : GuardDuty.AwsApiCall :=
  {| GuardDuty.api_RemoteIpDetails :=
       Some {| GuardDuty.IpAddressV4 := Some "198.51.100.50" |};
     GuardDuty.UserAgent := Some "aws-sdk-python/1.0" |}.

Definition both_actions : GuardDuty.Action :=
  {| GuardDuty.NetworkConnectionAction := Some connection;
     GuardDuty.AwsApiCallAction := Some api_call |}.

(** An environment for the CloudTrail normalizer in which instants are
    their own ISO-8601 text. *)
Definition iso_parse (s : string) : option string :=
  if Py.truthy_str s then Some s else None.

Definition normalize (raw_event : Json.dict)
  : Json.result (Models.SecurityEvent string) :=
  CloudTrail.normalize_cloudtrail_event string iso_parse (fun t => t)
    "2024-05-01T12:00:00.000100" "2024-05-01T12:00:00.000200"
    "2024-05-01T12:00:00.000300" "0b0e7a9c-5d1f-4c55-9a43-3f1c2d9e8a10"
    raw_event.

(** A record without any of the optional fields but with a source
    address that is not text. *)
Definition raw_list_address : Json.dict :=
  [("sourceIPAddress", Json.JList [])].

(** The root identity creating a user (scenario 1). *)
Definition raw_root_create_user : Json.dict :=
  [("eventVersion", Json.JStr "1.08");
   ("userIdentity",
     Json.JObj [("type", Json.JStr "Root");
                ("principalId", Json.JStr "123456789012");
                ("arn", Json.JStr "arn:aws:iam::123456789012:root");
                ("accountId", Json.JStr "123456789012")]);
   ("eventTime", Json.JStr "2024-05-01T11:45:00Z");
   ("eventSource", Json.JStr "iam.amazonaws.com");
   ("eventName", Json.JStr "CreateUser");
   ("awsRegion", Json.JStr "us-east-1");
   ("sourceIPAddress", Json.JStr "192.0.2.1");
   ("userAgent", Json.JStr "console.amazonaws.com");
   ("requestParameters",
     Json.JObj [("userName", Json.JStr "backdoor-admin")]);
   ("eventID", Json.JStr "event-004-root-create-user")].

(** A record with a region and an event id only. *)
Definition raw_minimal : Json.dict :=
  [("awsRegion", Json.JStr "us-east-1");
   ("eventID", Json.JStr "event-010")].

(** A failed console login, one of the sample records of the test
    script. *)
Definition raw_failed_login : Json.dict :=
  [("eventVersion", Json.JStr "1.08");
   ("userIdentity",
     Json.JObj [("type", Json.JStr "IAMUser");
                ("principalId", Json.JStr "AIDAATTACKER");
                ("arn", Json.JStr "arn:aws:iam::123456789012:user/target");
                ("accountId", Json.JStr "123456789012");
                ("userName", Json.JStr "target")]);
   ("eventTime", Json.JStr "2024-05-01T11:05:00Z");
   ("eventSource", Json.JStr "signin.amazonaws.com");
   ("eventName", Json.JStr "ConsoleLogin");
   ("awsRegion", Json.JStr "us-east-1");
   ("sourceIPAddress", Json.JStr "198.51.100.200");
   ("userAgent", Json.JStr "Mozilla/5.0");
   ("errorCode", Json.JStr "AccessDenied");
   ("errorMessage", Json.JStr "Invalid credentials");
   ("eventID", Json.JStr "event-brute-5")].

(** The identity of [raw_root_create_user]. *)
Definition root_identity : Json.dict :=
  [("type", Json.JStr "Root");
   ("principalId", Json.JStr "123456789012");
   ("arn", Json.JStr "arn:aws:iam::123456789012:root");
   ("accountId", Json.JStr "123456789012")].

(** A trail being stopped, as ingested and stored. *)
Definition raw_stop_logging : Json.dict :=
  [("eventVersion", Json.JStr "1.08");
   ("userIdentity",
     Json.JObj [("type", Json.JStr "IAMUser");
                ("principalId", Json.JStr "AIDAMALICIOUS");
                ("arn",
                  Json.JStr "arn:aws:iam::123456789012:user/suspicious");
                ("accountId", Json.JStr "123456789012");
                ("userName", Json.JStr "suspicious")]);
   ("eventTime", Json.JStr "2024-05-01T11:40:00Z");
   ("eventSource", Json.JStr "cloudtrail.amazonaws.com");
   ("eventName", Json.JStr "StopLogging");
   ("awsRegion", Json.JStr "us-east-1");
   ("sourceIPAddress", Json.JStr "198.51.100.100");
   ("userAgent", Json.JStr "aws-cli/2.0");
   ("requestParameters", Json.JObj [("name", Json.JStr "main-trail")]);
   ("responseElements", Json.JNull);
   ("eventID", Json.JStr "event-003-stop-logging")].

Definition stored_events : list (Models.SecurityEvent string) :=
  match normalize raw_stop_logging with
  | Json.Ok ev => [ev]
  | Json.Raised => []
  end.

Definition stored_tampering_emitted : CorrelationRecord :=
  {| rule := "logging_tampering";
     description := "CloudTrail logging modifications";
     cr_source_ip := None;
     cr_actor := None;
     sequence := None;
     event_count := 1;
     event_ids := [Some "0b0e7a9c-5d1f-4c55-9a43-3f1c2d9e8a10"];
     cr_severity := "critical";
     correlation_id := "5c5b65e2d4bd37a6" |}.

(** Queue messages as [queue_event] writes them, and a batch of two. *)
Definition message_for (id : string) : Processor.Message :=
  {| Processor.Body :=
       Json.Ok (Json.JObj [("event_id", Json.JStr id);
                           ("source", Json.JStr "cloudtrail");
                           ("severity", Json.JStr "high");
                           ("event_type", Json.JStr "ConsoleLogin")]);
     Processor.ReceiptHandle := String.append "receipt-" id |}.


Definition no_stats : Processor.Stats :=
  {| Processor.events_processed := 0;
     Processor.alerts_sent := 0;
     Processor.correlations_found := 0 |}.

End Examples.

(* ===================================================================== *)
(** * Properties *)
(* ===================================================================== *)

(** ** Proof tactics *)

(** Closes one branch of the priority chain: every rule but the one that
    applied is excluded by a hypothesis. *)
Ltac first_match_case :=
  repeat split; intros; solve [reflexivity | contradiction | tauto].

(** ** The SHA-256 model against the FIPS 180-4 test vectors *)

Example sha256_empty :
  Sha256.hexdigest "" =
  "e3b0c44298fc1c149afbf4c8996fb92427ae41e4649b934ca495991b7852b855".
Proof. vm_compute. reflexivity. Qed.

Example sha256_abc :
  Sha256.hexdigest "abc" =
  "ba7816bf8f01cfea414140de5dae2223b00361a396177a9cb410ff61f20015ad".
Proof. vm_compute. reflexivity. Qed.

Example sha256_two_blocks :
  Sha256.hexdigest
    "aaaaaaaaaaaaaaaaaaaaaaaaaaaaaaaaaaaaaaaaaaaaaaaaaaaaaaaaaaaaaaaaaaaaaa" =
  "6bd5e5034855a11241f0dee8fc72850ffd9955b28347a86428b5fa19119f6ad0".
Proof. vm_compute. reflexivity. Qed.

(** ** String primitives *)

Section PyFacts.

Lemma str_in_elem_of (x : string) (xs : list string) :
  Py.str_in x xs = true <-> x ∈ xs.
Proof.
  unfold Py.str_in. rewrite existsb_exists. split.
  - intros (y & Hy & Heq). apply String.eqb_eq in Heq. subst y.
    by apply list_elem_of_In.
  - intros Hin. exists x. split; [by apply list_elem_of_In|].
    apply String.eqb_refl.
Qed.

Lemma startswith_append (p s : string) :
  Py.startswith p s = true <-> exists r, s = String.append p r.
Proof.
  revert s. induction p as [|a p IH]; intros s; simpl.
  - split; [intros _; by exists s | done].
  - destruct s as [|b s]; simpl.
    + split; [done | intros (r & Hr); discriminate].
    + rewrite andb_true_iff, Ascii.eqb_eq, IH. split.
      * intros (-> & r & ->). by exists r.
      * intros (r & Hr). injection Hr as -> ->. split; [done | by exists r].
Qed.

Lemma contains_append (p s : string) :
  Py.contains p s = true <->
  exists a b, s = String.append a (String.append p b).
Proof.
  induction s as [|c s IH].
  - simpl. rewrite orb_false_r, startswith_append. split.
    + intros (r & Hr). by exists EmptyString, r.
    + intros (a & b & Hab). destruct a; simpl in Hab; [by exists b | discriminate].
  - cbn [Py.contains]. rewrite orb_true_iff, startswith_append, IH. split.
    + intros [(r & Hr) | (a & b & Hab)].
      * by exists EmptyString, r.
      * exists (String c a), b. simpl. by rewrite Hab.
    + intros (a & b & Hab). destruct a as [|c' a]; simpl in Hab.
      * left. by exists b.
      * right. injection Hab as _ Hs. by exists a, b.
Qed.

End PyFacts.

(** ** Risk scorer *)

Section RiskScore.
Import Correlator.

Lemma id_in_elem_of (eid : string) (ids : list (option string)) :
  id_in eid ids = true <-> Some eid ∈ ids.
Proof.
  unfold id_in. rewrite existsb_exists. split.
  - intros ([i|] & Hin & Heq); [|discriminate].
    apply String.eqb_eq in Heq. subst i. by apply list_elem_of_In.
  - intros Hin. exists (Some eid). split; [by apply list_elem_of_In|].
    apply String.eqb_refl.
Qed.

(** The accumulation loop adds 20 per correlation that lists the id. *)
Lemma correlation_loop (eid : string) (cs : list CorrelationRecord) (z : Z) :
  List.fold_left
    (fun score c => if id_in eid (event_ids c) then score + 20 else score)
    cs z
  = z + 20 * Z.of_nat
          (List.length
             (List.filter
                (fun c => bool_decide (Some eid ∈ event_ids c)) cs)).
Proof.
  revert z. induction cs as [|c cs IH]; intros z; simpl.
  - lia.
  - rewrite IH.
    destruct (id_in eid (event_ids c)) eqn:Hid.
    + apply id_in_elem_of in Hid.
      rewrite bool_decide_eq_true_2 by done. simpl List.length. lia.
    + rewrite bool_decide_eq_false_2; [lia|].
      intros Hin. apply id_in_elem_of in Hin. congruence.
Qed.

Lemma severity_base (s : option string) :
  get (severity_scores (get s "info")) 10 = Spec.base (Spec.severity_of s).
Proof.
  destruct s as [s|]; [|reflexivity].
  unfold severity_scores, get.
  destruct (String.eqb s "critical") eqn:E1;
    [apply String.eqb_eq in E1; by subst|].
  destruct (String.eqb s "high") eqn:E2;
    [apply String.eqb_eq in E2; by subst|].
  destruct (String.eqb s "medium") eqn:E3;
    [apply String.eqb_eq in E3; by subst|].
  destruct (String.eqb s "low") eqn:E4;
    [apply String.eqb_eq in E4; by subst|].
  apply String.eqb_neq in E1, E2, E3, E4.
  assert (Spec.severity_of (Some s) = Models.INFO) as ->.
  { unfold Spec.severity_of.
    repeat match goal with
           | |- context [match ?x with _ => _ end] => destruct x; try congruence
           end. }
  by destruct (String.eqb s "info").
Qed.

Lemma base_bounds (s : Models.EventSeverity) : 10 <= Spec.base s <= 80.
Proof. destruct s; simpl; lia. Qed.

Lemma risk_score_unfold (e : Event) (cs : list CorrelationRecord) :
  calculate_risk_score e cs =
  Z.min (Spec.base (Spec.severity_of (severity e))
         + 20 * Z.of_nat (List.length (Spec.containing e cs))
         + (if bool_decide (mitre_attack e = None) then 0 else 10)
         + (if bool_decide ("root-account" ∈ get (tags e) []) then 30 else 0))
        100.
Proof.
  unfold calculate_risk_score. rewrite correlation_loop, severity_base.
  unfold Spec.containing. f_equal.
  destruct (mitre_attack e) as [m|];
    [rewrite bool_decide_eq_false_2 by done
    |rewrite bool_decide_eq_true_2 by done];
    (destruct (Py.str_in "root-account" (get (tags e) [])) eqn:Hroot;
     [apply str_in_elem_of in Hroot; rewrite bool_decide_eq_true_2 by done
     |rewrite bool_decide_eq_false_2
        by (intros H; apply str_in_elem_of in H; congruence)]); lia.
Qed.

End RiskScore.

(** C6: the risk score is the severity base plus 20 per correlation that
    lists the event's id, plus 10 for a non-null technique, plus 30 for the
    [root-account] tag, clamped to [0, 100]; a HIGH event with a technique
    in exactly one correlation scores 90 without the tag and 100 with it. *)
Theorem risk_score_composition :
  forall (e : Correlator.Event) (cs : list Correlator.CorrelationRecord),
    Correlator.calculate_risk_score e cs = Spec.risk_score e cs
    /\ (Correlator.severity e = Some "high" ->
        Correlator.mitre_attack e <> None ->
        List.length (Spec.containing e cs) = 1%nat ->
        ("root-account" ∉ Correlator.get (Correlator.tags e) [] ->
           Correlator.calculate_risk_score e cs = 90)
        /\ ("root-account" ∈ Correlator.get (Correlator.tags e) [] ->
           Correlator.calculate_risk_score e cs = 100)).
Proof.
  intros e cs. split.
  - rewrite risk_score_unfold. unfold Spec.risk_score, Spec.clamp.
    pose proof (base_bounds (Spec.severity_of (Correlator.severity e))).
    repeat case_bool_decide; lia.
  - intros Hsev Hmitre Hone. rewrite risk_score_unfold, Hsev, Hone.
    rewrite (bool_decide_eq_false_2 _ Hmitre). simpl Spec.base.
    split; intros Hroot.
    + rewrite bool_decide_eq_false_2 by done. reflexivity.
    + rewrite bool_decide_eq_true_2 by done. reflexivity.
Qed.

Lemma risk_score_composition_witness :
  Correlator.severity (Examples.high_event ["cloudtrail"; "signin"])
  = Some "high"
  /\ Correlator.mitre_attack (Examples.high_event ["cloudtrail"; "signin"])
     <> None
  /\ List.length
       (Spec.containing (Examples.high_event ["cloudtrail"; "signin"])
          [Examples.escalation_emitted]) = 1%nat
  /\ ("root-account"
      ∉ Correlator.get
          (Correlator.tags (Examples.high_event ["cloudtrail"; "signin"])) [])
  /\ Correlator.calculate_risk_score
       (Examples.high_event ["cloudtrail"; "signin"])
       [Examples.escalation_emitted] = 90.
Proof.
  assert (H1 : Correlator.severity
                 (Examples.high_event ["cloudtrail"; "signin"]) = Some "high")
    by reflexivity.
  assert (H2 : Correlator.mitre_attack
                 (Examples.high_event ["cloudtrail"; "signin"]) <> None)
    by discriminate.
  assert (H3 : List.length
                 (Spec.containing
                    (Examples.high_event ["cloudtrail"; "signin"])
                    [Examples.escalation_emitted]) = 1%nat)
    by (vm_compute; reflexivity).
  assert (H4 : "root-account"
               ∉ Correlator.get
                   (Correlator.tags
                      (Examples.high_event ["cloudtrail"; "signin"])) []).
  { intros H%str_in_elem_of. discriminate. }
  repeat (split; [assumption|]).
  exact (proj1 (proj2 (risk_score_composition
                         (Examples.high_event ["cloudtrail"; "signin"])
                         [Examples.escalation_emitted]) H1 H2 H3) H4).
Defined.

(** C9: the score lies in [10, 100]; the lower bound is 10 because every
    severity, a missing or unrecognised one included, contributes at least
    10 and no other term is negative. *)
Theorem risk_score_bounds :
  forall (e : Correlator.Event) (cs : list Correlator.CorrelationRecord),
    10 <= Correlator.calculate_risk_score e cs <= 100.
Proof.
  intros e cs. rewrite risk_score_unfold.
  pose proof (base_bounds (Spec.severity_of (Correlator.severity e))).
  repeat case_bool_decide; lia.
Qed.

(** ** Alerting decision *)

(** C8: under the default configuration an event alerts exactly when its
    severity is critical, or high, or the risk score is at least 70. *)
Theorem should_alert_default :
  forall (e : Correlator.Event) (risk_score : Z),
    Alerts.should_alert Alerts.default_config e risk_score = true
    <-> (Correlator.get (Correlator.severity e) "info" = "critical"
         \/ Correlator.get (Correlator.severity e) "info" = "high"
         \/ 70 <= risk_score).
Proof.
  intros e r. unfold Alerts.should_alert. simpl.
  destruct (String.eqb _ "critical") eqn:Hc.
  - apply String.eqb_eq in Hc. split; [by left | done].
  - apply String.eqb_neq in Hc.
    destruct (String.eqb _ "high") eqn:Hh; simpl.
    + apply String.eqb_eq in Hh. split; [by right; left | done].
    + apply String.eqb_neq in Hh.
      destruct (Z.leb 70 r) eqn:Hr.
      * apply Z.leb_le in Hr. split; [by right; right | done].
      * apply Z.leb_gt in Hr. split; [done|]. intros [?|[?|?]]; [done|done|lia].
Qed.

(** ** CloudTrail severity *)

Section Regex.
Import CloudTrail.

Lemma strip_ci_sound (l s rest : string) :
  strip_ci l s = Some rest ->
  exists x, s = String.append x rest /\ Py.lower x = Py.lower l.
Proof.
  revert s. induction l as [|a l IH]; intros s; simpl.
  - intros [= ->]. by exists EmptyString.
  - destruct s as [|b s]; [done|].
    destruct (eq_ci a b) eqn:Hab; [|done].
    intros Hs. destruct (IH _ Hs) as (x & -> & Hx).
    exists (String b x). split; [done|]. simpl. rewrite Hx. f_equal.
    unfold eq_ci in Hab. apply Ascii.eqb_eq in Hab. done.
Qed.

Lemma strip_ci_complete (l x rest : string) :
  Py.lower x = Py.lower l -> strip_ci l (String.append x rest) = Some rest.
Proof.
  revert x. induction l as [|a l IH]; intros x; simpl.
  - destruct x; [done | discriminate].
  - destruct x as [|b x]; [discriminate|]. simpl. intros [= Hc Hx].
    unfold eq_ci. rewrite Hc, Ascii.eqb_refl. by apply IH.
Qed.

Lemma re_match_star (p : regex) (s : string) :
  re_match (AnyStar :: p) s =
  re_match p s
  || match s with
     | EmptyString => false
     | String c s' => dot c && re_match (AnyStar :: p) s'
     end.
Proof. destruct s; reflexivity. Qed.

(** The matcher decides the declarative reading of a pattern. *)
Lemma re_match_Matches (p : regex) (s : string) :
  re_match p s = true <-> Spec.Matches p s.
Proof.
  revert s. induction p as [|[|l] p IH]; intros s.
  - split; [constructor | done].
  - split.
    + induction s as [|c s IHs]; rewrite re_match_star.
      * rewrite orb_false_r. intros H%IH.
        by apply (Spec.Matches_star p EmptyString).
      * rewrite orb_true_iff, andb_true_iff. intros [H%IH | [Hc Hs]].
        -- by apply (Spec.Matches_star p EmptyString).
        -- specialize (IHs Hs). inversion IHs as [| |p' u s' Hu Hm]; subst.
           apply (Spec.Matches_star p (String c u) s'); [|done].
           simpl. unfold dot in Hc. by rewrite Hc, Hu.
    + intros H. inversion H as [| |p' u s' Hu Hm]; subst. clear H.
      apply IH in Hm.
      induction u as [|c u IHu]; rewrite re_match_star.
      * change (String.append EmptyString s') with s'. by rewrite Hm.
      * simpl in Hu. apply andb_true_iff in Hu as [Hc Hu].
        change (String.append (String c u) s')
          with (String c (String.append u s')).
        apply orb_true_iff. right.
        change (dot c && re_match (AnyStar :: p) (String.append u s') = true).
        unfold dot. by rewrite Hc, (IHu Hu).
  - simpl. split.
    + destruct (strip_ci l s) as [rest|] eqn:Hs; [|done].
      intros H%IH. destruct (strip_ci_sound _ _ _ Hs) as (x & -> & Hx).
      by constructor.
    + intros H. inversion H as [|l' p' x s' Hx Hm|]; subst.
      rewrite (strip_ci_complete _ _ _ Hx). by apply IH.
Qed.

End Regex.

(** C5: the severity of a cloud-audit record with an ASCII event name is
    given by the first rule that applies, in the order Root identity,
    critical name pattern, denied error code, high-severity name, discovery
    prefix, default. *)
Theorem determine_severity_first_match :
  forall (event_name : string) (error_code user_type : option string),
    Py.is_ascii event_name = true ->
    let sev := CloudTrail.determine_severity event_name error_code user_type in
    let root := user_type = Some "Root" in
    let critical_name :=
      Exists (fun p => Spec.Matches p event_name)
        [ [CloudTrail.AnyStar; CloudTrail.Lit "Delete"; CloudTrail.AnyStar;
           CloudTrail.Lit "Trail"; CloudTrail.AnyStar];
          [CloudTrail.AnyStar; CloudTrail.Lit "Stop"; CloudTrail.AnyStar;
           CloudTrail.Lit "Logging"; CloudTrail.AnyStar];
          [CloudTrail.AnyStar; CloudTrail.Lit "Disable"; CloudTrail.AnyStar];
          [CloudTrail.AnyStar; CloudTrail.Lit "Root"; CloudTrail.AnyStar] ] in
    let denied :=
      exists c, error_code = Some c
                /\ c ∈ ["AccessDenied"; "UnauthorizedAccess";
                        "InvalidClientTokenId"] in
    let high_name :=
      event_name ∈
        ["ConsoleLogin"; "CreateUser"; "CreateAccessKey"; "DeleteTrail";
         "StopLogging"; "PutBucketPolicy"; "PutBucketAcl";
         "AuthorizeSecurityGroupIngress"; "CreateSecurityGroup";
         "ModifyInstanceAttribute"; "RunInstances"] in
    let discovery :=
      exists prefix rest,
        prefix ∈ ["List"; "Describe"; "Get"]
        /\ event_name = String.append prefix rest in
    (root -> sev = Models.CRITICAL)
    /\ (~ root -> critical_name -> sev = Models.CRITICAL)
    /\ (~ root -> ~ critical_name -> denied -> sev = Models.HIGH)
    /\ (~ root -> ~ critical_name -> ~ denied -> high_name ->
        sev = Models.HIGH)
    /\ (~ root -> ~ critical_name -> ~ denied -> ~ high_name -> discovery ->
        sev = Models.LOW)
    /\ (~ root -> ~ critical_name -> ~ denied -> ~ high_name -> ~ discovery ->
        sev = Models.INFO).
Proof.
  intros name err ut _ sev root critical_name denied high_name discovery.
  assert (Hcrit : existsb (fun p => CloudTrail.re_match p name)
                    CloudTrail.CRITICAL_SEVERITY_PATTERNS = true
                  <-> critical_name).
  { rewrite existsb_exists. unfold critical_name. rewrite Exists_exists.
    split.
    - intros (p & Hin%list_elem_of_In & Hm%re_match_Matches). by exists p.
    - intros (p & Hin%list_elem_of_In & Hm%re_match_Matches). by exists p. }
  assert (Hden : match err with
                 | Some c => Py.str_in c ["AccessDenied"; "UnauthorizedAccess";
                                          "InvalidClientTokenId"]
                 | None => false
                 end = true <-> denied).
  { unfold denied. destruct err as [c|].
    - rewrite str_in_elem_of. split; [intros H; by exists c|].
      by intros (c' & [= <-] & H).
    - split; [done | by intros (c' & ? & _)]. }
  assert (Hhigh : bool_decide (name ∈ CloudTrail.HIGH_SEVERITY_EVENTS) = true
                  <-> high_name).
  { rewrite bool_decide_eq_true. unfold CloudTrail.HIGH_SEVERITY_EVENTS.
    by rewrite elem_of_list_to_set. }
  assert (Hdisc : (Py.startswith "List" name || Py.startswith "Describe" name)
                  || Py.startswith "Get" name = true <-> discovery).
  { rewrite !orb_true_iff, !startswith_append. unfold discovery. split.
    - intros [[(r & ->)|(r & ->)]|(r & ->)].
      + exists "List", r. split; [apply list_elem_of_In; simpl; tauto | done].
      + exists "Describe", r. split; [apply list_elem_of_In; simpl; tauto | done].
      + exists "Get", r. split; [apply list_elem_of_In; simpl; tauto | done].
    - intros (pre & r & Hin & ->).
      apply elem_of_cons in Hin as [->|Hin]; [left; left; by exists r|].
      apply elem_of_cons in Hin as [->|Hin]; [left; right; by exists r|].
      apply elem_of_cons in Hin as [->|Hin]; [right; by exists r|].
      by apply elem_of_nil in Hin. }
  subst sev. unfold CloudTrail.determine_severity.
  destruct (bool_decide (ut = Some "Root")) eqn:Hroot.
  { apply bool_decide_eq_true in Hroot. first_match_case. }
  apply bool_decide_eq_false in Hroot.
  destruct (existsb _ CloudTrail.CRITICAL_SEVERITY_PATTERNS).
  { assert critical_name by (by apply Hcrit). first_match_case. }
  assert (~ critical_name) by (intros Hc; by apply Hcrit in Hc).
  destruct (match err with Some _ => _ | None => _ end).
  { assert denied by (by apply Hden). first_match_case. }
  assert (~ denied) by (intros Hd; by apply Hden in Hd).
  destruct (bool_decide (name ∈ CloudTrail.HIGH_SEVERITY_EVENTS)).
  { assert high_name by (by apply Hhigh). first_match_case. }
  assert (~ high_name) by (intros Hh; by apply Hhigh in Hh).
  destruct (Py.startswith "List" name || Py.startswith "Describe" name).
  { assert discovery by (by apply Hdisc). first_match_case. }
  destruct (Py.startswith "Get" name).
  { assert discovery by (by apply Hdisc). first_match_case. }
  assert (~ discovery) by (intros Hd; by apply Hdisc in Hd).
  first_match_case.
Qed.

Lemma determine_severity_first_match_witness :
  Py.is_ascii "ListBuckets" = true
  /\ (@None string <> Some "Root")
  /\ ~ Exists (fun p => Spec.Matches p "ListBuckets")
         CloudTrail.CRITICAL_SEVERITY_PATTERNS
  /\ ~ (exists c, @None string = Some c
                  /\ c ∈ ["AccessDenied"; "UnauthorizedAccess";
                          "InvalidClientTokenId"])
  /\ ("ListBuckets" ∉
        ["ConsoleLogin"; "CreateUser"; "CreateAccessKey"; "DeleteTrail";
         "StopLogging"; "PutBucketPolicy"; "PutBucketAcl";
         "AuthorizeSecurityGroupIngress"; "CreateSecurityGroup";
         "ModifyInstanceAttribute"; "RunInstances"])
  /\ (exists prefix rest,
         prefix ∈ ["List"; "Describe"; "Get"]
         /\ "ListBuckets" = String.append prefix rest)
  /\ CloudTrail.determine_severity "ListBuckets" None None = Models.LOW.
Proof.
  assert (H1 : @None string <> Some "Root") by discriminate.
  assert (H2 : ~ Exists (fun p => Spec.Matches p "ListBuckets")
                   CloudTrail.CRITICAL_SEVERITY_PATTERNS).
  { intros (p & Hin & Hm%re_match_Matches)%Exists_exists.
    apply list_elem_of_In in Hin. simpl in Hin.
    destruct Hin as [<-|[<-|[<-|[<-|[]]]]]; vm_compute in Hm; discriminate. }
  assert (H3 : ~ (exists c, @None string = Some c
                            /\ c ∈ ["AccessDenied"; "UnauthorizedAccess";
                                    "InvalidClientTokenId"]))
    by (intros (c & Hc & _); discriminate).
  assert (H4 : "ListBuckets" ∉
                 ["ConsoleLogin"; "CreateUser"; "CreateAccessKey";
                  "DeleteTrail"; "StopLogging"; "PutBucketPolicy";
                  "PutBucketAcl"; "AuthorizeSecurityGroupIngress";
                  "CreateSecurityGroup"; "ModifyInstanceAttribute";
                  "RunInstances"]).
  { intros H%str_in_elem_of. discriminate. }
  assert (H5 : exists prefix rest,
             prefix ∈ ["List"; "Describe"; "Get"]
             /\ "ListBuckets" = String.append prefix rest).
  { exists "List", "Buckets". split; [|reflexivity].
    apply list_elem_of_In. simpl. tauto. }
  split; [reflexivity|].
  repeat (split; [assumption|]).
  exact (proj1 (proj2 (proj2 (proj2 (proj2
           (determine_severity_first_match "ListBuckets" None None
              eq_refl)))))
           H1 H2 H3 H4 H5).
Defined.

(** ** CloudTrail category *)

Section Category.
Import CloudTrail.

Lemma startswith_any_elem_of (ps : list string) (s : string) :
  Py.startswith_any ps s = true <->
  exists p r, p ∈ ps /\ s = String.append p r.
Proof.
  unfold Py.startswith_any. rewrite existsb_exists. split.
  - intros (p & Hin%list_elem_of_In & (r & ->)%startswith_append).
    by exists p, r.
  - intros (p & r & Hin%list_elem_of_In & ->). exists p.
    split; [done|]. apply startswith_append. by exists r.
Qed.

Lemma categorize_identity (event_name event_source : string) :
  categorize_event event_name event_source = "identity_management" <->
  Py.str_in event_name AUTHENTICATION_NAMES = false
  /\ identity_test event_name event_source = true.
Proof.
  unfold categorize_event.
  destruct (Py.str_in event_name AUTHENTICATION_NAMES);
    [by split; [|intros []]|].
  destruct (identity_test event_name event_source); [done|].
  split; [|by intros []].
  repeat match goal with
         | |- context [if ?b then _ else _] => destruct b; try done
         end.
Qed.

Lemma existsb_contains (ws : list string) (s : string) :
  existsb (fun x => Py.contains x s) ws = true <->
  exists x, x ∈ ws
            /\ exists a b, s = String.append a (String.append x b).
Proof.
  rewrite existsb_exists. split.
  - intros (x & Hin%list_elem_of_In & H%contains_append). by exists x.
  - intros (x & Hin%list_elem_of_In & H%contains_append). by exists x.
Qed.

Lemma identity_test_design (event_name event_source : string) :
  identity_test event_name event_source = true <->
  (event_source = "iam.amazonaws.com"
   \/ ((exists v r, v ∈ IAM_VERBS /\ event_name = String.append v r)
       /\ (Py.contains "User" event_name = true
           \/ Py.contains "Role" event_name = true
           \/ Py.contains "Policy" event_name = true)))
  \/ Py.contains "Role" event_name = true
  \/ Py.contains "Policy" event_name = true.
Proof.
  unfold identity_test.
  rewrite !orb_true_iff, andb_true_iff, startswith_any_elem_of, String.eqb_eq.
  tauto.
Qed.

End Category.

(** The record of the counterexample: [PutBucketPolicy] issued against S3. *)
Lemma categorize_PutBucketPolicy_s3 :
  CloudTrail.categorize_event "PutBucketPolicy" "s3.amazonaws.com"
  = "identity_management"
  /\ ("PutBucketPolicy" ∉ CloudTrail.AUTHENTICATION_NAMES)
  /\ "s3.amazonaws.com" <> "iam.amazonaws.com"
  /\ CloudTrail.categorize_event "PutBucketPolicy" "s3.amazonaws.com"
     <> "data_access".
Proof.
  split; [reflexivity|]. split; [|split; [discriminate|discriminate]].
  intros H%str_in_elem_of. discriminate.
Qed.

(** C2, as amended: the category is assigned by the rules in first-match
    order, where the rule of [identity_management] holds when the event
    source is [iam.amazonaws.com] and also when the name starts with one
    of Create, Delete, Update, Attach, Detach, Put and contains User, Role
    or Policy.  Authentication comes first, then identity management, and
    a record that neither rule takes, whose name holds neither Role nor
    Policy, falls to network_security, data_access, logging,
    resource_modification, discovery and other, in this order.  A
    [PutBucketPolicy] from [s3.amazonaws.com] is [identity_management].
    What a name that holds Role or Policy without such a prefix gets, from
    another source, is not stated. *)
Theorem categorize_identity_management :
  forall (event_name event_source : string),
    let cat := CloudTrail.categorize_event event_name event_source in
    let contains w :=
      exists a b, event_name = String.append a (String.append w b) in
    let starts_with prefixes :=
      exists p r, p ∈ prefixes /\ event_name = String.append p r in
    let authentication :=
      event_name ∈ ["ConsoleLogin"; "GetFederationToken"; "GetSessionToken";
                    "AssumeRole"; "AssumeRoleWithSAML";
                    "AssumeRoleWithWebIdentity"] in
    let identity :=
      event_source = "iam.amazonaws.com"
      \/ (starts_with ["Create"; "Delete"; "Update"; "Attach"; "Detach"; "Put"]
          /\ (contains "User" \/ contains "Role" \/ contains "Policy")) in
    let unprefixed := contains "Role" \/ contains "Policy" in
    let network_security :=
      event_source = "ec2.amazonaws.com"
      /\ exists x, x ∈ ["SecurityGroup"; "Vpc"; "Subnet"; "Route";
                        "NetworkAcl"] /\ contains x in
    let data_access :=
      event_source = "s3.amazonaws.com"
      \/ event_name ∈ ["GetObject"; "PutObject"; "DeleteObject"] in
    let logging :=
      event_source ∈ ["cloudtrail.amazonaws.com"; "logs.amazonaws.com"] in
    let resource_modification :=
      starts_with ["Create"; "Delete"; "Modify"; "Update"; "Terminate"] in
    let discovery := starts_with ["List"; "Describe"; "Get"] in
    (authentication -> cat = "authentication")
    /\ (~ authentication -> identity -> cat = "identity_management")
    /\ (cat = "identity_management" ->
        ~ authentication /\ (identity \/ unprefixed))
    /\ (~ authentication -> ~ identity -> ~ unprefixed ->
        (network_security -> cat = "network_security")
        /\ (~ network_security -> data_access -> cat = "data_access")
        /\ (~ network_security -> ~ data_access -> logging ->
            cat = "logging")
        /\ (~ network_security -> ~ data_access -> ~ logging ->
            resource_modification -> cat = "resource_modification")
        /\ (~ network_security -> ~ data_access -> ~ logging ->
            ~ resource_modification -> discovery -> cat = "discovery")
        /\ (~ network_security -> ~ data_access -> ~ logging ->
            ~ resource_modification -> ~ discovery -> cat = "other"))
    /\ CloudTrail.categorize_event "PutBucketPolicy" "s3.amazonaws.com"
       = "identity_management".
Proof.
  intros name src cat contains starts_with authentication identity unprefixed
    network_security data_access logging resource_modification discovery.
  assert (Hc : forall w, Py.contains w name = true <-> contains w)
    by (intros w; apply contains_append).
  assert (Hs : forall ps, Py.startswith_any ps name = true <-> starts_with ps)
    by (intros ps; apply startswith_any_elem_of).
  assert (Hauth : Py.str_in name CloudTrail.AUTHENTICATION_NAMES = true
                  <-> authentication) by apply str_in_elem_of.
  assert (Hid : CloudTrail.identity_test name src = true
                <-> identity \/ unprefixed).
  { rewrite identity_test_design, !Hc. unfold identity, unprefixed.
    by rewrite <- (Hs CloudTrail.IAM_VERBS), startswith_any_elem_of. }
  assert (Hnet : Py.str_in src ["ec2.amazonaws.com"]
                 && existsb (fun x => Py.contains x name)
                      ["SecurityGroup"; "Vpc"; "Subnet"; "Route"; "NetworkAcl"]
                 = true <-> network_security).
  { rewrite andb_true_iff, str_in_elem_of, existsb_contains.
    unfold network_security. rewrite list_elem_of_singleton. done. }
  assert (Hdata : String.eqb src "s3.amazonaws.com"
                  || Py.str_in name ["GetObject"; "PutObject"; "DeleteObject"]
                  = true <-> data_access).
  { by rewrite orb_true_iff, String.eqb_eq, str_in_elem_of. }
  assert (Hlog : Py.str_in src
                   ["cloudtrail.amazonaws.com"; "logs.amazonaws.com"] = true
                 <-> logging) by apply str_in_elem_of.
  subst cat. unfold CloudTrail.categorize_event.
  destruct (Py.str_in name CloudTrail.AUTHENTICATION_NAMES).
  { assert authentication by (by apply Hauth).
    split; [done|]. split; [done|]. split; [done|]. split; [done|].
    reflexivity. }
  assert (~ authentication) by (intros X%Hauth; discriminate).
  destruct (CloudTrail.identity_test name src).
  { assert (identity \/ unprefixed) by (by apply Hid).
    split; [done|]. split; [done|]. split; [done|].
    split; [tauto | reflexivity]. }
  assert (~ (identity \/ unprefixed)) by (intros X%Hid; discriminate).
  split; [done|]. split; [tauto|].
  split; [|split; [|reflexivity]].
  { repeat match goal with
           | |- context [if ?b then _ else _] => destruct b; try done
           end. }
  intros _ _ _.
  destruct (Py.str_in src ["ec2.amazonaws.com"] && _).
  { assert network_security by (by apply Hnet). first_match_case. }
  assert (~ network_security) by (intros X%Hnet; discriminate).
  destruct (String.eqb src "s3.amazonaws.com" || _).
  { assert data_access by (by apply Hdata). first_match_case. }
  assert (~ data_access) by (intros X%Hdata; discriminate).
  destruct (Py.str_in src _).
  { assert logging by (by apply Hlog). first_match_case. }
  assert (~ logging) by (intros X%Hlog; discriminate).
  pose proof (Hs ["Create"; "Delete"; "Modify"; "Update"; "Terminate"]) as Hm.
  destruct (Py.startswith_any _ name).
  { assert resource_modification by (by apply Hm). first_match_case. }
  assert (~ resource_modification) by (intros X%Hm; discriminate).
  pose proof (Hs ["List"; "Describe"; "Get"]) as Hd.
  destruct (Py.startswith_any _ name).
  { assert discovery by (by apply Hd). first_match_case. }
  assert (~ discovery) by (intros X%Hd; discriminate).
  first_match_case.
Qed.

Lemma categorize_identity_management_witness :
  ("PutBucketPolicy" ∉
     ["ConsoleLogin"; "GetFederationToken"; "GetSessionToken"; "AssumeRole";
      "AssumeRoleWithSAML"; "AssumeRoleWithWebIdentity"])
  /\ ((exists p r,
          p ∈ ["Create"; "Delete"; "Update"; "Attach"; "Detach"; "Put"]
          /\ "PutBucketPolicy" = String.append p r)
      /\ exists a b,
           "PutBucketPolicy" = String.append a (String.append "Policy" b))
  /\ CloudTrail.categorize_event "PutBucketPolicy" "s3.amazonaws.com"
     = "identity_management".
Proof.
  assert (H1 : "PutBucketPolicy" ∉
                 ["ConsoleLogin"; "GetFederationToken"; "GetSessionToken";
                  "AssumeRole"; "AssumeRoleWithSAML";
                  "AssumeRoleWithWebIdentity"]).
  { intros H%str_in_elem_of. discriminate. }
  assert (H2 : exists p r,
             p ∈ ["Create"; "Delete"; "Update"; "Attach"; "Detach"; "Put"]
             /\ "PutBucketPolicy" = String.append p r).
  { exists "Put", "BucketPolicy". split; [|reflexivity].
    apply list_elem_of_In. simpl. tauto. }
  assert (H3 : exists a b,
             "PutBucketPolicy" = String.append a (String.append "Policy" b)).
  { exists "PutBucket", "". reflexivity. }
  split; [exact H1|]. split; [by split|].
  exact (proj1 (proj2
           (categorize_identity_management "PutBucketPolicy"
              "s3.amazonaws.com"))
           H1 (or_intror (conj H2 (or_intror (or_intror H3))))).
Defined.

(** ** GuardDuty network extraction *)

(** A finding that carries both actions, with different remote addresses:
    the address of the API call is the one reported, not the address of
    the network connection. *)
Lemma extract_network_both_actions :
  exists network,
    GuardDuty.extract_network Examples.both_actions = Some network
    /\ Models.source_ip network = Some "198.51.100.50"
    /\ Models.source_ip network <> Some "203.0.113.100"
    /\ Models.user_agent network = Some "aws-sdk-python/1.0".
Proof. eexists. split; [reflexivity|]. simpl. by repeat split. Qed.

(** C7, as amended: when both actions are present the ports and the
    protocol come from [NetworkConnectionAction] while [source_ip] and
    [user_agent] come from [AwsApiCallAction]; the remote address of
    [NetworkConnectionAction] is the [source_ip] only when
    [AwsApiCallAction] is absent, and [AwsApiCallAction] alone gives
    [source_ip] and [user_agent] and nothing else. *)
Theorem extract_network_priority :
  forall (action : GuardDuty.Action),
    (forall nc api,
        GuardDuty.NetworkConnectionAction action = Some nc ->
        GuardDuty.AwsApiCallAction action = Some api ->
        GuardDuty.extract_network action =
        Some {| Models.source_ip :=
                  GuardDuty.ip_address (GuardDuty.api_RemoteIpDetails api);
                Models.source_port :=
                  GuardDuty.port (GuardDuty.RemotePortDetails nc);
                Models.destination_ip := None;
                Models.destination_port :=
                  GuardDuty.port (GuardDuty.LocalPortDetails nc);
                Models.protocol := GuardDuty.Protocol nc;
                Models.user_agent := GuardDuty.UserAgent api |})
    /\ (forall nc,
        GuardDuty.NetworkConnectionAction action = Some nc ->
        GuardDuty.AwsApiCallAction action = None ->
        GuardDuty.extract_network action =
        Some {| Models.source_ip :=
                  GuardDuty.ip_address (GuardDuty.nc_RemoteIpDetails nc);
                Models.source_port :=
                  GuardDuty.port (GuardDuty.RemotePortDetails nc);
                Models.destination_ip := None;
                Models.destination_port :=
                  GuardDuty.port (GuardDuty.LocalPortDetails nc);
                Models.protocol := GuardDuty.Protocol nc;
                Models.user_agent := None |})
    /\ (forall api,
        GuardDuty.NetworkConnectionAction action = None ->
        GuardDuty.AwsApiCallAction action = Some api ->
        GuardDuty.extract_network action =
        Some {| Models.source_ip :=
                  GuardDuty.ip_address (GuardDuty.api_RemoteIpDetails api);
                Models.source_port := None;
                Models.destination_ip := None;
                Models.destination_port := None;
                Models.protocol := None;
                Models.user_agent := GuardDuty.UserAgent api |})
    /\ (GuardDuty.NetworkConnectionAction action = None ->
        GuardDuty.AwsApiCallAction action = None ->
        GuardDuty.extract_network action = None).
Proof.
  intros action.
  unfold GuardDuty.extract_network, GuardDuty.network_of_api_call,
    GuardDuty.network_of_connection.
  split; [|split; [|split]].
  - intros nc api -> ->. reflexivity.
  - intros nc -> ->. reflexivity.
  - intros api -> ->. reflexivity.
  - intros -> ->. reflexivity.
Qed.

Lemma extract_network_priority_witness :
  GuardDuty.NetworkConnectionAction Examples.both_actions
  = Some Examples.connection
  /\ GuardDuty.AwsApiCallAction Examples.both_actions = Some Examples.api_call
  /\ GuardDuty.extract_network Examples.both_actions =
     Some {| Models.source_ip := Some "198.51.100.50";
             Models.source_port := Some 8333;
             Models.destination_ip := None;
             Models.destination_port := Some 22;
             Models.protocol := Some "TCP";
             Models.user_agent := Some "aws-sdk-python/1.0" |}.
Proof.
  assert (H1 : GuardDuty.NetworkConnectionAction Examples.both_actions
               = Some Examples.connection) by reflexivity.
  assert (H2 : GuardDuty.AwsApiCallAction Examples.both_actions
               = Some Examples.api_call) by reflexivity.
  repeat (split; [assumption|]).
  exact (proj1 (extract_network_priority Examples.both_actions)
           Examples.connection Examples.api_call H1 H2).
Defined.

(** ** Correlator *)

Section CorrelatorFacts.
Import Correlator.

Lemma filter_sublist {A} (f : A -> bool) (l : list A) :
  List.filter f l `sublist_of` l.
Proof.
  induction l as [|a l IH]; simpl; [constructor|].
  destruct (f a); by constructor.
Qed.

(** Every bucket is a subsequence of the events grouped so far. *)
Lemma bucket_append_sublist (k : string) (e : Event)
    (m : list (string * list Event)) (pre : list Event) :
  Forall (fun b => b.2 `sublist_of` pre) m ->
  Forall (fun b => b.2 `sublist_of` pre ++ [e]) (bucket_append k e m).
Proof.
  induction m as [|[k' es] m IH]; simpl; intros Hm.
  - constructor; [|constructor]. simpl. by apply sublist_inserts_l.
  - inversion Hm as [|? ? Hes Hrest]; subst. simpl in Hes.
    destruct (String.eqb k k').
    + constructor; simpl; [by apply sublist_app|].
      eapply Forall_impl; [exact Hrest|].
      intros b Hb. by apply sublist_inserts_r.
    + constructor; simpl; [by apply sublist_inserts_r | by apply IH].
Qed.

Lemma group_loop_sublist (key : Event -> string) (l pre : list Event)
    (m : list (string * list Event)) :
  Forall (fun b => b.2 `sublist_of` pre) m ->
  Forall (fun b => b.2 `sublist_of` pre ++ l)
    (List.fold_left (fun m e => bucket_append (key e) e m) l m).
Proof.
  revert pre m. induction l as [|e l IH]; intros pre m Hm; simpl.
  - by rewrite app_nil_r.
  - replace (pre ++ e :: l) with ((pre ++ [e]) ++ l)
      by (by rewrite <- app_assoc).
    apply IH. by apply bucket_append_sublist.
Qed.

Lemma group_by_sublist (key : Event -> string) (l : list Event)
    (k : string) (es : list Event) :
  In (k, es) (group_by key l) -> es `sublist_of` l.
Proof.
  intros Hin.
  pose proof (group_loop_sublist key l [] [] (Forall_nil_2 _)) as H.
  rewrite Forall_forall in H.
  apply (H (k, es)). by apply list_elem_of_In.
Qed.

Lemma StronglySorted_sublist {A} (R : A -> A -> Prop) (k l : list A) :
  k `sublist_of` l -> StronglySorted R l -> StronglySorted R k.
Proof.
  induction 1 as [|x k l Hkl IH|x k l Hkl IH]; intros Hl.
  - constructor.
  - apply StronglySorted_inv in Hl as [Hl Hx]. constructor; [by apply IH|].
    rewrite Forall_forall in Hx |- *. intros y Hy. apply Hx.
    by eapply elem_of_sublist.
  - apply StronglySorted_inv in Hl as [Hl _]. by apply IH.
Qed.

(** [generate_correlation_id] reads the first event only. *)
Lemma generate_correlation_id_first (first : Event) (rest : list Event)
    (rule_name : string) :
  generate_correlation_id (first :: rest) rule_name =
  Py.str_take 16
    (Sha256.hexdigest
       (String.append rule_name
          (String.append ":"
             (String.append (get (event_type first) "")
                (String.append ":" (get (source_ip first) "")))))).
Proof. reflexivity. Qed.

(** What each evaluator puts in the record it returns. *)
Lemma brute_force_scan_Some (buckets : list (string * list Event))
    (r : CorrelationRecord) :
  brute_force_scan buckets = Some r ->
  exists ip es,
    In (ip, es) buckets
    /\ (5 <= List.length (List.filter has_failure_tag es))%nat
    /\ rule r = "brute_force"
    /\ event_ids r = ids_of (List.filter has_failure_tag es)
    /\ correlation_id r =
       generate_correlation_id (List.filter has_failure_tag es) "brute_force".
Proof.
  induction buckets as [|[ip es] rest IH]; cbn [brute_force_scan]; [done|].
  destruct (Nat.leb (min_events RULE_brute_force) _) eqn:Hlen.
  - intros [= <-]. exists ip, es. apply Nat.leb_le in Hlen.
    repeat split; [by left | done].
  - intros (ip' & es' & Hin & H)%IH. exists ip', es'. split; [by right | done].
Qed.

Lemma reconnaissance_scan_Some (buckets : list (string * list Event))
    (r : CorrelationRecord) :
  reconnaissance_scan buckets = Some r ->
  exists ip es,
    In (ip, es) buckets
    /\ (20 <= List.length es)%nat
    /\ rule r = "reconnaissance"
    /\ event_ids r = ids_of (List.firstn 20 es)
    /\ correlation_id r = generate_correlation_id es "reconnaissance".
Proof.
  induction buckets as [|[ip es] rest IH]; cbn [reconnaissance_scan];
    [done|].
  destruct (Nat.leb (min_events RULE_reconnaissance) _) eqn:Hlen.
  - intros [= <-]. exists ip, es. apply Nat.leb_le in Hlen.
    repeat split; [by left | done].
  - intros (ip' & es' & Hin & H)%IH. exists ip', es'. split; [by right | done].
Qed.

Lemma privilege_escalation_scan_Some (buckets : list (string * list Event))
    (r : CorrelationRecord) :
  privilege_escalation_scan buckets = Some r ->
  exists actor_id es login_event iam_events,
    In (actor_id, es) buckets
    /\ escalation_scan (sorted_by_time es) = (Some login_event, iam_events)
    /\ iam_events <> []
    /\ rule r = "privilege_escalation"
    /\ event_ids r = ids_of (login_event :: iam_events)
    /\ correlation_id r =
       generate_correlation_id (login_event :: iam_events)
         "privilege_escalation".
Proof.
  induction buckets as [|[actor_id es] rest IH]; simpl; [done|].
  destruct (escalation_scan (sorted_by_time es)) as [[login|] iams] eqn:Hscan.
  - destruct iams as [|i iams].
    + intros (a & es' & l & is' & Hin & H)%IH.
      exists a, es', l, is'. split; [by right | done].
    + intros [= <-]. exists actor_id, es, login, (i :: iams).
      split; [by left|]. by repeat split.
  - intros (a & es' & l & is' & Hin & H)%IH.
    exists a, es', l, is'. split; [by right | done].
Qed.

Lemma insert_by_time_In (x e : Event) (l : list Event) :
  In x (insert_by_time e l) -> x = e \/ In x l.
Proof.
  induction l as [|h t IH]; simpl.
  - intros [<-|[]]. by left.
  - destruct (Py.str_le _ _); simpl.
    + intros [<-|[<-|Hx]]; [by left | by right; left | by right; right].
    + intros [<-|Hx]; [by right; left|].
      destruct (IH Hx); [by left | by right; right].
Qed.

Lemma sorted_by_time_In (x : Event) (l : list Event) :
  In x (sorted_by_time l) -> In x l.
Proof.
  induction l as [|e l IH]; simpl; [done|].
  intros [->|H]%insert_by_time_In; [by left | right; by apply IH].
Qed.

(** The tracked login is one of the scanned events. *)
Lemma escalation_step_login (st : option Event * list Event)
    (e login : Event) :
  (escalation_step st e).1 = Some login -> st.1 = Some login \/ e = login.
Proof.
  destruct st as [login0 iams0]. unfold escalation_step.
  destruct (_ && _); [intros [= ->]; by right|].
  destruct login0 as [l0|]; [|done].
  destruct (Py.str_in _ IAM_CHANGES); intros H; by left.
Qed.

Lemma escalation_loop_login (l : list Event) (st : option Event * list Event)
    (login : Event) (iams : list Event) :
  List.fold_left escalation_step l st = (Some login, iams) ->
  st.1 = Some login \/ In login l.
Proof.
  revert st. induction l as [|e l IH]; intros st; simpl.
  - intros ->. by left.
  - intros [[Hst| ->]%escalation_step_login|Hin]%IH.
    + by left.
    + by right; left.
    + by right; right.
Qed.

Lemma correlate_events_checks (events : list Event) (r : CorrelationRecord) :
  In r (correlate_events events) <->
  check_brute_force events = Some r
  \/ check_privilege_escalation events = Some r
  \/ check_logging_tampering events = Some r
  \/ check_reconnaissance events = Some r.
Proof.
  unfold correlate_events, checks. simpl.
  destruct (check_brute_force events), (check_privilege_escalation events),
    (check_logging_tampering events), (check_reconnaissance events);
    simpl; split; intros H;
    repeat match goal with
           | H : _ \/ _ |- _ => destruct H
           | H : Some _ = Some _ |- _ => injection H as H
           | H : False |- _ => destruct H
           end; subst; try discriminate; try tauto.
Qed.

End CorrelatorFacts.

(** Two tampering events listed latest first: the id is derived from the
    first listed event and its top-level [source_ip] entry, not from the
    earliest event and its network address, and it changes with the order
    of the list. *)
Lemma correlation_id_follows_list_order :
  exists r r',
    Correlator.check_logging_tampering
      [Examples.stop_logging_late; Examples.delete_trail_early] = Some r
    /\ Correlator.check_logging_tampering
         [Examples.delete_trail_early; Examples.stop_logging_late] = Some r'
    /\ Correlator.correlation_id r = "5c5b65e2d4bd37a6"
    /\ Spec.correlation_id "logging_tampering"
         [Examples.stop_logging_late; Examples.delete_trail_early]
       = "904091f88ea21288"
    /\ Correlator.correlation_id r <>
       Spec.correlation_id "logging_tampering"
         [Examples.stop_logging_late; Examples.delete_trail_early]
    /\ Correlator.correlation_id r <> Correlator.correlation_id r'.
Proof.
  eexists. eexists. split; [reflexivity|]. split; [reflexivity|].
  split; [vm_compute; reflexivity|]. split; [vm_compute; reflexivity|].
  split; vm_compute; discriminate.
Qed.

(** The first listed member of an emitted record, and the text that is
    hashed into the id of the record. *)
Lemma first_listed_member (events : list Correlator.Event)
    (r : Correlator.CorrelationRecord) :
  In r (Correlator.correlate_events events) ->
  exists first rest,
    first ∈ events
    /\ Correlator.event_ids r = Correlator.event_id first :: rest
    /\ Correlator.correlation_id r =
       Py.str_take 16
         (Sha256.hexdigest
            (String.append (Correlator.rule r)
               (String.append ":"
                  (String.append
                     (Correlator.get (Correlator.event_type first) "")
                     (String.append ":"
                        (Correlator.get (Correlator.source_ip first) "")))))).
Proof.
  intros [Hbf|[Hpe|[Hlt|Hrc]]]%correlate_events_checks.
  - unfold Correlator.check_brute_force in Hbf.
    destruct (Nat.ltb _ _); [done|].
    apply brute_force_scan_Some in Hbf
      as (ip & es & Hin%group_by_sublist & Hlen & Hrule & Hids & Hcid).
    destruct (List.filter Correlator.has_failure_tag es)
      as [|first rest] eqn:Hfailed; [simpl in Hlen; lia|].
    exists first, (Correlator.ids_of rest).
    rewrite Hids, Hcid, Hrule. split; [|done].
    eapply elem_of_sublist; [|apply filter_sublist].
    eapply elem_of_sublist; [|exact Hin].
    eapply elem_of_sublist; [|apply (filter_sublist Correlator.has_failure_tag)].
    rewrite Hfailed. by left.
  - apply privilege_escalation_scan_Some in Hpe
      as (a & es & login & iams & Hin%group_by_sublist & Hscan & _
          & Hrule & Hids & Hcid).
    exists login, (Correlator.ids_of iams).
    rewrite Hids, Hcid, Hrule. split; [|done].
    eapply elem_of_sublist; [|exact Hin].
    apply list_elem_of_In, sorted_by_time_In.
    apply escalation_loop_login in Hscan as [?|?]; done.
  - unfold Correlator.check_logging_tampering in Hlt.
    destruct (List.filter _ events) as [|first rest] eqn:Hfilter; [done|].
    injection Hlt as <-. exists first, (Correlator.ids_of rest).
    split; [|done].
    eapply elem_of_sublist; [|apply filter_sublist].
    rewrite Hfilter. by left.
  - unfold Correlator.check_reconnaissance in Hrc.
    destruct (Nat.ltb _ _); [done|].
    apply reconnaissance_scan_Some in Hrc
      as (ip & es & Hin%group_by_sublist & Hlen & Hrule & Hids & Hcid).
    destruct es as [|first rest]; [simpl in Hlen; lia|].
    exists first, (Correlator.ids_of (List.firstn 19 rest)).
    rewrite Hids, Hcid, Hrule. split; [|done].
    eapply elem_of_sublist; [|apply filter_sublist].
    eapply elem_of_sublist; [|exact Hin]. by left.
Qed.

(** C1, as amended: the correlation id of every emitted record is the
    first 16 hex characters of the SHA-256 of
    [rule + ":" + first.event_type + ":" + address], where [first] is the
    member whose id is listed first in [event_ids], in the evaluator's own
    order of members (they are not sorted), and [address] is a text taken
    from that member; the id depends on the rule and on the first listed
    member only, whatever the other members and their order. *)
Theorem correlation_id_of_first_member :
  forall (events : list Correlator.Event) (r : Correlator.CorrelationRecord),
    In r (Correlator.correlate_events events) ->
    exists first rest,
      first ∈ events
      /\ Correlator.event_ids r = Correlator.event_id first :: rest
      /\ (exists address,
            Correlator.correlation_id r =
            Py.str_take 16
              (Sha256.hexdigest
                 (String.append (Correlator.rule r)
                    (String.append ":"
                       (String.append
                          (Correlator.get (Correlator.event_type first) "")
                          (String.append ":" address))))))
      /\ (forall others,
            Correlator.generate_correlation_id (first :: others)
              (Correlator.rule r)
            = Correlator.correlation_id r).
Proof.
  intros events r Hin.
  destruct (first_listed_member events r Hin)
    as (first & rest & Hfirst & Hids & Hcid).
  exists first, rest. split; [exact Hfirst|]. split; [exact Hids|]. split.
  - exists (Correlator.get (Correlator.source_ip first) ""). exact Hcid.
  - intros others. rewrite Hcid. reflexivity.
Qed.

Lemma correlation_id_of_first_member_witness :
  In Examples.escalation_emitted
     (Correlator.correlate_events [Examples.login_1; Examples.create_key])
  /\ exists first rest,
       first ∈ [Examples.login_1; Examples.create_key]
       /\ Correlator.event_ids Examples.escalation_emitted
          = Correlator.event_id first :: rest
       /\ (exists address,
             Correlator.correlation_id Examples.escalation_emitted =
             Py.str_take 16
               (Sha256.hexdigest
                  (String.append (Correlator.rule Examples.escalation_emitted)
                     (String.append ":"
                        (String.append
                           (Correlator.get (Correlator.event_type first) "")
                           (String.append ":" address))))))
       /\ (forall others,
             Correlator.generate_correlation_id (first :: others)
               (Correlator.rule Examples.escalation_emitted)
             = Correlator.correlation_id Examples.escalation_emitted).
Proof.
  assert (H : In Examples.escalation_emitted
                (Correlator.correlate_events
                   [Examples.login_1; Examples.create_key]))
    by (vm_compute; left; reflexivity).
  split; [exact H|].
  exact (correlation_id_of_first_member
           [Examples.login_1; Examples.create_key]
           Examples.escalation_emitted H).
Defined.

(** C3: with a second login after the key creation, the record pairs the
    later login with the earlier key creation. *)
Theorem privilege_escalation_followup_before_login :
  exists r,
    Correlator.check_privilege_escalation
      [Examples.login_1; Examples.create_key; Examples.login_2] = Some r
    /\ Correlator.sequence r = Some [Some "ConsoleLogin"; Some "CreateAccessKey"]
    /\ Correlator.event_ids r =
       [Correlator.event_id Examples.login_2;
        Correlator.event_id Examples.create_key]
    /\ Py.str_le (Correlator.time_of Examples.login_2)
                 (Correlator.time_of Examples.create_key) = false
    /\ Spec.ids_chronological
         [Examples.login_1; Examples.create_key; Examples.login_2]
         (Correlator.event_ids r) = false.
Proof.
  eexists. split; [reflexivity|]. by repeat split.
Qed.

(** Two tampering events stored latest first: the record lists their ids
    in that order. *)
Lemma event_ids_not_chronological :
  exists r,
    In r (Correlator.correlate_events
            [Examples.stop_logging_late; Examples.delete_trail_early])
    /\ Correlator.event_ids r =
       [Correlator.event_id Examples.stop_logging_late;
        Correlator.event_id Examples.delete_trail_early]
    /\ Py.str_le (Correlator.time_of Examples.stop_logging_late)
                 (Correlator.time_of Examples.delete_trail_early) = false
    /\ Spec.ids_chronological
         [Examples.stop_logging_late; Examples.delete_trail_early]
         (Correlator.event_ids r) = false.
Proof.
  eexists. split; [vm_compute; left; reflexivity|]. by repeat split.
Qed.

(** C4, as amended: the records of [brute_force], [logging_tampering] and
    [reconnaissance] list the ids of their members in the order in which
    those events stand in the input list; the ids are in chronological
    order whenever the input list is. *)
Theorem event_ids_in_input_order :
  forall (events : list Correlator.Event) (r : Correlator.CorrelationRecord),
    In r (Correlator.correlate_events events) ->
    Correlator.rule r <> "privilege_escalation" ->
    exists members,
      members `sublist_of` events
      /\ Correlator.event_ids r = Correlator.ids_of members
      /\ (Spec.chronological events -> Spec.chronological members).
Proof.
  intros events r [Hbf|[Hpe|[Hlt|Hrc]]]%correlate_events_checks Hrule.
  - unfold Correlator.check_brute_force in Hbf.
    destruct (Nat.ltb _ _); [done|].
    apply brute_force_scan_Some in Hbf
      as (ip & es & Hin%group_by_sublist & _ & _ & Hids & _).
    assert (Hsub : List.filter Correlator.has_failure_tag es
                     `sublist_of` events).
    { etrans; [apply filter_sublist|]. etrans; [exact Hin|].
      apply filter_sublist. }
    eexists. split; [exact Hsub|]. split; [exact Hids|].
    by apply StronglySorted_sublist.
  - apply privilege_escalation_scan_Some in Hpe
      as (_ & _ & _ & _ & _ & _ & _ & Hpe & _). done.
  - unfold Correlator.check_logging_tampering in Hlt.
    destruct (List.filter _ events) as [|first rest] eqn:Hfilter; [done|].
    injection Hlt as <-. exists (first :: rest).
    assert (Hsub : first :: rest `sublist_of` events)
      by (rewrite <- Hfilter; apply filter_sublist).
    split; [exact Hsub|]. split; [done|]. by apply StronglySorted_sublist.
  - unfold Correlator.check_reconnaissance in Hrc.
    destruct (Nat.ltb _ _); [done|].
    apply reconnaissance_scan_Some in Hrc
      as (ip & es & Hin%group_by_sublist & _ & _ & Hids & _).
    assert (Hsub : List.firstn 20 es `sublist_of` events).
    { etrans; [apply sublist_take|]. etrans; [exact Hin|].
      apply filter_sublist. }
    eexists. split; [exact Hsub|]. split; [exact Hids|].
    by apply StronglySorted_sublist.
Qed.

Lemma event_ids_in_input_order_witness :
  In Examples.tampering_emitted
     (Correlator.correlate_events
        [Examples.delete_trail_early; Examples.login_1;
         Examples.stop_logging_late])
  /\ Correlator.rule Examples.tampering_emitted <> "privilege_escalation"
  /\ exists members,
       members `sublist_of`
         [Examples.delete_trail_early; Examples.login_1;
          Examples.stop_logging_late]
       /\ Correlator.event_ids Examples.tampering_emitted
          = Correlator.ids_of members
       /\ (Spec.chronological
             [Examples.delete_trail_early; Examples.login_1;
              Examples.stop_logging_late] ->
           Spec.chronological members).
Proof.
  assert (H1 : In Examples.tampering_emitted
                 (Correlator.correlate_events
                    [Examples.delete_trail_early; Examples.login_1;
                     Examples.stop_logging_late]))
    by (vm_compute; left; reflexivity).
  assert (H2 : Correlator.rule Examples.tampering_emitted
               <> "privilege_escalation")
    by (simpl; discriminate).
  split; [exact H1|]. split; [exact H2|].
  exact (event_ids_in_input_order
           [Examples.delete_trail_early; Examples.login_1;
            Examples.stop_logging_late]
           Examples.tampering_emitted H1 H2).
Defined.

(** ** CloudTrail normalizer *)

Section NormalizeFacts.
Import Json Models CloudTrail.

Variable datetime : Type.
Variable fromisoformat : string -> option datetime.
Variable isoformat : datetime -> string.
Variables now_default now_fallback now_ingested : datetime.
Variable fresh_uuid : string.

Lemma bind_Ok {A B} (f : A -> result B) (x : result A) (b : B) :
  x ≫= f = Ok b -> exists a, x = Ok a /\ f a = Ok b.
Proof. destruct x as [a|]; [|done]. intros H. by exists a. Qed.

Lemma Ok_inj {A} (a b : A) : Ok a = Ok b -> a = b.
Proof. by intros [= ->]. Qed.

Lemma opt_str_text_or_absent (k : string) (raw_event : dict) :
  Spec.text_or_absent k raw_event ->
  exists o, opt_str (get k raw_event) = Ok o.
Proof.
  unfold get, get_or. intros [->|[->|(s & ->)]]; simpl; eauto.
Qed.

(** The event time of a returned event is decided by the time parse
    alone. *)
Lemma normalize_event_time (raw_event : dict) (ev : SecurityEvent datetime) :
  normalize_cloudtrail_event datetime fromisoformat isoformat
    now_default now_fallback now_ingested fresh_uuid raw_event = Ok ev ->
  event_time ev =
  parse_event_time datetime fromisoformat now_fallback
    (get_or "eventTime" raw_event (JStr (isoformat now_default))).
Proof.
  unfold normalize_cloudtrail_event. cbv zeta. intros H.
  repeat match type of H with
         | _ ≫= _ = Ok _ =>
             apply bind_Ok in H as (? & _ & H); cbv beta zeta in H
         end.
  apply Ok_inj in H. subst ev. reflexivity.
Qed.

Lemma severity_Unknown : determine_severity "Unknown" None None = INFO.
Proof. vm_compute. reflexivity. Qed.

Lemma category_Unknown : categorize_event "Unknown" "unknown" = "other".
Proof. vm_compute. reflexivity. Qed.

Lemma mitre_Unknown : MITRE_MAPPINGS !! "Unknown" = None.
Proof. vm_compute. reflexivity. Qed.

(** A record without the six fields, whose remaining schema fields are
    absent, null or text, is normalized to the default event. *)
Lemma normalize_defaults (raw_event : dict) :
  Forall (fun k => lookup k raw_event = None)
    ["eventName"; "eventSource"; "eventTime"; "userIdentity";
     "errorCode"; "resources"] ->
  Forall (fun k => Spec.text_or_absent k raw_event)
    ["sourceIPAddress"; "userAgent"; "awsRegion"; "eventID"] ->
  exists ev,
    normalize_cloudtrail_event datetime fromisoformat isoformat
      now_default now_fallback now_ingested fresh_uuid raw_event = Ok ev
    /\ event_type ev = "Unknown"
    /\ severity ev = INFO
    /\ event_category ev = "other"
    /\ status ev = NEW
    /\ mitre_attack ev = None.
Proof.
  rewrite !Forall_forall. intros Habsent Htext.
  assert (Hk : forall k d,
             k ∈ ["eventName"; "eventSource"; "eventTime"; "userIdentity";
                  "errorCode"; "resources"] -> get_or k raw_event d = d).
  { intros k d Hin. unfold get_or. by rewrite (Habsent k Hin). }
  destruct (opt_str_text_or_absent "sourceIPAddress" raw_event) as [ip Hip];
    [apply Htext, list_elem_of_In; simpl; tauto|].
  destruct (opt_str_text_or_absent "userAgent" raw_event) as [ua Hua];
    [apply Htext, list_elem_of_In; simpl; tauto|].
  destruct (opt_str_text_or_absent "awsRegion" raw_event) as [rg Hrg];
    [apply Htext, list_elem_of_In; simpl; tauto|].
  destruct (opt_str_text_or_absent "eventID" raw_event) as [id Hid];
    [apply Htext, list_elem_of_In; simpl; tauto|].
  unfold normalize_cloudtrail_event. cbv zeta.
  change (get "errorCode" raw_event)
    with (get_or "errorCode" raw_event JNull). 
  rewrite !Hk by (apply list_elem_of_In; simpl; tauto).
  rewrite Hip, Hua, Hrg, Hid.
  cbn [mbind result_bind as_dict get get_or lookup opt_str truthy
       service_of Py.truthy_str].
  rewrite severity_Unknown, category_Unknown, mitre_Unknown.
  eexists. split; [reflexivity|]. by repeat split.
Qed.

Lemma parse_event_time_fallback (v : json) :
  (forall s, v = JStr s -> fromisoformat (replace_Z s) = None) ->
  parse_event_time datetime fromisoformat now_fallback v = now_fallback.
Proof.
  intros Hv. destruct v as [| | |s| |]; try reflexivity.
  simpl. by rewrite (Hv s eq_refl).
Qed.

End NormalizeFacts.

(** A record with none of the six fields whose source address is a list:
    the schema rejects the address and the call raises. *)
Lemma normalize_raises_on_list_address :
  Forall (fun k => Json.lookup k Examples.raw_list_address = None)
    ["eventName"; "eventSource"; "eventTime"; "userIdentity";
     "errorCode"; "resources"]
  /\ Examples.normalize Examples.raw_list_address = Json.Raised.
Proof. split; [by repeat constructor | reflexivity]. Qed.

(** C10, as amended: on a record with no eventName, eventSource, eventTime,
    userIdentity, errorCode or resources, whose sourceIPAddress, userAgent,
    awsRegion and eventID are each missing, null or text, the normalizer
    returns an event of type Unknown, severity INFO, category other, status
    NEW and no technique, timed at a reading of the clock; on any record
    it accepts, an eventTime that is not text or does not parse is replaced
    by the clock reading taken at the failure. *)
Theorem normalize_total_on_missing_fields :
  forall (datetime : Type) (fromisoformat : string -> option datetime)
         (isoformat : datetime -> string)
         (now_default now_fallback now_ingested : datetime)
         (fresh_uuid : string) (raw_event : Json.dict),
    let normalize :=
      CloudTrail.normalize_cloudtrail_event datetime fromisoformat isoformat
        now_default now_fallback now_ingested fresh_uuid in
    (Forall (fun k => Json.lookup k raw_event = None)
       ["eventName"; "eventSource"; "eventTime"; "userIdentity";
        "errorCode"; "resources"] ->
     Forall (fun k => Spec.text_or_absent k raw_event)
       ["sourceIPAddress"; "userAgent"; "awsRegion"; "eventID"] ->
     exists ev,
       normalize raw_event = Json.Ok ev
       /\ Models.event_type ev = "Unknown"
       /\ Models.severity ev = Models.INFO
       /\ Models.event_category ev = "other"
       /\ Models.status ev = Models.NEW
       /\ Models.mitre_attack ev = None
       /\ (Models.event_time ev = now_fallback
           \/ fromisoformat (CloudTrail.replace_Z (isoformat now_default))
              = Some (Models.event_time ev))
       /\ (fromisoformat (CloudTrail.replace_Z (isoformat now_default))
             = Some now_default ->
           Models.event_time ev = now_default))
    /\ (forall ev v,
          normalize raw_event = Json.Ok ev ->
          Json.lookup "eventTime" raw_event = Some v ->
          (forall s, v = Json.JStr s ->
                     fromisoformat (CloudTrail.replace_Z s) = None) ->
          Models.event_time ev = now_fallback).
Proof.
  intros datetime fromisoformat isoformat now_default now_fallback
    now_ingested fresh_uuid raw_event normalize.
  split.
  - intros Habsent Htext.
    destruct (normalize_defaults datetime fromisoformat isoformat now_default
                now_fallback now_ingested fresh_uuid raw_event Habsent Htext)
      as (ev & Hev & Hty & Hsev & Hcat & Hst & Hmitre).
    exists ev. do 6 (split; [done|]).
    pose proof (normalize_event_time _ _ _ _ _ _ _ _ _ Hev) as Htime.
    apply Forall_cons in Habsent as [_ Habsent].
    apply Forall_cons in Habsent as [_ Habsent].
    apply Forall_cons in Habsent as [Hno_time _].
    unfold Json.get_or in Htime. rewrite Hno_time in Htime.
    unfold CloudTrail.parse_event_time in Htime.
    destruct (fromisoformat _) as [t|] eqn:Hparse.
    + subst t. split; [by right | by intros [= ->]].
    + split; [by left | done].
  - intros ev v Hev Hv Hbad.
    rewrite (normalize_event_time _ _ _ _ _ _ _ _ _ Hev).
    unfold Json.get_or. rewrite Hv. by apply parse_event_time_fallback.
Qed.

Lemma normalize_total_on_missing_fields_witness :
  Forall (fun k => Json.lookup k Examples.raw_minimal = None)
    ["eventName"; "eventSource"; "eventTime"; "userIdentity";
     "errorCode"; "resources"]
  /\ Forall (fun k => Spec.text_or_absent k Examples.raw_minimal)
       ["sourceIPAddress"; "userAgent"; "awsRegion"; "eventID"]
  /\ exists ev,
       Examples.normalize Examples.raw_minimal = Json.Ok ev
       /\ Models.event_type ev = "Unknown"
       /\ Models.severity ev = Models.INFO
       /\ Models.event_category ev = "other"
       /\ Models.status ev = Models.NEW
       /\ Models.mitre_attack ev = None
       /\ (Models.event_time ev = "2024-05-01T12:00:00.000200"
           \/ Examples.iso_parse
                (CloudTrail.replace_Z "2024-05-01T12:00:00.000100")
              = Some (Models.event_time ev))
       /\ (Examples.iso_parse
             (CloudTrail.replace_Z "2024-05-01T12:00:00.000100")
             = Some "2024-05-01T12:00:00.000100" ->
           Models.event_time ev = "2024-05-01T12:00:00.000100").
Proof.
  assert (H1 : Forall (fun k => Json.lookup k Examples.raw_minimal = None)
                 ["eventName"; "eventSource"; "eventTime"; "userIdentity";
                  "errorCode"; "resources"])
    by (by repeat constructor).
  assert (H2 : Forall (fun k => Spec.text_or_absent k Examples.raw_minimal)
                 ["sourceIPAddress"; "userAgent"; "awsRegion"; "eventID"]).
  { apply Forall_cons. split; [by left|].
    apply Forall_cons. split; [by left|].
    apply Forall_cons. split; [right; right; by eexists|].
    apply Forall_cons. split; [right; right; by eexists|].
    constructor. }
  split; [exact H1|]. split; [exact H2|].
  exact (proj1 (normalize_total_on_missing_fields string Examples.iso_parse
                  (fun t => t) "2024-05-01T12:00:00.000100"
                  "2024-05-01T12:00:00.000200" "2024-05-01T12:00:00.000300"
                  "0b0e7a9c-5d1f-4c55-9a43-3f1c2d9e8a10"
                  Examples.raw_minimal) H1 H2).
Defined.

(** ** Scenario 1 of the specification *)

(** Scenario 1: a [CreateUser] by the root identity is CRITICAL, tagged
    [root-account], mapped to T1136.003 and categorized
    [identity_management]. *)
Theorem normalize_root_create_user :
  exists ev,
    Examples.normalize Examples.raw_root_create_user = Json.Ok ev
    /\ Models.severity ev = Models.CRITICAL
    /\ "root-account" ∈ Models.tags ev
    /\ Models.mitre_attack ev =
       Some {| Models.tactic := "Persistence";
               Models.technique_id := "T1136.003";
               Models.technique_name := "Create Account: Cloud Account" |}
    /\ Models.event_category ev = "identity_management"
    /\ Models.tags ev =
       ["cloudtrail"; "iam"; "root-account"; "mitre-T1136.003"].
Proof.
  eexists. split; [vm_compute; reflexivity|]. simpl.
  split; [reflexivity|]. split; [|by repeat split].
  apply list_elem_of_In. simpl. tauto.
Qed.

(** ** The order on event times *)

Section TimeOrder.
Import Correlator.

Lemma ascii_compare_N (a b : ascii) :
  Ascii.compare a b = N.compare (N_of_ascii a) (N_of_ascii b).
Proof. reflexivity. Qed.

Lemma string_compare_le_trans (a b c : string) :
  String.compare a b <> Gt -> String.compare b c <> Gt ->
  String.compare a c <> Gt.
Proof.
  revert b c. induction a as [|x a IH]; intros [|y b] [|z c]; simpl;
    try done.
  rewrite !ascii_compare_N.
  destruct (N.compare_spec (N_of_ascii x) (N_of_ascii y)) as [Hxy|Hxy|Hxy];
    destruct (N.compare_spec (N_of_ascii y) (N_of_ascii z)) as [Hyz|Hyz|Hyz];
    destruct (N.compare_spec (N_of_ascii x) (N_of_ascii z)) as [Hxz|Hxz|Hxz];
    try done; try lia.
  apply IH.
Qed.

Lemma str_le_trans (a b c : string) :
  Py.str_le a b = true -> Py.str_le b c = true -> Py.str_le a c = true.
Proof.
  unfold Py.str_le, String.leb. intros Hab Hbc.
  pose proof (string_compare_le_trans a b c) as H.
  destruct (String.compare a b), (String.compare b c),
    (String.compare a c); try done; exfalso; by apply H.
Qed.

Lemma str_le_total (a b : string) :
  Py.str_le a b = true \/ Py.str_le b a = true.
Proof. apply String.leb_total. Qed.

Lemma insert_by_time_sorted (e : Event) (l : list Event) :
  Spec.chronological l -> Spec.chronological (insert_by_time e l).
Proof.
  unfold Spec.chronological.
  induction l as [|h t IH]; intros Hl; simpl.
  - repeat constructor.
  - apply StronglySorted_inv in Hl as [Ht Hh].
    destruct (Py.str_le (time_of e) (time_of h)) eqn:Heh.
    + constructor; [by constructor|].
      constructor; [exact Heh|].
      eapply Forall_impl; [exact Hh|].
      intros x Hx. by eapply str_le_trans.
    + constructor; [by apply IH|].
      rewrite Forall_forall. intros x Hx%list_elem_of_In.
      apply insert_by_time_In in Hx as [->|Hx].
      * destruct (str_le_total (time_of e) (time_of h)); [congruence|done].
      * rewrite Forall_forall in Hh. by apply Hh, list_elem_of_In.
Qed.

Lemma sorted_by_time_sorted (l : list Event) :
  Spec.chronological (sorted_by_time l).
Proof.
  induction l as [|e l IH]; simpl; [constructor|].
  by apply insert_by_time_sorted.
Qed.

End TimeOrder.

(** ** Shape of the emitted records *)

Section RecordShape.
Import Correlator.

(** Every event of a bucket has the bucket's key. *)
Lemma bucket_append_keys (key : Event -> string) (e : Event)
    (m : list (string * list Event)) :
  Forall (fun b => Forall (fun x => key x = b.1) b.2) m ->
  Forall (fun b => Forall (fun x => key x = b.1) b.2)
    (bucket_append (key e) e m).
Proof.
  induction m as [|[k' es] m IH]; simpl; intros Hm.
  - repeat constructor.
  - inversion Hm as [|? ? Hes Hrest]; subst. simpl in Hes.
    destruct (String.eqb (key e) k') eqn:Hk.
    + apply String.eqb_eq in Hk. constructor; [|done]. simpl.
      apply Forall_app. split; [done|]. by repeat constructor.
    + constructor; [done | by apply IH].
Qed.

Lemma group_by_keys (key : Event -> string) (l : list Event)
    (k : string) (es : list Event) :
  In (k, es) (group_by key l) -> Forall (fun x => key x = k) es.
Proof.
  intros Hin.
  assert (H : forall l m,
             Forall (fun b => Forall (fun x => key x = b.1) b.2) m ->
             Forall (fun b => Forall (fun x => key x = b.1) b.2)
               (List.fold_left (fun m e => bucket_append (key e) e m) l m)).
  { clear. induction l as [|e l IH]; intros m Hm; simpl; [done|].
    by apply IH, bucket_append_keys. }
  specialize (H l [] (Forall_nil_2 _)). rewrite Forall_forall in H.
  apply (H (k, es)). by apply list_elem_of_In.
Qed.

Lemma Forall_filter_true {A} (f : A -> bool) (l : list A) :
  Forall (fun x => f x = true) (List.filter f l).
Proof.
  induction l as [|a l IH]; simpl; [constructor|].
  destruct (f a) eqn:Hfa; [by constructor | done].
Qed.

Lemma Forall_sublist {A} (P : A -> Prop) (k l : list A) :
  k `sublist_of` l -> Forall P l -> Forall P k.
Proof.
  intros Hkl. rewrite !Forall_forall. intros Hl x Hx. apply Hl.
  by eapply elem_of_sublist.
Qed.

Lemma escalation_step_inv (st : option Event * list Event) (e : Event) :
  let st' := escalation_step st e in
  (st'.1 = st.1 \/ (st'.1 = Some e /\ Spec.successful_login e))
  /\ (st'.2 = st.2
      \/ (st'.2 = st.2 ++ [e]
          /\ get (event_type e) "" ∈ IAM_CHANGES)).
Proof.
  destruct st as [login0 iams0]. unfold escalation_step.
  assert (Hcollect :
            let st' := match login0 with
                       | Some _ =>
                           if Py.str_in (get (event_type e) "") IAM_CHANGES
                           then (login0, iams0 ++ [e])
                           else (login0, iams0)
                       | None => (login0, iams0)
                       end in
            st'.1 = login0
            /\ (st'.2 = iams0
                \/ (st'.2 = iams0 ++ [e]
                    /\ get (event_type e) "" ∈ IAM_CHANGES))).
  { destruct login0; [|by split; [|left]].
    destruct (Py.str_in (get (event_type e) "") IAM_CHANGES) eqn:Hin;
      [|by split; [|left]].
    split; [done|]. right. split; [done|]. by apply str_in_elem_of. }
  destruct (String.eqb (get (event_type e) "") "ConsoleLogin") eqn:Hty;
    destruct (Py.str_in "error" (get (tags e) [])) eqn:Herr;
    cbn [negb andb fst snd].
  - destruct Hcollect as [H1 H2]. split; [by left | done].
  - split; [|by left]. right. split; [done|].
    split; [by apply String.eqb_eq|].
    intros H%str_in_elem_of. congruence.
  - destruct Hcollect as [H1 H2]. split; [by left | done].
  - destruct Hcollect as [H1 H2]. split; [by left | done].
Qed.

Lemma escalation_loop_inv (l : list Event) (st : option Event * list Event) :
  let st' := List.fold_left escalation_step l st in
  (st'.1 = st.1
   \/ exists e, st'.1 = Some e /\ e ∈ l /\ Spec.successful_login e)
  /\ exists extra,
      st'.2 = st.2 ++ extra
      /\ extra `sublist_of` l
      /\ Forall (fun e => get (event_type e) "" ∈ IAM_CHANGES) extra.
Proof.
  revert st. induction l as [|e l IH]; intros st; simpl.
  - split; [by left|]. exists []. rewrite app_nil_r. by repeat split.
  - destruct (IH (escalation_step st e)) as [Hlogin (extra & Hx & Hsub & Hall)].
    destruct (escalation_step_inv st e) as [Hl1 Hi1]. simpl in Hl1, Hi1.
    split.
    + destruct Hlogin as [Heq|(e' & He' & Hin & Hs)].
      * rewrite Heq. destruct Hl1 as [->|[-> Hs]]; [by left|].
        right. exists e. split; [done|]. split; [by left | done].
      * right. exists e'. split; [done|]. split; [by right | done].
    + destruct Hi1 as [Heq|[Heq Hty]]; rewrite Hx, Heq.
      * exists extra. split; [done|]. split; [by constructor | done].
      * exists (e :: extra). rewrite <- app_assoc. split; [done|].
        split; [by constructor | by constructor].
Qed.

End RecordShape.

Section RecordEquations.
Import Correlator.

Lemma privilege_escalation_scan_record (buckets : list (string * list Event))
    (r : CorrelationRecord) :
  privilege_escalation_scan buckets = Some r ->
  exists actor_id es login_event iam_events,
    In (actor_id, es) buckets
    /\ escalation_scan (sorted_by_time es) = (Some login_event, iam_events)
    /\ iam_events <> []
    /\ r = {| rule := "privilege_escalation";
              description := "IAM modifications following authentication";
              cr_source_ip := None;
              cr_actor := Some actor_id;
              sequence :=
                Some (List.map event_type (login_event :: iam_events));
              event_count := List.length (login_event :: iam_events);
              event_ids := ids_of (login_event :: iam_events);
              cr_severity := "critical";
              correlation_id :=
                generate_correlation_id (login_event :: iam_events)
                  "privilege_escalation" |}.
Proof.
  induction buckets as [|[actor_id es] rest IH]; simpl; [done|].
  destruct (escalation_scan (sorted_by_time es)) as [[login|] iams] eqn:Hscan.
  - destruct iams as [|i iams].
    + intros (a & es' & l & is' & Hin & H)%IH.
      exists a, es', l, is'. split; [by right | done].
    + intros [= <-]. exists actor_id, es, login, (i :: iams).
      split; [by left|]. by repeat split.
  - intros (a & es' & l & is' & Hin & H)%IH.
    exists a, es', l, is'. split; [by right | done].
Qed.

Lemma brute_force_scan_record (buckets : list (string * list Event))
    (r : CorrelationRecord) :
  brute_force_scan buckets = Some r ->
  exists ip es,
    In (ip, es) buckets
    /\ (5 <= List.length (List.filter has_failure_tag es))%nat
    /\ r = {| rule := "brute_force";
              description := "Multiple failed authentication attempts";
              cr_source_ip := Some ip;
              cr_actor := None;
              sequence := None;
              event_count := List.length (List.filter has_failure_tag es);
              event_ids := ids_of (List.filter has_failure_tag es);
              cr_severity := "high";
              correlation_id :=
                generate_correlation_id (List.filter has_failure_tag es)
                  "brute_force" |}.
Proof.
  induction buckets as [|[ip es] rest IH]; cbn [brute_force_scan]; [done|].
  destruct (Nat.leb (min_events RULE_brute_force) _) eqn:Hlen.
  - intros [= <-]. exists ip, es. apply Nat.leb_le in Hlen.
    split; [by left|]. by split.
  - intros (ip' & es' & Hin & H)%IH. exists ip', es'. split; [by right | done].
Qed.

Lemma reconnaissance_scan_record (buckets : list (string * list Event))
    (r : CorrelationRecord) :
  reconnaissance_scan buckets = Some r ->
  exists ip es,
    In (ip, es) buckets
    /\ (20 <= List.length es)%nat
    /\ r = {| rule := "reconnaissance";
              description := "Multiple discovery API calls";
              cr_source_ip := Some ip;
              cr_actor := None;
              sequence := None;
              event_count := List.length es;
              event_ids := ids_of (List.firstn 20 es);
              cr_severity := "medium";
              correlation_id := generate_correlation_id es "reconnaissance" |}.
Proof.
  induction buckets as [|[ip es] rest IH]; cbn [reconnaissance_scan]; [done|].
  destruct (Nat.leb (min_events RULE_reconnaissance) _) eqn:Hlen.
  - intros [= <-]. exists ip, es. apply Nat.leb_le in Hlen.
    split; [by left|]. by split.
  - intros (ip' & es' & Hin & H)%IH. exists ip', es'. split; [by right | done].
Qed.

Lemma event_type_in_elem_of (xs : list string) (e : Event) :
  event_type_in xs e = true <-> exists t, event_type e = Some t /\ t ∈ xs.
Proof.
  unfold event_type_in. destruct (event_type e) as [t|].
  - rewrite str_in_elem_of. split; [intros H; by exists t|].
    by intros (t' & [= <-] & H).
  - split; [done | by intros (t & ? & _)].
Qed.

Lemma has_failure_tag_elem_of (e : Event) :
  has_failure_tag e = true <->
  exists tag, tag ∈ ["accessdenied"; "unauthorizedaccess"; "error"]
              /\ tag ∈ get (tags e) [].
Proof.
  unfold has_failure_tag. rewrite existsb_exists. split.
  - intros (tag & Hin%list_elem_of_In & Htag%str_in_elem_of). by exists tag.
  - intros (tag & Hin%list_elem_of_In & Htag%str_in_elem_of). by exists tag.
Qed.

End RecordEquations.

(** X2, rule R2: a privilege-escalation record is CRITICAL, names one
    actor, and lists a successful console login of that actor followed by
    at least one of that actor's events of type CreateAccessKey,
    CreateUser, AttachUserPolicy or AttachRolePolicy; the follow-ups are in
    chronological order among themselves. *)
Theorem privilege_escalation_record :
  forall (events : list Correlator.Event) (r : Correlator.CorrelationRecord),
    Correlator.check_privilege_escalation events = Some r ->
    exists actor_id login follow_ups,
      Correlator.rule r = "privilege_escalation"
      /\ Correlator.cr_severity r = "critical"
      /\ Correlator.cr_actor r = Some actor_id
      /\ follow_ups <> []
      /\ Correlator.event_ids r = Correlator.ids_of (login :: follow_ups)
      /\ Correlator.sequence r =
         Some (List.map Correlator.event_type (login :: follow_ups))
      /\ Correlator.event_count r = List.length (login :: follow_ups)
      /\ Forall (fun e => e ∈ events
                          /\ Correlator.actor_id_of e = actor_id)
           (login :: follow_ups)
      /\ Spec.successful_login login
      /\ Forall (fun e => Correlator.get (Correlator.event_type e) ""
                          ∈ Correlator.IAM_CHANGES) follow_ups
      /\ Spec.chronological follow_ups.
Proof.
  intros events r Hr. unfold Correlator.check_privilege_escalation in Hr.
  apply privilege_escalation_scan_record in Hr
    as (actor_id & es & login & iams & Hin & Hscan & Hne & ->).
  pose proof (group_by_sublist _ _ _ _ Hin) as Hsub.
  pose proof (group_by_keys _ _ _ _ Hin) as Hkeys.
  pose proof (escalation_loop_inv (Correlator.sorted_by_time es) (None, []))
    as [Hlogin (extra & Hextra & Hxsub & Hxty)].
  fold (Correlator.escalation_scan (Correlator.sorted_by_time es))
    in Hlogin, Hextra.
  rewrite Hscan in Hlogin, Hextra. simpl in Hlogin, Hextra. subst extra.
  destruct Hlogin as [?|(e & [= <-] & Hein & Hs)]; [done|].
  assert (Hsorted_in : forall x, x ∈ Correlator.sorted_by_time es -> x ∈ es).
  { intros x Hx%list_elem_of_In. by apply list_elem_of_In, sorted_by_time_In. }
  assert (Hmember : forall x, x ∈ es ->
             x ∈ events /\ Correlator.actor_id_of x = actor_id).
  { intros x Hx. split; [by eapply elem_of_sublist|].
    rewrite Forall_forall in Hkeys. by apply Hkeys. }
  exists actor_id, login, iams. do 7 (split; [done|]).
  split.
  { constructor; [by apply Hmember, Hsorted_in|].
    rewrite Forall_forall. intros x Hx. apply Hmember, Hsorted_in.
    by eapply elem_of_sublist. }
  split; [done|]. split; [done|].
  eapply StronglySorted_sublist; [exact Hxsub|]. apply sorted_by_time_sorted.
Qed.

(** X3, rule R1: a brute-force record is HIGH and lists at least five
    events of the input, in input order, each a ConsoleLogin from the
    record's source address carrying one of the tags accessdenied,
    unauthorizedaccess, error. *)
Theorem brute_force_record :
  forall (events : list Correlator.Event) (r : Correlator.CorrelationRecord),
    Correlator.check_brute_force events = Some r ->
    exists ip members,
      Correlator.rule r = "brute_force"
      /\ Correlator.cr_severity r = "high"
      /\ Correlator.cr_source_ip r = Some ip
      /\ Correlator.event_count r = List.length members
      /\ (5 <= List.length members)%nat
      /\ Correlator.event_ids r = Correlator.ids_of members
      /\ members `sublist_of` events
      /\ Forall (fun e =>
                   Correlator.event_type e = Some "ConsoleLogin"
                   /\ Correlator.ip_of e = ip
                   /\ exists tag,
                       tag ∈ ["accessdenied"; "unauthorizedaccess"; "error"]
                       /\ tag ∈ Correlator.get (Correlator.tags e) [])
           members.
Proof.
  intros events r Hr. unfold Correlator.check_brute_force in Hr.
  destruct (Nat.ltb _ _); [done|].
  apply brute_force_scan_record in Hr as (ip & es & Hin & Hlen & ->).
  pose proof (group_by_sublist _ _ _ _ Hin) as Hsub.
  pose proof (group_by_keys _ _ _ _ Hin) as Hkeys.
  exists ip, (List.filter Correlator.has_failure_tag es).
  do 6 (split; [done|]). split.
  { etrans; [apply filter_sublist|]. etrans; [exact Hsub|].
    apply filter_sublist. }
  rewrite Forall_forall. intros e He.
  assert (Hes : e ∈ es) by (eapply elem_of_sublist; [exact He|apply filter_sublist]).
  split; [|split].
  - assert (Hlogin : e ∈ List.filter
                      (Correlator.event_type_in
                         (Correlator.event_types Correlator.RULE_brute_force))
                      events) by (by eapply elem_of_sublist).
    pose proof (Forall_filter_true
                  (Correlator.event_type_in
                     (Correlator.event_types Correlator.RULE_brute_force))
                  events) as Hall.
    rewrite Forall_forall in Hall. apply Hall in Hlogin.
    apply event_type_in_elem_of in Hlogin as (t & Ht & Hin').
    simpl in Hin'. apply list_elem_of_In in Hin'. simpl in Hin'.
    destruct Hin' as [<-|[]]. done.
  - rewrite Forall_forall in Hkeys. by apply Hkeys.
  - apply has_failure_tag_elem_of.
    pose proof (Forall_filter_true Correlator.has_failure_tag es) as Hall.
    rewrite Forall_forall in Hall. by apply Hall.
Qed.

Lemma privilege_escalation_record_witness :
  Correlator.check_privilege_escalation
    [Examples.login_1; Examples.create_key] = Some Examples.escalation_emitted
  /\ exists actor_id login follow_ups,
      Correlator.rule Examples.escalation_emitted = "privilege_escalation"
      /\ Correlator.cr_severity Examples.escalation_emitted = "critical"
      /\ Correlator.cr_actor Examples.escalation_emitted = Some actor_id
      /\ follow_ups <> []
      /\ Correlator.event_ids Examples.escalation_emitted
         = Correlator.ids_of (login :: follow_ups)
      /\ Correlator.sequence Examples.escalation_emitted =
         Some (List.map Correlator.event_type (login :: follow_ups))
      /\ Correlator.event_count Examples.escalation_emitted
         = List.length (login :: follow_ups)
      /\ Forall (fun e => e ∈ [Examples.login_1; Examples.create_key]
                          /\ Correlator.actor_id_of e = actor_id)
           (login :: follow_ups)
      /\ Spec.successful_login login
      /\ Forall (fun e => Correlator.get (Correlator.event_type e) ""
                          ∈ Correlator.IAM_CHANGES) follow_ups
      /\ Spec.chronological follow_ups.
Proof.
  assert (H : Correlator.check_privilege_escalation
                [Examples.login_1; Examples.create_key]
              = Some Examples.escalation_emitted)
    by (vm_compute; reflexivity).
  split; [exact H|].
  exact (privilege_escalation_record
           [Examples.login_1; Examples.create_key]
           Examples.escalation_emitted H).
Defined.

Lemma brute_force_record_witness :
  Correlator.check_brute_force Examples.failed_logins
  = Some Examples.brute_force_emitted
  /\ exists ip members,
      Correlator.rule Examples.brute_force_emitted = "brute_force"
      /\ Correlator.cr_severity Examples.brute_force_emitted = "high"
      /\ Correlator.cr_source_ip Examples.brute_force_emitted = Some ip
      /\ Correlator.event_count Examples.brute_force_emitted
         = List.length members
      /\ (5 <= List.length members)%nat
      /\ Correlator.event_ids Examples.brute_force_emitted
         = Correlator.ids_of members
      /\ members `sublist_of` Examples.failed_logins
      /\ Forall (fun e =>
                   Correlator.event_type e = Some "ConsoleLogin"
                   /\ Correlator.ip_of e = ip
                   /\ exists tag,
                       tag ∈ ["accessdenied"; "unauthorizedaccess"; "error"]
                       /\ tag ∈ Correlator.get (Correlator.tags e) [])
           members.
Proof.
  assert (H : Correlator.check_brute_force Examples.failed_logins
              = Some Examples.brute_force_emitted)
    by (vm_compute; reflexivity).
  split; [exact H|].
  exact (brute_force_record Examples.failed_logins
           Examples.brute_force_emitted H).
Defined.

(** X4, rule R3: a tampering record is emitted exactly when some event is
    a StopLogging, DeleteTrail or UpdateTrail; it is CRITICAL and lists all
    of them. *)
Theorem logging_tampering_record :
  forall (events : list Correlator.Event),
    let tampering (e : Correlator.Event) :=
      exists t, Correlator.event_type e = Some t
                /\ t ∈ ["StopLogging"; "DeleteTrail"; "UpdateTrail"] in
    (Correlator.check_logging_tampering events = None
     <-> Forall (fun e => ~ tampering e) events)
    /\ (forall r,
          Correlator.check_logging_tampering events = Some r ->
          exists members,
            Correlator.rule r = "logging_tampering"
            /\ Correlator.cr_severity r = "critical"
            /\ Correlator.event_count r = List.length members
            /\ Correlator.event_ids r = Correlator.ids_of members
            /\ members `sublist_of` events
            /\ (forall e, e ∈ members <-> e ∈ events /\ tampering e)).
Proof.
  intros events tampering.
  assert (Hmem : forall e,
             e ∈ List.filter
                   (Correlator.event_type_in
                      (Correlator.event_types
                         Correlator.RULE_logging_tampering)) events
             <-> e ∈ events /\ tampering e).
  { intros e. rewrite !list_elem_of_In, filter_In, event_type_in_elem_of.
    done. }
  unfold Correlator.check_logging_tampering.
  destruct (List.filter _ events) as [|first rest] eqn:Hfilter.
  - split; [|done]. split; [|done]. intros _.
    rewrite Forall_forall. intros e He Ht.
    assert (e ∈ @nil Correlator.Event) as Hnil by (by apply Hmem).
    by apply elem_of_nil in Hnil.
  - split.
    + split; [done|]. rewrite Forall_forall. intros Hnone.
      assert (first ∈ first :: rest) as Hf by (by left).
      apply Hmem in Hf as [Hin Ht]. by destruct (Hnone first Hin).
    + intros r [= <-]. exists (first :: rest). do 4 (split; [done|]).
      split; [|exact Hmem]. rewrite <- Hfilter. apply filter_sublist.
Qed.

(** X5, rule R4: a reconnaissance record is MEDIUM, counts at least
    twenty discovery events from one source address and lists the ids of
    the first twenty. *)
Theorem reconnaissance_record :
  forall (events : list Correlator.Event) (r : Correlator.CorrelationRecord),
    Correlator.check_reconnaissance events = Some r ->
    exists ip members,
      Correlator.rule r = "reconnaissance"
      /\ Correlator.cr_severity r = "medium"
      /\ Correlator.cr_source_ip r = Some ip
      /\ Correlator.event_count r = List.length members
      /\ (20 <= List.length members)%nat
      /\ Correlator.event_ids r = Correlator.ids_of (List.firstn 20 members)
      /\ List.length (Correlator.event_ids r) = 20%nat
      /\ members `sublist_of` events
      /\ Forall (fun e =>
                   Correlator.ip_of e = ip
                   /\ exists prefix rest,
                       prefix ∈ ["List"; "Describe"; "Get"]
                       /\ Correlator.get (Correlator.event_type e) ""
                          = String.append prefix rest)
           members.
Proof.
  intros events r Hr. unfold Correlator.check_reconnaissance in Hr.
  destruct (Nat.ltb _ _); [done|].
  apply reconnaissance_scan_record in Hr as (ip & es & Hin & Hlen & ->).
  pose proof (group_by_sublist _ _ _ _ Hin) as Hsub.
  pose proof (group_by_keys _ _ _ _ Hin) as Hkeys.
  exists ip, es. do 6 (split; [done|]). split.
  { simpl. unfold Correlator.ids_of.
    rewrite length_map, length_firstn. lia. }
  split; [etrans; [exact Hsub|apply filter_sublist]|].
  rewrite Forall_forall. intros e He. split.
  - rewrite Forall_forall in Hkeys. by apply Hkeys.
  - assert (Hd : e ∈ List.filter Correlator.is_discovery events)
      by (by eapply elem_of_sublist).
    pose proof (Forall_filter_true Correlator.is_discovery events) as Hall.
    rewrite Forall_forall in Hall. apply Hall in Hd.
    by apply startswith_any_elem_of in Hd.
Qed.

Lemma reconnaissance_record_witness :
  Correlator.check_reconnaissance Examples.discovery_calls
  = Some Examples.reconnaissance_emitted
  /\ exists ip members,
      Correlator.rule Examples.reconnaissance_emitted = "reconnaissance"
      /\ Correlator.cr_severity Examples.reconnaissance_emitted = "medium"
      /\ Correlator.cr_source_ip Examples.reconnaissance_emitted = Some ip
      /\ Correlator.event_count Examples.reconnaissance_emitted
         = List.length members
      /\ (20 <= List.length members)%nat
      /\ Correlator.event_ids Examples.reconnaissance_emitted
         = Correlator.ids_of (List.firstn 20 members)
      /\ List.length (Correlator.event_ids Examples.reconnaissance_emitted)
         = 20%nat
      /\ members `sublist_of` Examples.discovery_calls
      /\ Forall (fun e =>
                   Correlator.ip_of e = ip
                   /\ exists prefix rest,
                       prefix ∈ ["List"; "Describe"; "Get"]
                       /\ Correlator.get (Correlator.event_type e) ""
                          = String.append prefix rest)
           members.
Proof.
  assert (H : Correlator.check_reconnaissance Examples.discovery_calls
              = Some Examples.reconnaissance_emitted)
    by (vm_compute; reflexivity).
  split; [exact H|].
  exact (reconnaissance_record Examples.discovery_calls
           Examples.reconnaissance_emitted H).
Defined.

(* ===================================================================== *)
(** ** Further properties of the services *)
(* ===================================================================== *)

Import Notions.

Section DictFacts.

Lemma dict_get_elem_of {A} (k : string) (d : list (string * A)) (v : A) :
  Py.dict_get k d = Some v -> (k, v) ∈ d.
Proof.
  induction d as [|[k' v'] d IH]; simpl; [done|].
  destruct (String.eqb k k') eqn:E.
  - apply String.eqb_eq in E. intros [= ->]. subst. left.
  - intros H. right. by apply IH.
Qed.

Lemma dict_get_None {A} (k : string) (d : list (string * A)) :
  Py.dict_get k d = None <-> k ∉ d.*1.
Proof.
  induction d as [|[k' v'] d IH]; simpl.
  - split; [intros _; apply not_elem_of_nil | done].
  - destruct (String.eqb k k') eqn:E.
    + apply String.eqb_eq in E. subst. split; [done|].
      intros H. exfalso. apply H. left.
    + apply String.eqb_neq in E. rewrite IH, not_elem_of_cons. tauto.
Qed.

Lemma dict_get_NoDup {A} (k : string) (d : list (string * A)) (v : A) :
  NoDup d.*1 -> (k, v) ∈ d -> Py.dict_get k d = Some v.
Proof.
  induction d as [|[k' v'] d IH]; simpl.
  - intros _ H. by apply elem_of_nil in H.
  - intros Hnd Hin. apply NoDup_cons in Hnd as [Hk' Hnd].
    apply elem_of_cons in Hin as [[= -> ->]|Hin].
    + by rewrite String.eqb_refl.
    + destruct (String.eqb k k') eqn:E.
      * apply String.eqb_eq in E. subst. exfalso. apply Hk'.
        apply list_elem_of_fmap. by exists (k', v).
      * by apply IH.
Qed.

End DictFacts.

Section Grouping.
Import Correlator.

Lemma bucket_append_get (k k' : string) (e : Event)
    (m : list (string * list Event)) :
  Py.dict_get k' (bucket_append k e m) =
  if String.eqb k' k
  then Some (Correlator.get (Py.dict_get k m) [] ++ [e])
  else Py.dict_get k' m.
Proof.
  induction m as [|[k0 es] m IH]; simpl.
  - destruct (String.eqb k' k); done.
  - destruct (String.eqb k k0) eqn:E; simpl.
    + apply String.eqb_eq in E. subst k0.
      by destruct (String.eqb k' k).
    + destruct (String.eqb k' k0) eqn:E0.
      * apply String.eqb_eq in E0. subst k0.
        rewrite String.eqb_sym in E. by rewrite E.
      * apply IH.
Qed.

Lemma bucket_append_keys_NoDup (k : string) (e : Event)
    (m : list (string * list Event)) :
  NoDup m.*1 -> NoDup (bucket_append k e m).*1.
Proof.
  induction m as [|[k0 es] m IH]; simpl.
  - intros _. apply NoDup_singleton.
  - intros Hnd. apply NoDup_cons in Hnd as [Hk0 Hnd].
    destruct (String.eqb k k0) eqn:E; simpl.
    + by apply NoDup_cons.
    + apply NoDup_cons. split; [|by apply IH].
      rewrite <- dict_get_None in *.
      rewrite bucket_append_get.
      rewrite String.eqb_sym in E. by rewrite E.
Qed.

Lemma group_loop_grouped (key : Event -> string) (l pre : list Event)
    (m : list (string * list Event)) :
  grouped key pre m ->
  grouped key (pre ++ l)
    (List.fold_left (fun m e => bucket_append (key e) e m) l m).
Proof.
  revert pre m. induction l as [|e l IH]; intros pre m Hm; simpl.
  - by rewrite app_nil_r.
  - replace (pre ++ e :: l) with ((pre ++ [e]) ++ l)
      by (by rewrite <- app_assoc).
    apply IH. destruct Hm as [Hnd Hm]. split.
    + by apply bucket_append_keys_NoDup.
    + intros k. rewrite bucket_append_get. unfold with_key.
      rewrite List.filter_app. simpl.
      specialize (Hm k). unfold with_key in Hm.
      destruct (String.eqb k (key e)) eqn:E.
      * apply String.eqb_eq in E. subst k. rewrite String.eqb_refl.
        destruct (Py.dict_get (key e) m) as [es|]; simpl.
        -- destruct Hm as [-> _]. split; [done|]. by destruct (List.filter _ pre).
        -- rewrite Hm. done.
      * rewrite String.eqb_sym in E. rewrite E, app_nil_r. done.
Qed.

Lemma group_by_with_key (key : Event -> string) (l : list Event)
    (k : string) (es : list Event) :
  In (k, es) (group_by key l) <-> es = with_key key k l /\ es <> [].
Proof.
  pose proof (group_loop_grouped key l [] []) as [Hnd H].
  { split; [constructor | done]. }
  simpl in Hnd, H. fold (group_by key l) in Hnd, H.
  specialize (H k). split.
  - intros Hin. apply list_elem_of_In in Hin.
    by rewrite (dict_get_NoDup _ _ _ Hnd Hin) in H.
  - intros [-> Hne].
    destruct (Py.dict_get k (group_by key l)) as [es|] eqn:E; [|done].
    destruct H as [<- _]. by apply list_elem_of_In, dict_get_elem_of.
Qed.

End Grouping.


Section Detection.
Import Correlator.

Lemma brute_force_scan_None (buckets : list (string * list Event)) :
  brute_force_scan buckets = None <->
  Forall (fun b => (List.length (List.filter has_failure_tag b.2) < 5)%nat)
         buckets.
Proof.
  induction buckets as [|[ip es] buckets IH]; cbn [brute_force_scan].
  - split; [constructor | done].
  - rewrite Forall_cons. cbn [snd].
    destruct (Nat.leb (min_events RULE_brute_force) _) eqn:Hlen.
    + apply Nat.leb_le in Hlen. simpl in Hlen. split; [done | lia].
    + apply Nat.leb_gt in Hlen. simpl in Hlen. rewrite IH.
      split; [by split | by intros [_ ?]].
Qed.

Lemma reconnaissance_scan_None (buckets : list (string * list Event)) :
  reconnaissance_scan buckets = None <->
  Forall (fun b => (List.length b.2 < 20)%nat) buckets.
Proof.
  induction buckets as [|[ip es] buckets IH]; cbn [reconnaissance_scan].
  - split; [constructor | done].
  - rewrite Forall_cons. cbn [snd].
    destruct (Nat.leb (min_events RULE_reconnaissance) _) eqn:Hlen.
    + apply Nat.leb_le in Hlen. simpl in Hlen. split; [done | lia].
    + apply Nat.leb_gt in Hlen. simpl in Hlen. rewrite IH.
      split; [by split | by intros [_ ?]].
Qed.

Lemma filter_length_le {A} (f : A -> bool) (l : list A) :
  (List.length (List.filter f l) <= List.length l)%nat.
Proof.
  induction l as [|x l IH]; simpl; [lia|]. destruct (f x); simpl; lia.
Qed.

Lemma filter_filter {A} (f g : A -> bool) (l : list A) :
  List.filter f (List.filter g l) = List.filter (fun x => g x && f x) l.
Proof.
  induction l as [|x l IH]; simpl; [done|].
  destruct (g x); simpl; [|done]. destruct (f x); by rewrite IH.
Qed.

(** X6, rule R1: [check_brute_force] returns a record exactly when some
    source address has at least five console logins in the list that carry
    one of the tags accessdenied, unauthorizedaccess, error; the record of
    an address lists all of these logins. *)
Theorem brute_force_detection :
  forall (events : list Correlator.Event),
    (Correlator.check_brute_force events <> None
     <-> exists ip, (5 <= List.length (failed_logins_from ip events))%nat)
    /\ (forall r ip,
          Correlator.check_brute_force events = Some r ->
          Correlator.cr_source_ip r = Some ip ->
          Correlator.event_ids r
          = Correlator.ids_of (failed_logins_from ip events)).
Proof.
  intros events.
  assert (Hfilter : forall ip,
    List.filter has_failure_tag
      (with_key ip_of ip
         (List.filter (event_type_in (event_types RULE_brute_force)) events))
    = failed_logins_from ip events).
  { intros ip. unfold with_key, failed_logins_from.
    rewrite !filter_filter. apply List.filter_ext. intros e.
    by rewrite andb_assoc. }
  split.
  - unfold check_brute_force.
    set (login_events :=
           List.filter (event_type_in (event_types RULE_brute_force)) events).
    destruct (Nat.ltb_spec (List.length login_events)
                           (min_events RULE_brute_force)) as [Hlt|Hge].
    + split; [done|]. intros [ip Hip]. exfalso.
      rewrite <- Hfilter in Hip. fold login_events in Hip.
      pose proof (filter_length_le has_failure_tag
                    (with_key ip_of ip login_events)).
      pose proof (filter_length_le (fun e => String.eqb (ip_of e) ip)
                    login_events).
      unfold with_key in *. simpl in Hlt. lia.
    + rewrite brute_force_scan_None, <- Exists_Forall_neg
        by (intros; simpl; lia).
      rewrite Exists_exists. split.
      * intros ([ip es] & Hin & Hes). simpl in Hes.
        apply list_elem_of_In, group_by_with_key in Hin as [-> _].
        exists ip. rewrite <- Hfilter. fold login_events. lia.
      * intros [ip Hip]. rewrite <- Hfilter in Hip. fold login_events in Hip.
        exists (ip, with_key ip_of ip login_events). split; [|simpl; lia].
        apply list_elem_of_In, group_by_with_key. split; [done|].
        intros Hnil. rewrite Hnil in Hip. simpl in Hip. lia.
  - intros r ip Hr Hip. unfold check_brute_force in Hr.
    destruct (Nat.ltb _ _); [done|].
    apply brute_force_scan_record in Hr as (ip' & es & Hin & _ & ->).
    simpl in Hip. injection Hip as ->. simpl.
    apply group_by_with_key in Hin as [-> _]. by rewrite Hfilter.
Qed.

(** X7, rule R4: [check_reconnaissance] returns a record exactly when some
    source address has at least twenty events in the list whose type
    starts with List, Describe or Get; the record counts all of them and
    lists the first twenty. *)
Theorem reconnaissance_detection :
  forall (events : list Correlator.Event),
    (Correlator.check_reconnaissance events <> None
     <-> exists ip, (20 <= List.length (discovery_calls_from ip events))%nat)
    /\ (forall r ip,
          Correlator.check_reconnaissance events = Some r ->
          Correlator.cr_source_ip r = Some ip ->
          Correlator.event_count r
          = List.length (discovery_calls_from ip events)
          /\ Correlator.event_ids r
             = Correlator.ids_of
                 (List.firstn 20 (discovery_calls_from ip events))).
Proof.
  intros events.
  assert (Hfilter : forall ip,
    with_key ip_of ip (List.filter is_discovery events)
    = discovery_calls_from ip events).
  { intros ip. unfold with_key, discovery_calls_from.
    by rewrite filter_filter. }
  split.
  - unfold check_reconnaissance.
    set (recon_events := List.filter is_discovery events).
    destruct (Nat.ltb_spec (List.length recon_events)
                           (min_events RULE_reconnaissance)) as [Hlt|Hge].
    + split; [done|]. intros [ip Hip]. exfalso.
      rewrite <- Hfilter in Hip. fold recon_events in Hip.
      pose proof (filter_length_le (fun e => String.eqb (ip_of e) ip)
                    recon_events).
      unfold with_key in *. simpl in Hlt. lia.
    + rewrite reconnaissance_scan_None, <- Exists_Forall_neg
        by (intros; simpl; lia).
      rewrite Exists_exists. split.
      * intros ([ip es] & Hin & Hes). simpl in Hes.
        apply list_elem_of_In, group_by_with_key in Hin as [-> _].
        exists ip. rewrite <- Hfilter. fold recon_events. lia.
      * intros [ip Hip]. rewrite <- Hfilter in Hip. fold recon_events in Hip.
        exists (ip, with_key ip_of ip recon_events). split; [|simpl; lia].
        apply list_elem_of_In, group_by_with_key. split; [done|].
        intros Hnil. rewrite Hnil in Hip. simpl in Hip. lia.
  - intros r ip Hr Hip. unfold check_reconnaissance in Hr.
    destruct (Nat.ltb _ _); [done|].
    apply reconnaissance_scan_record in Hr as (ip' & es & Hin & _ & ->).
    simpl in Hip. injection Hip as ->. simpl.
    apply group_by_with_key in Hin as [-> _]. by rewrite Hfilter.
Qed.

End Detection.


Section Correlate.
Import Correlator.

Lemma correlate_events_unfold (events : list Event) :
  correlate_events events =
  option_list (check_brute_force events)
  ++ option_list (check_privilege_escalation events)
  ++ option_list (check_logging_tampering events)
  ++ option_list (check_reconnaissance events).
Proof.
  unfold correlate_events, checks. cbn [List.fold_left].
  destruct (check_brute_force events), (check_privilege_escalation events),
    (check_logging_tampering events), (check_reconnaissance events);
    reflexivity.
Qed.

Lemma check_brute_force_rule (events : list Event) (r : CorrelationRecord) :
  check_brute_force events = Some r -> rule r = "brute_force".
Proof.
  unfold check_brute_force. destruct (Nat.ltb _ _); [done|].
  by intros (? & ? & _ & _ & ->)%brute_force_scan_record.
Qed.

Lemma check_privilege_escalation_rule (events : list Event)
    (r : CorrelationRecord) :
  check_privilege_escalation events = Some r ->
  rule r = "privilege_escalation".
Proof.
  unfold check_privilege_escalation.
  by intros (? & ? & ? & ? & _ & _ & _ & ->)%privilege_escalation_scan_record.
Qed.

Lemma check_logging_tampering_rule (events : list Event)
    (r : CorrelationRecord) :
  check_logging_tampering events = Some r -> rule r = "logging_tampering".
Proof.
  unfold check_logging_tampering. destruct (List.filter _ _); [done|].
  by intros [= <-].
Qed.

Lemma check_reconnaissance_rule (events : list Event) (r : CorrelationRecord) :
  check_reconnaissance events = Some r -> rule r = "reconnaissance".
Proof.
  unfold check_reconnaissance. destruct (Nat.ltb _ _); [done|].
  by intros (? & ? & _ & _ & ->)%reconnaissance_scan_record.
Qed.

Lemma correlate_events_rules (events : list Event) :
  List.map rule (correlate_events events)
  `sublist_of` ["brute_force"; "privilege_escalation"; "logging_tampering";
                "reconnaissance"].
Proof.
  rewrite correlate_events_unfold.
  destruct (check_brute_force events) as [r1|] eqn:E1;
    [apply check_brute_force_rule in E1|];
  (destruct (check_privilege_escalation events) as [r2|] eqn:E2;
    [apply check_privilege_escalation_rule in E2|]);
  (destruct (check_logging_tampering events) as [r3|] eqn:E3;
    [apply check_logging_tampering_rule in E3|]);
  (destruct (check_reconnaissance events) as [r4|] eqn:E4;
    [apply check_reconnaissance_rule in E4|]);
  simpl; rewrite ?E1, ?E2, ?E3, ?E4;
  repeat first [apply sublist_nil | apply sublist_skip | apply sublist_cons ].
Qed.

Lemma correlate_events_rules_NoDup (events : list Event) :
  NoDup (List.map rule (correlate_events events)).
Proof.
  eapply sublist_NoDup; [|apply correlate_events_rules].
  apply (bool_decide_unpack _). by vm_compute.
Qed.

(** X10: [correlate_events] returns at most one record per rule, in the
    order brute_force, privilege_escalation, logging_tampering,
    reconnaissance, hence at most four; no other rule name occurs (none
    for data_exfiltration), and an empty list gives no record. *)
Theorem correlate_events_rule_order :
  forall (events : list Correlator.Event),
    List.map Correlator.rule (Correlator.correlate_events events)
    `sublist_of` ["brute_force"; "privilege_escalation"; "logging_tampering";
                  "reconnaissance"]
    /\ NoDup (List.map Correlator.rule (Correlator.correlate_events events))
    /\ (List.length (Correlator.correlate_events events) <= 4)%nat
    /\ Correlator.correlate_events [] = [].
Proof.
  intros events. pose proof (correlate_events_rules events) as Hsub.
  split; [done|]. split; [apply correlate_events_rules_NoDup|]. split.
  - apply sublist_length in Hsub. rewrite length_map in Hsub.
    simpl in Hsub. lia.
  - reflexivity.
Qed.

End Correlate.


Section Sha256Facts.
Import Sha256.

Lemma round_length (acc : list Z * list Z) (k : Z) :
  List.length (round acc k).1 = 8%nat.
Proof. by destruct acc. Qed.

Lemma rounds_length (ks : list Z) (acc : list Z * list Z) :
  ks <> [] -> List.length (List.fold_left round ks acc).1 = 8%nat.
Proof.
  induction ks as [|k ks IH] using rev_ind; [done|]. intros _.
  rewrite List.fold_left_app. simpl. apply round_length.
Qed.

Lemma add_words_length (xs ys : list Z) :
  List.length (add_words xs ys)
  = Nat.min (List.length xs) (List.length ys).
Proof.
  revert ys. induction xs as [|x xs IH]; intros [|y ys]; simpl; [done..|].
  by rewrite IH.
Qed.

Lemma compress_length (st block : list Z) :
  List.length st = 8%nat -> List.length (compress st block) = 8%nat.
Proof.
  intros Hst. unfold compress.
  rewrite add_words_length, Hst, rounds_length; [done|].
  by vm_compute.
Qed.

Lemma blocks_length (fuel : nat) (st ws : list Z) :
  List.length st = 8%nat -> List.length (blocks fuel st ws) = 8%nat.
Proof.
  revert st ws. induction fuel as [|fuel IH]; intros st ws Hst; simpl;
    [done|].
  destruct ws; [done|]. apply IH. by apply compress_length.
Qed.

Lemma digest_length (s : string) : List.length (digest s) = 8%nat.
Proof. unfold digest. apply blocks_length. reflexivity. Qed.

Lemma length_append (a b : string) :
  String.length (String.append a b)
  = (String.length a + String.length b)%nat.
Proof.
  induction a as [|c a IH]; [done|].
  change (S (String.length (String.append a b))
          = S (String.length a + String.length b)).
  by rewrite IH.
Qed.

Lemma all_hex_append (a b : string) :
  all_hex (String.append a b) = all_hex a && all_hex b.
Proof.
  induction a as [|c a IH]; [done|].
  change (is_hex c && all_hex (String.append a b)
          = is_hex c && all_hex a && all_hex b).
  by rewrite IH, andb_assoc.
Qed.

Lemma hex_digit_is_hex (n : Z) : is_hex (hex_digit n) = true.
Proof.
  unfold hex_digit.
  assert (H : forall i : nat,
    is_hex (List.nth i (list_ascii_of_string "0123456789abcdef") "0"%char)
    = true).
  { intros i. do 16 (destruct i as [|i]; [reflexivity|]).
    by destruct i. }
  apply H.
Qed.

Lemma hex_of_word_format (w : Z) :
  String.length (hex_of_word w) = 8%nat /\ all_hex (hex_of_word w) = true.
Proof.
  unfold hex_of_word. cbn [List.map string_of_list_ascii].
  split; [reflexivity|]. cbn [all_hex].
  by rewrite !hex_digit_is_hex.
Qed.

Lemma hexdigest_format (s : string) :
  String.length (hexdigest s) = 64%nat /\ all_hex (hexdigest s) = true.
Proof.
  unfold hexdigest. pose proof (digest_length s) as Hlen.
  assert (H : forall ws,
    String.length
      (List.fold_right (fun w acc => String.append (hex_of_word w) acc)
                       EmptyString ws)
    = (8 * List.length ws)%nat
    /\ all_hex
         (List.fold_right (fun w acc => String.append (hex_of_word w) acc)
                          EmptyString ws) = true).
  { induction ws as [|w ws [IH1 IH2]]; [done|].
    cbn [List.fold_right List.length].
    destruct (hex_of_word_format w) as [Hw1 Hw2].
    rewrite length_append, all_hex_append, Hw1, Hw2, IH1, IH2.
    split; [lia | done]. }
  destruct (H (digest s)) as [H1 H2]. rewrite H1, Hlen. done.
Qed.

Lemma str_take_format (n : nat) (s : string) :
  String.length (Py.str_take n s) = Nat.min n (String.length s)
  /\ (all_hex s = true -> all_hex (Py.str_take n s) = true).
Proof.
  revert s. induction n as [|n IH]; intros [|c s]; simpl; try done.
  destruct (IH s) as [-> IH2]. split; [done|].
  intros [? ?]%andb_true_iff. rewrite IH2 by done. by rewrite andb_true_r.
Qed.

End Sha256Facts.

Section CorrelationIdFormat.
Import Correlator.

Lemma sublist_elem_of {A} (l1 l2 : list A) (x : A) :
  l1 `sublist_of` l2 -> x ∈ l1 -> x ∈ l2.
Proof. intros Hsub Hx. by eapply elem_of_sublist. Qed.

Lemma generate_correlation_id_format (events : list Event)
    (rule_name : string) :
  String.length (generate_correlation_id events rule_name) = 16%nat
  /\ all_hex (generate_correlation_id events rule_name) = true.
Proof.
  unfold generate_correlation_id.
  destruct (hexdigest_format (hash_input events rule_name)) as [H1 H2].
  destruct (str_take_format 16
              (Sha256.hexdigest (hash_input events rule_name))) as [H3 H4].
  rewrite H3, H1. split; [done | by apply H4].
Qed.

Lemma correlate_events_generated (events : list Event)
    (r : CorrelationRecord) :
  In r (correlate_events events) ->
  exists members,
    members <> []
    /\ Forall (fun e => e ∈ events) members
    /\ correlation_id r = generate_correlation_id members (rule r)
    /\ List.hd_error (event_ids r) = List.hd_error (ids_of members).
Proof.
  rewrite correlate_events_checks. intros [H|[H|[H|H]]].
  - unfold check_brute_force in H. destruct (Nat.ltb _ _); [done|].
    apply brute_force_scan_record in H as (ip & es & Hin & Hlen & ->).
    exists (List.filter has_failure_tag es). cbn.
    split; [intros Hn; rewrite Hn in Hlen; simpl in Hlen; lia|].
    split; [|done].
    apply group_by_sublist in Hin.
    apply Forall_forall. intros e He.
    apply list_elem_of_In, List.filter_In in He as [He _].
    apply list_elem_of_In in He.
    eapply sublist_elem_of in He; [|exact Hin].
    apply list_elem_of_In, List.filter_In in He as [He _].
    by apply list_elem_of_In.
  - unfold check_privilege_escalation in H.
    apply privilege_escalation_scan_record in H
      as (actor_id & es & login & iams & Hin & Hscan & Hne & ->).
    exists (login :: iams). cbn. split; [done|]. split; [|done].
    apply group_by_sublist in Hin.
    pose proof (escalation_loop_inv (sorted_by_time es) (None, [])) as Hinv.
    cbv zeta in Hinv. fold (escalation_scan (sorted_by_time es)) in Hinv.
    rewrite Hscan in Hinv. cbn in Hinv.
    destruct Hinv as [Hlogin (extra & -> & Hsub & _)].
    assert (Hes : forall e, e ∈ sorted_by_time es -> e ∈ events).
    { intros e He. apply list_elem_of_In, sorted_by_time_In in He.
      apply list_elem_of_In in He. by eapply sublist_elem_of. }
    apply Forall_cons. split.
    + destruct Hlogin as [?|(e & [= <-] & He & _)]; [done|]. by apply Hes.
    + apply Forall_forall. intros e He. apply Hes.
      by eapply sublist_elem_of.
  - unfold check_logging_tampering in H.
    destruct (List.filter _ events) as [|e es] eqn:E; [done|].
    injection H as <-. exists (e :: es). cbn. split; [done|].
    split; [|done]. rewrite <- E. apply Forall_forall. intros x Hx.
    apply list_elem_of_In, List.filter_In in Hx as [Hx _].
    by apply list_elem_of_In.
  - unfold check_reconnaissance in H. destruct (Nat.ltb _ _); [done|].
    apply reconnaissance_scan_record in H as (ip & es & Hin & Hlen & ->).
    exists es. cbn.
    split; [intros ->; simpl in Hlen; lia|]. split.
    + apply group_by_sublist in Hin. apply Forall_forall. intros e He.
      eapply sublist_elem_of in He; [|exact Hin].
      apply list_elem_of_In, List.filter_In in He as [He _].
      by apply list_elem_of_In.
    + split; [done|]. destruct es; [simpl in Hlen; lia | done].
Qed.

(** X11: a correlation id is always sixteen lower-case hexadecimal
    digits, for every list of events (the empty one included) and every
    rule name, and so is the id of every emitted record. *)
Theorem correlation_id_format :
  forall (events : list Correlator.Event) (r : Correlator.CorrelationRecord),
    (forall rule_name,
        String.length (Correlator.generate_correlation_id events rule_name)
        = 16%nat
        /\ all_hex (Correlator.generate_correlation_id events rule_name)
           = true)
    /\ (In r (Correlator.correlate_events events) ->
        String.length (Correlator.correlation_id r) = 16%nat
        /\ all_hex (Correlator.correlation_id r) = true).
Proof.
  intros events r. split.
  - intros rule_name. apply generate_correlation_id_format.
  - intros (members & _ & _ & -> & _)%correlate_events_generated.
    apply generate_correlation_id_format.
Qed.

End CorrelationIdFormat.


Section Members.
Import Correlator.

(** The first member of an emitted record, by rule. *)
Lemma correlate_events_first (events : list Event) (r : CorrelationRecord) :
  In r (correlate_events events) ->
  exists first rest,
    first ∈ events
    /\ correlation_id r = generate_correlation_id (first :: rest) (rule r)
    /\ List.hd_error (event_ids r) = Some (event_id first)
    /\ (rule r = "brute_force" \/ rule r = "privilege_escalation" ->
        Correlator.get (event_type first) "" = "ConsoleLogin")
    /\ (rule r = "logging_tampering" ->
        Correlator.get (event_type first) ""
        ∈ ["StopLogging"; "DeleteTrail"; "UpdateTrail"]).
Proof.
  rewrite correlate_events_checks. intros [H|[H|[H|H]]].
  - unfold check_brute_force in H. destruct (Nat.ltb _ _); [done|].
    apply brute_force_scan_record in H as (ip & es & Hin & Hlen & ->).
    destruct (List.filter has_failure_tag es) as [|first rest] eqn:E;
      [simpl in Hlen; lia|].
    assert (Hf : In first (List.filter has_failure_tag es))
      by (rewrite E; by left).
    apply List.filter_In in Hf as [Hf _].
    apply group_by_sublist in Hin.
    apply list_elem_of_In in Hf.
    pose proof (elem_of_sublist _ _ _ Hf Hin) as Hf'.
    apply list_elem_of_In, List.filter_In in Hf' as [Hf1 Hf2].
    exists first, rest. cbn. split; [by apply list_elem_of_In|].
    split; [done|]. split; [done|]. split; [|done].
    intros _. apply event_type_in_elem_of in Hf2 as (t & -> & Ht).
    simpl. by apply list_elem_of_singleton in Ht.
  - unfold check_privilege_escalation in H.
    apply privilege_escalation_scan_record in H
      as (actor_id & es & login & iams & Hin & Hscan & Hne & ->).
    apply group_by_sublist in Hin.
    pose proof (escalation_loop_inv (sorted_by_time es) (None, [])) as Hinv.
    cbv zeta in Hinv. fold (escalation_scan (sorted_by_time es)) in Hinv.
    rewrite Hscan in Hinv. cbn in Hinv.
    destruct Hinv as [[?|(e & [= <-] & He & Hlog)] _]; [done|].
    exists login, iams. cbn. split.
    { apply list_elem_of_In, sorted_by_time_In in He.
      apply list_elem_of_In in He. by eapply elem_of_sublist. }
    split; [done|]. split; [done|]. split; [|done].
    intros _. by destruct Hlog.
  - unfold check_logging_tampering in H.
    destruct (List.filter _ events) as [|first rest] eqn:E; [done|].
    injection H as <-.
    assert (Hf : In first (List.filter
                  (event_type_in (event_types RULE_logging_tampering))
                  events)) by (rewrite E; by left).
    apply List.filter_In in Hf as [Hf1 Hf2].
    exists first, rest. cbn. split; [by apply list_elem_of_In|].
    split; [done|]. split; [done|]. split; [by intros [?|?]|].
    intros _. by apply event_type_in_elem_of in Hf2 as (t & -> & Ht).
  - unfold check_reconnaissance in H. destruct (Nat.ltb _ _); [done|].
    apply reconnaissance_scan_record in H as (ip & es & Hin & Hlen & ->).
    destruct es as [|first rest]; [simpl in Hlen; lia|].
    apply group_by_sublist in Hin.
    assert (Hf : first ∈ first :: rest) by left.
    pose proof (elem_of_sublist _ _ _ Hf Hin) as Hf'.
    apply list_elem_of_In, List.filter_In in Hf' as [Hf1 Hf2].
    exists first, rest. cbn. split; [by apply list_elem_of_In|].
    split; [done|]. split; [done|]. split; [by intros [?|?]|done].
Qed.

End Members.

Section StoredIds.
Import Correlator.

(** X12: for events stored by [serialize_event], which writes no
    top-level [source_ip] entry, the correlation id is determined by the
    rule and the type of the first listed member: it is one constant for
    brute_force, one for privilege_escalation and one of three for
    logging_tampering, whatever the addresses and actors involved. *)
Theorem stored_correlation_ids :
  forall (datetime : Type) (isoformat : datetime -> string)
         (stored : list (Models.SecurityEvent datetime))
         (r : Correlator.CorrelationRecord),
    In r (Correlator.correlate_events
            (List.map (Ingest.serialize_event datetime isoformat) stored)) ->
    (exists first,
        first ∈ stored
        /\ List.hd_error (Correlator.event_ids r)
           = Some (Some (Models.event_id first))
        /\ Correlator.correlation_id r =
           Py.str_take 16
             (Sha256.hexdigest
                (String.append (Correlator.rule r)
                   (String.append ":"
                      (String.append (Models.event_type first) ":")))))
    /\ (Correlator.rule r = "brute_force" ->
        Correlator.correlation_id r = "14431a1dda66b198")
    /\ (Correlator.rule r = "privilege_escalation" ->
        Correlator.correlation_id r = "f766f1247f683ff4")
    /\ (Correlator.rule r = "logging_tampering" ->
        Correlator.correlation_id r
        ∈ ["5c5b65e2d4bd37a6"; "5d1912b7de0d4dc6"; "028ea828b60b9df2"]).
Proof.
  intros datetime isoformat stored r Hin.
  apply correlate_events_first in Hin
    as (first & rest & Hfirst & Hid & Hhd & Hlogin & Htamper).
  apply list_elem_of_fmap in Hfirst as (ev & -> & Hev).
  rewrite generate_correlation_id_first in Hid.
  cbn [event_type source_ip Ingest.serialize_event Correlator.get
       event_id] in Hid, Hhd, Hlogin, Htamper.
  split; [by exists ev|]. split; [|split].
  - intros Hr. rewrite Hid, Hr, Hlogin by (left; by rewrite Hr).
    vm_compute. reflexivity.
  - intros Hr. rewrite Hid, Hr, Hlogin by (right; by rewrite Hr).
    vm_compute. reflexivity.
  - intros Hr. specialize (Htamper Hr). rewrite Hid, Hr.
    rewrite !elem_of_cons in Htamper.
    destruct Htamper as [->|[->|[->|Hnil]]];
      [| | |by apply elem_of_nil in Hnil].
    + vm_compute. left.
    + vm_compute. right. left.
    + vm_compute. right. right. left.
Qed.

End StoredIds.


Section NoTimeWindow.
Import Correlator.

Variable g : Event -> Event.
Hypothesis g_event_id : forall e, event_id (g e) = event_id e.
Hypothesis g_event_type : forall e, event_type (g e) = event_type e.
Hypothesis g_source_ip : forall e, source_ip (g e) = source_ip e.
Hypothesis g_network : forall e, network (g e) = network e.
Hypothesis g_tags : forall e, tags (g e) = tags e.

Lemma filter_map_same (p : Event -> bool) (l : list Event) :
  (forall e, p (g e) = p e) ->
  List.filter p (List.map g l) = List.map g (List.filter p l).
Proof.
  intros Hp. induction l as [|e l IH]; simpl; [done|].
  rewrite Hp. destruct (p e); simpl; by rewrite IH.
Qed.

Lemma bucket_append_map (k : string) (e : Event)
    (m : list (string * list Event)) :
  bucket_append k (g e) (List.map (map_bucket g) m)
  = List.map (map_bucket g) (bucket_append k e m).
Proof.
  induction m as [|[k' es] m IH]; simpl; [done|].
  destruct (String.eqb k k'); simpl.
  - unfold map_bucket at 2. simpl. by rewrite List.map_app.
  - by rewrite IH.
Qed.

Lemma group_by_map (key : Event -> string) (l : list Event) :
  (forall e, key (g e) = key e) ->
  group_by key (List.map g l) = List.map (map_bucket g) (group_by key l).
Proof.
  intros Hkey. unfold group_by.
  change (@nil (string * list Event)) with (List.map (map_bucket g) []) at 1.
  generalize (@nil (string * list Event)) as m.
  induction l as [|e l IH]; intros m; simpl; [done|].
  rewrite Hkey, bucket_append_map. apply IH.
Qed.

Lemma ids_of_map (l : list Event) : ids_of (List.map g l) = ids_of l.
Proof.
  unfold ids_of. rewrite List.map_map. apply List.map_ext. apply g_event_id.
Qed.

Lemma generate_correlation_id_map (l : list Event) (rule_name : string) :
  generate_correlation_id (List.map g l) rule_name
  = generate_correlation_id l rule_name.
Proof.
  unfold generate_correlation_id, hash_input.
  destruct l as [|e l]; simpl; [done|].
  by rewrite g_event_type, g_source_ip.
Qed.

Lemma has_failure_tag_same (e : Event) :
  has_failure_tag (g e) = has_failure_tag e.
Proof. unfold has_failure_tag. by rewrite g_tags. Qed.

Lemma ip_of_same (e : Event) : ip_of (g e) = ip_of e.
Proof. unfold ip_of. by rewrite g_network. Qed.

Lemma event_type_in_same (xs : list string) (e : Event) :
  event_type_in xs (g e) = event_type_in xs e.
Proof. unfold event_type_in. by rewrite g_event_type. Qed.

Lemma is_discovery_same (e : Event) : is_discovery (g e) = is_discovery e.
Proof. unfold is_discovery. by rewrite g_event_type. Qed.

Lemma brute_force_scan_map (buckets : list (string * list Event)) :
  brute_force_scan (List.map (map_bucket g) buckets) = brute_force_scan buckets.
Proof.
  induction buckets as [|[ip es] buckets IH]; cbn [brute_force_scan List.map];
    [done|].
  unfold map_bucket at 1. cbn [fst snd].
  rewrite (filter_map_same _ _ has_failure_tag_same).
  rewrite length_map, ids_of_map, generate_correlation_id_map, IH. done.
Qed.

Lemma reconnaissance_scan_map (buckets : list (string * list Event)) :
  reconnaissance_scan (List.map (map_bucket g) buckets)
  = reconnaissance_scan buckets.
Proof.
  induction buckets as [|[ip es] buckets IH];
    cbn [reconnaissance_scan List.map]; [done|].
  unfold map_bucket at 1. cbn [fst snd].
  rewrite List.firstn_map.
  rewrite length_map, ids_of_map, generate_correlation_id_map, IH. done.
Qed.

Lemma checks_map (events : list Event) :
  check_brute_force (List.map g events) = check_brute_force events
  /\ check_logging_tampering (List.map g events)
     = check_logging_tampering events
  /\ check_reconnaissance (List.map g events) = check_reconnaissance events.
Proof.
  split; [|split].
  - unfold check_brute_force.
    rewrite (filter_map_same _ _ (event_type_in_same _)).
    rewrite length_map, (group_by_map _ _ ip_of_same).
    by rewrite brute_force_scan_map.
  - unfold check_logging_tampering.
    rewrite (filter_map_same _ _ (event_type_in_same _)).
    destruct (List.filter _ events) as [|e es]; [done|].
    change (List.map g (e :: es)) with (g e :: List.map g es) at 1.
    cbv iota. rewrite length_map, ids_of_map, generate_correlation_id_map.
    done.
  - unfold check_reconnaissance.
    rewrite (filter_map_same _ _ is_discovery_same).
    rewrite length_map, (group_by_map _ _ ip_of_same).
    by rewrite reconnaissance_scan_map.
Qed.

End NoTimeWindow.

(** X9: the evaluators of R1, R3 and R4 apply no time window: they never
    read [event_time], and return the same record whatever the times of
    the events are. *)
Theorem no_time_window :
  forall (events : list Correlator.Event)
         (time : Correlator.Event -> option string),
    let retimed := List.map (fun e => at_time (time e) e) events in
    Correlator.check_brute_force retimed = Correlator.check_brute_force events
    /\ Correlator.check_logging_tampering retimed
       = Correlator.check_logging_tampering events
    /\ Correlator.check_reconnaissance retimed
       = Correlator.check_reconnaissance events.
Proof.
  intros events time retimed.
  apply (checks_map (fun e => at_time (time e) e)); by intros e.
Qed.


Section Escalation.
Import Correlator.

Lemma is_login_successful (e : Event) :
  is_login e = true <-> Spec.successful_login e.
Proof.
  unfold is_login, Spec.successful_login.
  rewrite andb_true_iff, String.eqb_eq, negb_true_iff.
  rewrite <- not_true_iff_false, str_in_elem_of. done.
Qed.

Lemma is_login_not_iam (e : Event) :
  is_login e = true -> is_iam_change e = false.
Proof.
  unfold is_login, is_iam_change.
  intros [->%String.eqb_eq _]%andb_true_iff. reflexivity.
Qed.

Lemma escalation_step_cases (st : option Event * list Event) (e : Event) :
  escalation_step st e =
  if is_login e then (Some e, st.2)
  else match st.1 with
       | Some _ => if is_iam_change e then (st.1, st.2 ++ [e]) else st
       | None => st
       end.
Proof. by destruct st as [[lg|] acc]. Qed.

(** Once a login is tracked, every IAM change is collected. *)
Lemma escalation_loop_tracked (l : list Event) (lg : Event)
    (acc : list Event) :
  exists lg',
    List.fold_left escalation_step l (Some lg, acc)
    = (Some lg', acc ++ List.filter is_iam_change l).
Proof.
  revert lg acc. induction l as [|e l IH]; intros lg acc; cbn [List.fold_left].
  - exists lg. by rewrite app_nil_r.
  - rewrite escalation_step_cases. cbn [fst snd List.filter].
    destruct (is_login e) eqn:Hlogin.
    + rewrite (is_login_not_iam e Hlogin). apply IH.
    + destruct (is_iam_change e).
      * destruct (IH lg (acc ++ [e])) as [lg' ->]. exists lg'.
        by rewrite <- app_assoc.
      * apply IH.
Qed.

Lemma escalation_scan_follow_up (l : list Event) :
  (exists login first rest,
      escalation_scan l = (Some login, first :: rest))
  <-> has_follow_up l = true.
Proof.
  unfold escalation_scan. induction l as [|e l IH]; cbn [List.fold_left].
  - split; [by intros (? & ? & ? & [=]) | done].
  - rewrite escalation_step_cases. cbn [fst snd has_follow_up].
    destruct (is_login e) eqn:Hlogin; [|exact IH].
    destruct (escalation_loop_tracked l e []) as [lg' ->]. simpl.
    rewrite existsb_exists. split.
    + intros (login & first & rest & [= _ Hf]).
      exists first.
      assert (Hin : In first (List.filter is_iam_change l))
        by (rewrite Hf; by left).
      by apply List.filter_In in Hin.
    + intros (x & Hx & Hiam).
      destruct (List.filter is_iam_change l) as [|first rest] eqn:E.
      * assert (Hin : In x (List.filter is_iam_change l))
          by (by apply List.filter_In).
        by rewrite E in Hin.
      * by exists lg', first, rest.
Qed.

Lemma has_follow_up_split (l : list Event) :
  has_follow_up l = true <->
  exists pre login mid follow_up post,
    l = pre ++ login :: mid ++ follow_up :: post
    /\ Spec.successful_login login
    /\ Correlator.get (event_type follow_up) "" ∈ IAM_CHANGES.
Proof.
  split.
  - induction l as [|e l IH]; simpl; [done|].
    destruct (is_login e) eqn:Hlogin.
    + rewrite existsb_exists. intros (x & Hx & Hiam).
      apply List.in_split in Hx as (mid & post & ->).
      exists [], e, mid, x, post. split; [done|].
      split; [by apply is_login_successful | by apply str_in_elem_of].
    + intros (pre & login & mid & fu & post & -> & H)%IH.
      by exists (e :: pre), login, mid, fu, post.
  - intros (pre & login & mid & fu & post & -> & Hlogin & Hiam).
    apply is_login_successful in Hlogin. apply str_in_elem_of in Hiam.
    induction pre as [|p pre IH]; simpl.
    + rewrite Hlogin. apply existsb_exists. exists fu. split; [|done].
      apply List.in_or_app. right. by left.
    + destruct (is_login p); [|done].
      apply existsb_exists. exists fu. split; [|done].
      apply List.in_or_app. right. right.
      apply List.in_or_app. right. by left.
Qed.

Lemma privilege_escalation_scan_None
    (buckets : list (string * list Event)) :
  privilege_escalation_scan buckets = None <->
  Forall (fun b => has_follow_up (sorted_by_time b.2) = false) buckets.
Proof.
  induction buckets as [|[actor_id es] buckets IH];
    cbn [privilege_escalation_scan].
  - split; [constructor | done].
  - rewrite Forall_cons. cbn [snd].
    pose proof (escalation_scan_follow_up (sorted_by_time es)) as Hscan.
    destruct (escalation_scan (sorted_by_time es)) as [[login|] [|first rest]].
    + rewrite IH. split; [|by intros [_ ?]]. intros H. split; [|done].
      apply not_true_iff_false. intros Ht. apply Hscan in Ht.
      by destruct Ht as (? & ? & ? & [=]).
    + split; [done|]. intros [Hf _]. exfalso.
      apply not_true_iff_false in Hf. apply Hf, Hscan. by eexists _, _, _.
    + rewrite IH. split; [|by intros [_ ?]]. intros H. split; [|done].
      apply not_true_iff_false. intros Ht. apply Hscan in Ht.
      by destruct Ht as (? & ? & ? & [=]).
    + rewrite IH. split; [|by intros [_ ?]]. intros H. split; [|done].
      apply not_true_iff_false. intros Ht. apply Hscan in Ht.
      by destruct Ht as (? & ? & ? & [=]).
Qed.

(** X8, rule R2: [check_privilege_escalation] returns a record exactly
    when, for some actor, the actor's events in time order hold a
    successful console login with a CreateAccessKey, CreateUser,
    AttachUserPolicy or AttachRolePolicy somewhere after it. *)
Theorem privilege_escalation_detection :
  forall (events : list Correlator.Event),
    Correlator.check_privilege_escalation events <> None
    <-> exists actor_id pre login mid follow_up post,
          Correlator.sorted_by_time
            (with_key Correlator.actor_id_of actor_id events)
          = pre ++ login :: mid ++ follow_up :: post
          /\ Spec.successful_login login
          /\ Correlator.get (Correlator.event_type follow_up) ""
             ∈ Correlator.IAM_CHANGES.
Proof.
  intros events. unfold check_privilege_escalation.
  rewrite privilege_escalation_scan_None, <- Exists_Forall_neg
    by (intros b; destruct (has_follow_up _); auto).
  rewrite Exists_exists. split.
  - intros ([actor_id es] & Hin & Hf). cbn [snd] in Hf.
    apply not_false_iff_true, has_follow_up_split in Hf
      as (pre & login & mid & fu & post & Hs & H).
    apply list_elem_of_In, group_by_with_key in Hin as [-> _].
    by exists actor_id, pre, login, mid, fu, post.
  - intros (actor_id & pre & login & mid & fu & post & Hs & H).
    exists (actor_id, with_key actor_id_of actor_id events). split.
    + apply list_elem_of_In, group_by_with_key. split; [done|].
      intros Hnil. rewrite Hnil in Hs. simpl in Hs. by destruct pre.
    + cbn [snd]. apply not_false_iff_true, has_follow_up_split.
      by exists pre, login, mid, fu, post.
Qed.

End Escalation.


Section ScoreAndAlert.
Import Correlator.

Lemma containing_sublist (e : Event) (cs cs' : list CorrelationRecord) :
  cs `sublist_of` cs' ->
  (List.length (Spec.containing e cs) <= List.length (Spec.containing e cs'))%nat.
Proof.
  induction 1 as [|c cs cs' Hsub IH|c cs cs' Hsub IH]; simpl; [done| |].
  - destruct (bool_decide _); simpl; lia.
  - destruct (bool_decide _); simpl; lia.
Qed.

Lemma should_alert_score_mono (cfg : Alerts.Config) (e : Event) (a b : Z) :
  a <= b -> Alerts.should_alert cfg e a = true ->
  Alerts.should_alert cfg e b = true.
Proof.
  unfold Alerts.should_alert. intros Hab.
  destruct (String.eqb _ "critical"); [done|].
  destruct (String.eqb _ "high" && _); [done|].
  destruct (Z.leb_spec (Alerts.ALERT_THRESHOLD_RISK_SCORE cfg) a); [|done].
  intros _. destruct (Z.leb_spec (Alerts.ALERT_THRESHOLD_RISK_SCORE cfg) b);
    [done | lia].
Qed.

(** X13: more correlations never lower the risk score of an event nor
    withdraw its alert, and a correlation that does not list the event
    leaves the score as it is. *)
Theorem risk_score_monotone :
  forall (e : Correlator.Event)
         (cs cs' : list Correlator.CorrelationRecord),
    cs `sublist_of` cs' ->
    Correlator.calculate_risk_score e cs
    <= Correlator.calculate_risk_score e cs'
    /\ (forall cfg,
          Alerts.should_alert cfg e (Correlator.calculate_risk_score e cs)
          = true ->
          Alerts.should_alert cfg e (Correlator.calculate_risk_score e cs')
          = true)
    /\ (forall c,
          Some (Correlator.get (Correlator.event_id e) "")
          ∉ Correlator.event_ids c ->
          Correlator.calculate_risk_score e (c :: cs)
          = Correlator.calculate_risk_score e cs).
Proof.
  intros e cs cs' Hsub.
  assert (Hle : calculate_risk_score e cs <= calculate_risk_score e cs').
  { rewrite !risk_score_unfold.
    pose proof (containing_sublist e cs cs' Hsub).
    apply Z.min_le_compat_r. lia. }
  split; [done|]. split.
  - intros cfg. by apply should_alert_score_mono.
  - intros c Hc. rewrite !risk_score_unfold. unfold Spec.containing.
    cbn [List.filter]. by rewrite bool_decide_eq_false_2.
Qed.

(** X14: what ALERT_THRESHOLD_SEVERITY does: a critical event always
    alerts; a high event alerts on severity when the setting is one of
    high, medium, low, info; an event of any other severity alerts only on
    its risk score, whatever the setting. *)
Theorem should_alert_threshold_setting :
  forall (cfg : Alerts.Config) (e : Correlator.Event) (risk_score : Z),
    let severity := Correlator.get (Correlator.severity e) "info" in
    (severity = "critical" -> Alerts.should_alert cfg e risk_score = true)
    /\ (severity = "high" ->
        (Alerts.should_alert cfg e risk_score = true
         <-> Alerts.ALERT_THRESHOLD_SEVERITY cfg
             ∈ ["high"; "medium"; "low"; "info"]
             \/ Alerts.ALERT_THRESHOLD_RISK_SCORE cfg <= risk_score))
    /\ (severity <> "critical" -> severity <> "high" ->
        (Alerts.should_alert cfg e risk_score = true
         <-> Alerts.ALERT_THRESHOLD_RISK_SCORE cfg <= risk_score)).
Proof.
  intros cfg e risk_score severity. unfold Alerts.should_alert.
  fold severity. split; [|split].
  - intros ->. reflexivity.
  - intros ->. cbn [String.eqb Ascii.eqb Bool.eqb andb].
    destruct (Py.str_in (Alerts.ALERT_THRESHOLD_SEVERITY cfg) _) eqn:Hin.
    + apply str_in_elem_of in Hin. split; [by left | done].
    + assert (Hn : Alerts.ALERT_THRESHOLD_SEVERITY cfg
                   ∉ ["high"; "medium"; "low"; "info"]).
      { intros H. apply str_in_elem_of in H. congruence. }
      destruct (Z.leb_spec (Alerts.ALERT_THRESHOLD_RISK_SCORE cfg) risk_score).
      * split; [by right | done].
      * split; [done|]. intros [?|?]; [done | lia].
  - intros Hc Hh. apply String.eqb_neq in Hc, Hh. rewrite Hc, Hh.
    cbn [andb].
    destruct (Z.leb_spec (Alerts.ALERT_THRESHOLD_RISK_SCORE cfg) risk_score).
    + done.
    + split; [done | lia].
Qed.

End ScoreAndAlert.

Section Ranges.
Import Models CloudTrail.

(** X19: a CloudTrail event is never MEDIUM (discovery calls are LOW), and
    its category is one of eight names. *)
Theorem cloudtrail_classification_ranges :
  forall (event_name event_source : string)
         (error_code user_type : option string),
    CloudTrail.determine_severity event_name error_code user_type
    ∈ [Models.CRITICAL; Models.HIGH; Models.LOW; Models.INFO]
    /\ CloudTrail.determine_severity event_name error_code user_type
       <> Models.MEDIUM
    /\ CloudTrail.categorize_event event_name event_source
       ∈ ["authentication"; "identity_management"; "network_security";
          "data_access"; "logging"; "resource_modification"; "discovery";
          "other"].
Proof.
  intros event_name event_source error_code user_type.
  split; [|split].
  - unfold determine_severity.
    repeat match goal with
           | |- context [if ?b then _ else _] => destruct b
           end; apply list_elem_of_In; simpl; tauto.
  - unfold determine_severity.
    repeat match goal with
           | |- context [if ?b then _ else _] => destruct b
           end; done.
  - unfold categorize_event.
    repeat match goal with
           | |- context [if ?b then _ else _] => destruct b
           end; apply list_elem_of_In; simpl; tauto.
Qed.

End Ranges.


Section ProcessorFacts.
Import Correlator Processor.

Lemma process_message_cases (cfg : Alerts.Config) (message : Message)
    (recent_events : list Event) (stats : Stats) :
  match message_event message recent_events, message_event_id message with
  | Some event, Some event_id =>
      let correlations := correlate_events recent_events in
      let risk_score := calculate_risk_score event correlations in
      let event_correlations :=
        List.filter (fun c => id_in event_id (event_ids c)) correlations in
      let alert := Alerts.should_alert cfg event risk_score in
      Correlator.event_id event = Some event_id
      /\ event ∈ recent_events
      /\ event_id <> ""
      /\ process_message cfg message recent_events stats =
         (true,
          (if alert
           then [send_event_alert event risk_score event_correlations]
           else [])
          ++ List.map send_correlation_alert
               (List.filter (first_id_is event_id) correlations)
          ++ [update_event_status event_id "processed" risk_score
                (match event_correlations with
                 | c :: _ => Some (Correlator.correlation_id c)
                 | [] => None
                 end)],
          {| events_processed := S (events_processed stats);
             alerts_sent :=
               if alert then S (alerts_sent stats) else alerts_sent stats;
             correlations_found := List.length correlations |})
  | _, _ => process_message cfg message recent_events stats
            = (false, [], stats)
  end.
Proof.
  unfold message_event, message_event_id, process_message.
  destruct (Body message ≫= Json.as_dict) as [body|]; [|done].
  destruct (Json.get "event_id" body) as [| | |event_id| |]; try done.
  destruct (Py.truthy_str event_id) eqn:Ht; [|done]. cbn [negb].
  destruct (List.find _ recent_events) as [event|] eqn:Hfind; [|done].
  apply List.find_some in Hfind as [Hin Hid].
  apply bool_decide_eq_true in Hid.
  split; [done|]. split; [by apply list_elem_of_In|]. split; [|done].
  by intros ->.
Qed.

(** X15: a message that is not processed causes no call and leaves the
    counters as they are; a message is processed exactly when its body is
    a JSON object whose [event_id] is the non-empty id of one of the recent
    events. *)
Theorem process_message_skips :
  forall (cfg : Alerts.Config) (message : Processor.Message)
         (recent_events : list Correlator.Event) (stats : Processor.Stats),
    let outcome :=
      Processor.process_message cfg message recent_events stats in
    (outcome.1.1 = false -> outcome = (false, [], stats))
    /\ (outcome.1.1 = true
        <-> exists body event_id event,
              Processor.Body message = Json.Ok (Json.JObj body)
              /\ Json.lookup "event_id" body = Some (Json.JStr event_id)
              /\ event_id <> ""
              /\ event ∈ recent_events
              /\ Correlator.event_id event = Some event_id).
Proof.
  intros cfg message recent_events stats outcome. subst outcome.
  pose proof (process_message_cases cfg message recent_events stats) as H.
  split.
  - destruct (message_event message recent_events) as [event|];
      [|by rewrite H].
    destruct (message_event_id message) as [event_id|]; [|by rewrite H].
    destruct H as (_ & _ & _ & ->). done.
  - split.
    + intros Ht.
      destruct (message_event message recent_events) as [event|] eqn:Hev;
        [|by rewrite H in Ht].
      destruct (message_event_id message) as [event_id|] eqn:Hid;
        [|by rewrite H in Ht].
      destruct H as (Heid & Hin & Hne & _).
      unfold message_event_id in Hid.
      destruct (Body message) as [[| | | | |body]|]; try done.
      cbn in Hid. unfold Json.get, Json.get_or in Hid.
      destruct (Json.lookup "event_id" body) as [[| | |i| |]|] eqn:Hl;
        try done.
      injection Hid as ->. by exists body, event_id, event.
    + intros (body & event_id & event & Hbody & Hl & Hne & Hin & Heid).
      assert (Hid : message_event_id message = Some event_id).
      { unfold message_event_id. rewrite Hbody. cbn.
        unfold Json.get, Json.get_or. by rewrite Hl. }
      assert (Hev : exists e, message_event message recent_events = Some e).
      { unfold message_event. rewrite Hid.
        destruct event_id; [done|]. cbn [Py.truthy_str].
        destruct (List.find _ recent_events) as [e|] eqn:Hfind;
          [by exists e|].
        exfalso. apply list_elem_of_In in Hin.
        apply (List.find_none _ _ Hfind) in Hin.
        by apply bool_decide_eq_false in Hin. }
      destruct Hev as [e Hev]. rewrite Hev, Hid in H.
      destruct H as (_ & _ & _ & ->). done.
Qed.

End ProcessorFacts.


Section ProcessorOutcome.
Import Correlator Processor.

Lemma risk_score_range (e : Event) (cs : list CorrelationRecord) :
  10 <= calculate_risk_score e cs <= 100.
Proof.
  rewrite risk_score_unfold.
  pose proof (base_bounds (Spec.severity_of (severity e))).
  repeat case_bool_decide; lia.
Qed.

Lemma first_id_is_hd (event_id : string) (c : CorrelationRecord) :
  first_id_is event_id c = true
  <-> List.hd_error (event_ids c) = Some (Some event_id).
Proof.
  unfold first_id_is. destruct (event_ids c) as [|[i|] ids]; simpl.
  - done.
  - rewrite String.eqb_eq. split; [by intros -> | by intros [= ->]].
  - done.
Qed.

(** X16: processing a message scores the first recent event with the
    id against the correlations of all recent events; the score lies in
    [10, 100]; the last call writes status processed with that score and
    the id of the first correlation, in rule order, that lists the event;
    the event alert is sent exactly when [should_alert] says so, and a
    correlation is alerted exactly when the event is its first listed
    member. *)
Theorem process_message_outcome :
  forall (cfg : Alerts.Config) (message : Processor.Message)
         (recent_events : list Correlator.Event)
         (stats stats' : Processor.Stats) (calls : list Processor.Call),
    Processor.process_message cfg message recent_events stats
    = (true, calls, stats') ->
    exists event_id event,
      message_event_id message = Some event_id
      /\ message_event message recent_events = Some event
      /\ let correlations := Correlator.correlate_events recent_events in
         let risk_score :=
           Correlator.calculate_risk_score event correlations in
         10 <= risk_score <= 100
         /\ (exists before correlation_id,
               calls = before
                       ++ [Processor.update_event_status event_id "processed"
                             risk_score correlation_id]
               /\ (correlation_id = None
                   <-> forall c, c ∈ correlations ->
                                 Some event_id ∉ Correlator.event_ids c)
               /\ (forall earlier c later,
                     correlations = earlier ++ c :: later ->
                     Some event_id ∈ Correlator.event_ids c ->
                     (forall c', c' ∈ earlier ->
                                 Some event_id ∉ Correlator.event_ids c') ->
                     correlation_id = Some (Correlator.correlation_id c)))
         /\ ((exists cs, Processor.send_event_alert event risk_score cs
                         ∈ calls)
             <-> Alerts.should_alert cfg event risk_score = true)
         /\ (forall c,
               Processor.send_correlation_alert c ∈ calls
               <-> c ∈ correlations
                   /\ List.hd_error (Correlator.event_ids c)
                      = Some (Some event_id))
         /\ Processor.events_processed stats'
            = S (Processor.events_processed stats)
         /\ Processor.correlations_found stats' = List.length correlations.
Proof.
  intros cfg message recent_events stats stats' calls Hp.
  pose proof (process_message_cases cfg message recent_events stats) as H.
  destruct (message_event message recent_events) as [event|] eqn:Hev;
    [|by rewrite H in Hp].
  destruct (message_event_id message) as [event_id|] eqn:Hid;
    [|by rewrite H in Hp].
  cbv zeta in H. destruct H as (Heid & Hin & Hne & H).
  rewrite H in Hp. injection Hp as <- <-. clear H.
  exists event_id, event. split; [done|]. split; [done|]. cbv zeta.
  set (correlations := correlate_events recent_events).
  set (risk_score := calculate_risk_score event correlations).
  split; [apply risk_score_range|]. split; [|split; [|split; [|split]]].
  - eexists _, _. split; [by rewrite app_assoc|]. split.
    + destruct (List.filter _ correlations) as [|c cs] eqn:E.
      * split; [|done]. intros _ c Hc Hlist.
        apply id_in_elem_of in Hlist.
        assert (Hf : In c (List.filter
                      (fun c => id_in event_id (event_ids c)) correlations)).
        { apply List.filter_In. split; [by apply list_elem_of_In | done]. }
        by rewrite E in Hf.
      * split; [done|]. intros Hnone. exfalso.
        assert (Hf : In c (List.filter
                      (fun c => id_in event_id (event_ids c)) correlations))
          by (rewrite E; by left).
        apply List.filter_In in Hf as [Hc Hlist].
        apply id_in_elem_of in Hlist.
        by apply (Hnone c); [apply list_elem_of_In|].
    + intros earlier c later -> Hc Hearlier.
      rewrite List.filter_app.
      assert (List.filter (fun c => id_in event_id (event_ids c)) earlier
              = []) as ->.
      { clear -Hearlier. induction earlier as [|c' earlier IH]; [done|].
        simpl. destruct (id_in event_id (event_ids c')) eqn:E.
        - apply id_in_elem_of in E. exfalso.
          by apply (Hearlier c'); [left|].
        - apply IH. intros c'' Hc''. apply Hearlier. by right. }
      apply id_in_elem_of in Hc. simpl. by rewrite Hc.
  - destruct (Alerts.should_alert cfg event risk_score) eqn:Ha.
    + split; [done|]. intros _. eexists. apply elem_of_app. left. left.
    + split; [|done]. intros [cs Hcs]. exfalso.
      rewrite app_nil_l in Hcs.
      apply elem_of_app in Hcs as [Hcs|Hcs].
      * apply list_elem_of_fmap in Hcs as (c & Hc & _). done.
      * by apply list_elem_of_singleton in Hcs.
  - intros c. rewrite !elem_of_app, list_elem_of_fmap. split.
    + intros [Hc|[(c' & [= <-] & Hc')|Hc]].
      * destruct (Alerts.should_alert cfg event risk_score);
          [by apply list_elem_of_singleton in Hc | by apply elem_of_nil in Hc].
      * apply list_elem_of_In, List.filter_In in Hc' as [Hc1 Hc2].
        split; [by apply list_elem_of_In | by apply first_id_is_hd].
      * by apply list_elem_of_singleton in Hc.
    + intros [Hc Hhd]. right. left. exists c. split; [done|].
      apply list_elem_of_In, List.filter_In.
      split; [by apply list_elem_of_In | by apply first_id_is_hd].
  - done.
  - done.
Qed.

End ProcessorOutcome.


Section Batch.
Import Correlator Processor.

Variable cfg : Alerts.Config.
Variable recent_events : list Event.










End Batch.



Section NormalizeInversion.
Import Json Models CloudTrail.

Variable datetime : Type.
Variable fromisoformat : string -> option datetime.
Variable isoformat : datetime -> string.
Variables now_default now_fallback now_ingested : datetime.
Variable fresh_uuid : string.

(** What an accepted record tells about the event returned for it. *)
Lemma normalize_inv (raw_event : dict) (ev : SecurityEvent datetime) :
  normalize_cloudtrail_event datetime fromisoformat isoformat
    now_default now_fallback now_ingested fresh_uuid raw_event = Ok ev ->
  exists user_identity user_type event_name service error_tags,
    as_dict (get_or "userIdentity" raw_event (JObj [])) = Ok user_identity
    /\ opt_str (get "type" user_identity) = Ok user_type
    /\ get_or "eventName" raw_event (JStr "Unknown") = JStr event_name
    /\ service_of (get_or "eventSource" raw_event (JStr "unknown"))
       = Ok service
    /\ (if truthy (get "errorCode" raw_event)
        then match get "errorCode" raw_event with
             | JStr c => Ok (Some c)
             | _ => Raised
             end
        else Ok None) = Ok error_tags
    /\ event_id ev = fresh_uuid
    /\ event_type ev = event_name
    /\ severity ev =
       determine_severity event_name (error_code_of raw_event) user_type
    /\ mitre_attack ev = MITRE_MAPPINGS !! event_name
    /\ tags ev =
       ["cloudtrail"; match service with Some name => name | None => "aws" end]
       ++ match error_tags with
          | Some c => ["error"; Py.lower c]
          | None => []
          end
       ++ (if bool_decide (user_type = Some "Root")
           then ["root-account"] else [])
       ++ match MITRE_MAPPINGS !! event_name with
          | Some m => [String.append "mitre-" (technique_id m)]
          | None => []
          end
    /\ (exists n, network ev = Some n
                  /\ opt_str (get "sourceIPAddress" raw_event)
                     = Ok (source_ip n))
    /\ (exists a, actor ev = Some a
                  /\ opt_str (get "userName" user_identity) = Ok (user_name a)
                  /\ opt_str (get "arn" user_identity) = Ok (arn a)).
Proof.
  unfold normalize_cloudtrail_event. cbv zeta. intros H.
  apply bind_Ok in H as (user_identity & Hui & H); cbv beta zeta in H.
  apply bind_Ok in H as (session_context & _ & H); cbv beta zeta in H.
  apply bind_Ok in H as (session_issuer & _ & H); cbv beta zeta in H.
  apply bind_Ok in H as (a_principal_id & _ & H); cbv beta zeta in H.
  apply bind_Ok in H as (a_principal_type & Hty & H); cbv beta zeta in H.
  apply bind_Ok in H as (a_arn & Harn & H); cbv beta zeta in H.
  apply bind_Ok in H as (a_access_key_id & _ & H); cbv beta zeta in H.
  apply bind_Ok in H as (a_user_name & Hun & H); cbv beta zeta in H.
  apply bind_Ok in H as (a_session_name & _ & H); cbv beta zeta in H.
  apply bind_Ok in H as (n_source_ip & Hip & H); cbv beta zeta in H.
  apply bind_Ok in H as (n_user_agent & _ & H); cbv beta zeta in H.
  apply bind_Ok in H as (c_service & Hsvc & H); cbv beta zeta in H.
  apply bind_Ok in H as (c_account_id & _ & H); cbv beta zeta in H.
  apply bind_Ok in H as (c_region & _ & H); cbv beta zeta in H.
  apply bind_Ok in H as (aws_context & _ & H); cbv beta zeta in H.
  apply bind_Ok in H as (event_name & Hname & H); cbv beta zeta in H.
  apply bind_Ok in H as (error_tags & Herr & H); cbv beta zeta in H.
  apply bind_Ok in H as (e_source_event_id & _ & H); cbv beta zeta in H.
  apply Ok_inj in H. subst ev.
  exists user_identity, a_principal_type, event_name, c_service, error_tags.
  split; [done|]. split; [done|].
  split.
  { destruct (get_or "eventName" raw_event (JStr "Unknown"));
      try discriminate. by apply Ok_inj in Hname as ->. }
  split; [done|]. split; [done|].
  split; [done|]. split; [done|]. split; [done|]. split; [done|].
  split; [done|].
  split; [by eexists | by eexists].
Qed.

Lemma lookup_get (k : string) (d : dict) (v : json) :
  lookup k d = Some v -> get k d = v /\ forall default, get_or k d default = v.
Proof. unfold get, get_or. by intros ->. Qed.

End NormalizeInversion.


Section Stored.
Import Json Models CloudTrail.

(** X1: every accepted record of the root identity is CRITICAL and tagged
    [root-account]; once stored, its risk score is 100 with any
    correlations and it alerts under any configuration. *)
Theorem root_identity_scores_100 :
  forall (datetime : Type) (fromisoformat : string -> option datetime)
         (isoformat : datetime -> string)
         (now_default now_fallback now_ingested : datetime)
         (fresh_uuid : string) (raw_event user_identity : Json.dict)
         (ev : Models.SecurityEvent datetime),
    CloudTrail.normalize_cloudtrail_event datetime fromisoformat isoformat
      now_default now_fallback now_ingested fresh_uuid raw_event
    = Json.Ok ev ->
    Json.lookup "userIdentity" raw_event = Some (Json.JObj user_identity) ->
    Json.lookup "type" user_identity = Some (Json.JStr "Root") ->
    Models.severity ev = Models.CRITICAL
    /\ "root-account" ∈ Models.tags ev
    /\ (forall correlations,
          Correlator.calculate_risk_score
            (Ingest.serialize_event datetime isoformat ev) correlations = 100)
    /\ (forall cfg risk_score,
          Alerts.should_alert cfg
            (Ingest.serialize_event datetime isoformat ev) risk_score = true).
Proof.
  intros datetime fromisoformat isoformat now_default now_fallback
         now_ingested fresh_uuid raw_event user_identity ev Hnorm Hui Hty.
  apply normalize_inv in Hnorm
    as (ui & user_type & event_name & service & error_tags
        & Hui' & Hty' & _ & _ & _ & _ & _ & Hsev & _ & Htags & _).
  apply lookup_get in Hui as [_ Hui]. rewrite Hui in Hui'.
  apply Ok_inj in Hui'. subst ui.
  apply lookup_get in Hty as [Hty _]. rewrite Hty in Hty'.
  apply Ok_inj in Hty'. subst user_type.
  assert (Hcrit : severity ev = CRITICAL).
  { rewrite Hsev. unfold determine_severity.
    by rewrite bool_decide_eq_true_2. }
  assert (Hroot : "root-account" ∈ tags ev).
  { rewrite Htags. rewrite bool_decide_eq_true_2 by done.
    apply elem_of_app. right. apply elem_of_app. right.
    apply elem_of_app. left. left. }
  split; [done|]. split; [done|]. split.
  - intros correlations. rewrite risk_score_unfold.
    cbn [Correlator.severity Correlator.tags Correlator.get
         Ingest.serialize_event Correlator.mitre_attack].
    rewrite Hcrit. rewrite (bool_decide_eq_true_2 _ Hroot).
    cbn [Spec.severity_of severity_value Spec.base].
    apply Z.min_r. destruct (bool_decide (mitre_attack ev = None)); lia.
  - intros cfg risk_score. unfold Alerts.should_alert.
    cbn [Correlator.severity Correlator.get Ingest.serialize_event].
    by rewrite Hcrit.
Qed.



(** X18: an accepted record with a truthy error code, whatever the code,
    is tagged [error] and, when the code is ASCII text, with the
    lower-cased code; once stored it counts as a failed attempt for R1 and
    is never the successful login of R2. *)
Theorem failed_call_is_tagged :
  forall (datetime : Type) (fromisoformat : string -> option datetime)
         (isoformat : datetime -> string)
         (now_default now_fallback now_ingested : datetime)
         (fresh_uuid : string) (raw_event : Json.dict)
         (ev : Models.SecurityEvent datetime),
    CloudTrail.normalize_cloudtrail_event datetime fromisoformat isoformat
      now_default now_fallback now_ingested fresh_uuid raw_event
    = Json.Ok ev ->
    Json.truthy (Json.get "errorCode" raw_event) = true ->
    exists error_code,
      Json.lookup "errorCode" raw_event = Some (Json.JStr error_code)
      /\ error_code <> ""
      /\ "error" ∈ Models.tags ev
      /\ (Py.is_ascii error_code = true ->
          Py.lower error_code ∈ Models.tags ev)
      /\ Correlator.has_failure_tag
           (Ingest.serialize_event datetime isoformat ev) = true
      /\ ~ Spec.successful_login
             (Ingest.serialize_event datetime isoformat ev).
Proof.
  intros datetime fromisoformat isoformat now_default now_fallback
         now_ingested fresh_uuid raw_event ev Hnorm Herr.
  apply normalize_inv in Hnorm
    as (ui & user_type & event_name & service & error_tags
        & _ & _ & _ & _ & Htag & _ & _ & _ & _ & Htags & _).
  rewrite Herr in Htag.
  destruct (get "errorCode" raw_event) as [| | |code| |] eqn:Hget;
    try discriminate.
  apply Ok_inj in Htag. subst error_tags.
  assert (Herror : "error" ∈ tags ev).
  { rewrite Htags. apply elem_of_app. right. apply elem_of_app. left. left. }
  exists code. split; [|split; [|split; [|split; [|split]]]].
  - unfold get, get_or in Hget.
    destruct (lookup "errorCode" raw_event) as [v|]; [by subst|done].
  - intros ->. done.
  - done.
  - intros _. rewrite Htags. apply elem_of_app. right. apply elem_of_app.
    left. right. left.
  - apply has_failure_tag_elem_of. exists "error". split; [|done].
    apply list_elem_of_In. simpl. tauto.
  - intros [_ Hno]. by apply Hno.
Qed.

End Stored.


Section IngestFacts.
Import Json Models CloudTrail Ingest.

Variable datetime : Type.
Variable fromisoformat : string -> option datetime.
Variable isoformat : datetime -> string.

(** Acceptance is decided by the record alone. *)
Lemma normalize_accepts (item : Readings datetime * dict) :
  (exists ev, normalize_item datetime fromisoformat isoformat item = Ok ev /\ event_id ev = fresh_uuid item.1)
  \/ normalize_item datetime fromisoformat isoformat item = Raised.
Proof.
  destruct (normalize_item datetime fromisoformat isoformat item) as [ev|] eqn:E; [|by right].
  left. exists ev. split; [done|].
  unfold normalize_item in E.
  by apply normalize_inv in E as (? & ? & ? & ? & ? & _ & _ & _ & _ & _ & ? & _).
Qed.

Lemma accepts_normalize (item : Readings datetime * dict) :
  accepts item.2 = true <-> exists ev, normalize_item datetime fromisoformat isoformat item = Ok ev.
Proof.
  unfold accepts, normalize_item, normalize_cloudtrail_event. cbv zeta.
  repeat match goal with
         | |- context [@mbind result _ _ _ _ ?x] =>
             destruct x; cbn [mbind result_bind]
         end.
  all: try (split; [done | by intros [? ?]]).
  all: split; [intros _; by eexists | done].
Qed.

Lemma ingest_step_cases (st : IngestState datetime)
    (item : Readings datetime * dict) :
  (exists ev,
      accepts item.2 = true
      /\ event_id ev = fresh_uuid item.1
      /\ ingest_step datetime fromisoformat isoformat st item
         = {| tasks := tasks st ++ [ev];
              ids := ids st ++ [fresh_uuid item.1];
              processed := S (processed st) |})
  \/ (accepts item.2 = false
      /\ ingest_step datetime fromisoformat isoformat st item = st).
Proof.
  unfold ingest_step. fold (normalize_item datetime fromisoformat isoformat item).
  pose proof (accepts_normalize item) as Hacc.
  destruct (normalize_accepts item) as [(ev & Hev & Hid)|Hraised].
  - left. exists ev. rewrite Hev, Hid.
    split; [apply Hacc; by exists ev | done].
  - right. rewrite Hraised. split; [|done].
    apply not_true_iff_false. intros [ev Hev]%Hacc. congruence.
Qed.

Lemma ingest_loop (events : list (Readings datetime * dict))
    (st : IngestState datetime) :
  let st' := List.fold_left (ingest_step datetime fromisoformat isoformat)
               events st in
  let accepted := List.filter (fun item => accepts item.2) events in
  ids st' = ids st ++ List.map (fun item => fresh_uuid item.1) accepted
  /\ processed st' = (processed st + List.length accepted)%nat
  /\ exists new_tasks,
       tasks st' = tasks st ++ new_tasks
       /\ List.map event_id new_tasks
          = List.map (fun item => fresh_uuid item.1) accepted.
Proof.
  revert st. induction events as [|item events IH]; intros st; cbv zeta.
  - simpl. rewrite !app_nil_r. split; [done|]. split; [lia|].
    exists []. by rewrite app_nil_r.
  - cbn [List.fold_left List.filter].
    specialize (IH (ingest_step datetime fromisoformat isoformat st item)).
    cbv zeta in IH. destruct IH as (Hids & Hproc & new_tasks & Htasks & Hnew).
    rewrite Hids, Hproc, Htasks. clear Hids Hproc Htasks.
    destruct (ingest_step_cases st item)
      as [(ev & -> & Hid & ->)|[-> ->]].
    + cbn [ids processed tasks List.map List.length].
      rewrite <- !app_assoc. split; [done|]. split; [lia|].
      exists (ev :: new_tasks). split; [done|]. simpl. by rewrite Hid, Hnew.
    + split; [done|]. split; [done|]. by exists new_tasks.
Qed.

End IngestFacts.

(** X20: [ingest_cloudtrail] always answers accepted; it counts every
    record as received and exactly the records the normalizer accepts as
    processed, lists their fresh ids in request order, and schedules one
    task per id: a rejected record is skipped and changes nothing for the
    others. *)
Theorem ingest_cloudtrail_counts :
  forall (datetime : Type) (fromisoformat : string -> option datetime)
         (isoformat : datetime -> string)
         (events : list (Ingest.Readings datetime * Json.dict)),
    let outcome :=
      Ingest.ingest_cloudtrail datetime fromisoformat isoformat events in
    let accepted := List.filter (fun item => accepts item.2) events in
    Ingest.status outcome.1 = "accepted"
    /\ Ingest.events_received outcome.1 = List.length events
    /\ Ingest.events_processed outcome.1 = List.length accepted
    /\ (Ingest.events_processed outcome.1
        <= Ingest.events_received outcome.1)%nat
    /\ Ingest.event_ids outcome.1
       = List.map (fun item => Ingest.fresh_uuid item.1) accepted
    /\ List.map Models.event_id outcome.2 = Ingest.event_ids outcome.1.
Proof.
  intros datetime fromisoformat isoformat events outcome accepted.
  subst outcome. unfold Ingest.ingest_cloudtrail. cbv zeta. cbn [fst snd].
  pose proof (ingest_loop datetime fromisoformat isoformat events
                {| Ingest.tasks := []; Ingest.ids := [];
                   Ingest.processed := 0 |}) as H.
  cbv zeta in H. destruct H as (Hids & Hproc & new_tasks & Htasks & Hnew).
  cbn [Ingest.status Ingest.events_received Ingest.events_processed
       Ingest.event_ids].
  rewrite Hids, Hproc, Htasks. cbn [Ingest.ids Ingest.processed Ingest.tasks].
  fold accepted. rewrite !app_nil_l.
  split; [done|]. split; [done|]. split; [done|]. split.
  - apply filter_length_le.
  - split; [done|]. done.
Qed.


Section StatsFacts.
Import Dynamodb.

Lemma increment_get (k k' : string) (m : list (string * nat)) :
  Py.dict_get k' (increment k m) =
  if String.eqb k' k
  then Some (S (Correlator.get (Py.dict_get k m) 0%nat))
  else Py.dict_get k' m.
Proof.
  induction m as [|[k0 n] m IH]; simpl.
  - destruct (String.eqb k' k); done.
  - destruct (String.eqb k k0) eqn:E; simpl.
    + apply String.eqb_eq in E. subst k0.
      by destruct (String.eqb k' k).
    + destruct (String.eqb k' k0) eqn:E0.
      * apply String.eqb_eq in E0. subst k0.
        rewrite String.eqb_sym in E. by rewrite E.
      * apply IH.
Qed.

Lemma increment_NoDup (k : string) (m : list (string * nat)) :
  NoDup m.*1 -> NoDup (increment k m).*1.
Proof.
  induction m as [|[k0 n] m IH]; simpl.
  - intros _. apply NoDup_singleton.
  - intros Hnd. apply NoDup_cons in Hnd as [Hk0 Hnd].
    destruct (String.eqb k k0) eqn:E; simpl.
    + by apply NoDup_cons.
    + apply NoDup_cons. split; [|by apply IH].
      rewrite <- dict_get_None in *. rewrite increment_get.
      rewrite String.eqb_sym in E. by rewrite E.
Qed.

Lemma increment_total (k : string) (m : list (string * nat)) :
  total (increment k m) = S (total m).
Proof.
  induction m as [|[k0 n] m IH]; simpl; [done|].
  destruct (String.eqb k k0); simpl; [done|]. rewrite IH. lia.
Qed.

Lemma tally_loop (key : Item -> string) (l pre : list Item)
    (m : list (string * nat)) :
  tallied key pre m ->
  tallied key (pre ++ l)
    (List.fold_left (fun m item => increment (key item) m) l m).
Proof.
  revert pre m. induction l as [|item l IH]; intros pre m Hm; simpl.
  - by rewrite app_nil_r.
  - replace (pre ++ item :: l) with ((pre ++ [item]) ++ l)
      by (by rewrite <- app_assoc).
    apply IH. destruct Hm as (Hnd & Htot & Hm). split; [|split].
    + by apply increment_NoDup.
    + rewrite increment_total, Htot, length_app. simpl. lia.
    + intros k. rewrite increment_get. unfold occurrences.
      rewrite List.filter_app, length_app. simpl.
      specialize (Hm k). unfold occurrences in Hm.
      destruct (String.eqb k (key item)) eqn:E.
      * apply String.eqb_eq in E. subst k. rewrite String.eqb_refl.
        destruct (Py.dict_get (key item) m) as [n|]; simpl.
        -- destruct Hm as [-> _]. split; lia.
        -- rewrite Hm. split; lia.
      * rewrite String.eqb_sym in E. rewrite E. simpl.
        rewrite Nat.add_0_r. done.
Qed.

Lemma tallied_elem_of (key : Item -> string) (items : list Item)
    (m : list (string * nat)) (k : string) (n : nat) :
  tallied key items m ->
  (k, n) ∈ m <-> n = occurrences key k items /\ (0 < n)%nat.
Proof.
  intros (Hnd & _ & Hm). specialize (Hm k). split.
  - intros Hin. by rewrite (dict_get_NoDup _ _ _ Hnd Hin) in Hm.
  - intros [-> Hpos].
    destruct (Py.dict_get k m) as [n|] eqn:E; [|lia].
    destruct Hm as [<- _]. by apply dict_get_elem_of.
Qed.

(** The projections of the counting loop. *)
Lemma count_loop (last_24h : string) (items : list Item) (c : Counters) :
  let c' := List.fold_left (count_item last_24h) items c in
  severity_counts c'
  = List.fold_left (fun m item => increment (severity_key item) m) items
      (severity_counts c)
  /\ source_counts c'
     = List.fold_left (fun m item => increment (source_key item) m) items
         (source_counts c)
  /\ category_counts c'
     = List.fold_left (fun m item => increment (category_key item) m) items
         (category_counts c)
  /\ event_type_counts c'
     = List.fold_left (fun m item => increment (event_type_key item) m) items
         (event_type_counts c)
  /\ events_24h c'
     = (events_24h c
        + List.length (List.filter (recent last_24h) items))%nat
  /\ critical_24h c'
     = (critical_24h c
        + List.length
            (List.filter
               (fun item => recent last_24h item
                            && String.eqb (severity_key item) "critical")
               items))%nat.
Proof.
  revert c. induction items as [|item items IH]; intros c; cbv zeta.
  - simpl. repeat split; lia.
  - cbn [List.fold_left List.filter].
    specialize (IH (count_item last_24h c item)). cbv zeta in IH.
    destruct IH as (-> & -> & -> & -> & -> & ->).
    unfold count_item at 1 2 3 4 5 6.
    cbn [severity_counts source_counts category_counts event_type_counts
         events_24h critical_24h].
    fold (severity_key item) (source_key item) (category_key item)
         (event_type_key item) (recent last_24h item).
    repeat split; try done.
    + destruct (recent last_24h item); simpl; lia.
    + destruct (recent last_24h item && _); simpl; lia.
Qed.

End StatsFacts.


Section StatsTheorems.
Import Dynamodb.

Lemma tallied_initial (key : Item -> string) (items : list Item) :
  tallied key items
    (List.fold_left (fun m item => increment (key item) m) items []).
Proof.
  apply (tally_loop key items [] []). split; [constructor|]. by split.
Qed.

(** X27: the per-severity, per-source and per-category tables of
    [get_event_stats] are exact: a key is listed once, with the number of
    items that carry it (after the defaults info, unknown, unknown), and
    the counts of each table add up to the number of items. *)
Theorem event_stats_tables :
  forall (last_24h : string) (items : list Dynamodb.Item),
    let stats := Dynamodb.get_event_stats last_24h items in
    Dynamodb.total_events stats = List.length items
    /\ (forall k n,
          (k, n) ∈ Dynamodb.events_by_severity stats
          <-> n = occurrences severity_key k items /\ (0 < n)%nat)
    /\ (forall k n,
          (k, n) ∈ Dynamodb.events_by_source stats
          <-> n = occurrences source_key k items /\ (0 < n)%nat)
    /\ (forall k n,
          (k, n) ∈ Dynamodb.events_by_category stats
          <-> n = occurrences category_key k items /\ (0 < n)%nat)
    /\ NoDup (Dynamodb.events_by_severity stats).*1
    /\ NoDup (Dynamodb.events_by_source stats).*1
    /\ NoDup (Dynamodb.events_by_category stats).*1
    /\ total (Dynamodb.events_by_severity stats) = List.length items
    /\ total (Dynamodb.events_by_source stats) = List.length items
    /\ total (Dynamodb.events_by_category stats) = List.length items.
Proof.
  intros last_24h items stats. subst stats. unfold get_event_stats.
  cbn [total_events events_by_severity events_by_source events_by_category].
  pose proof (count_loop last_24h items
                {| severity_counts := []; source_counts := [];
                   category_counts := []; event_type_counts := [];
                   source_ip_counts := []; events_24h := 0;
                   critical_24h := 0 |}) as H.
  cbv zeta in H. destruct H as (-> & -> & -> & _).
  cbn [severity_counts source_counts category_counts].
  pose proof (tallied_initial severity_key items) as Hsev.
  pose proof (tallied_initial source_key items) as Hsrc.
  pose proof (tallied_initial category_key items) as Hcat.
  split; [done|].
  split; [intros k n; by apply tallied_elem_of|].
  split; [intros k n; by apply tallied_elem_of|].
  split; [intros k n; by apply tallied_elem_of|].
  destruct Hsev as (? & ? & _), Hsrc as (? & ? & _), Hcat as (? & ? & _).
  by repeat split.
Qed.

(** X28: [events_last_24h] counts the items whose time text is not below
    the threshold, [critical_events_last_24h] those of them of severity
    critical, and critical <= last day <= total. *)
Theorem event_stats_last_day :
  forall (last_24h : string) (items : list Dynamodb.Item),
    let stats := Dynamodb.get_event_stats last_24h items in
    Dynamodb.events_last_24h stats
    = List.length (List.filter (recent last_24h) items)
    /\ Dynamodb.critical_events_last_24h stats
       = List.length
           (List.filter
              (fun item => recent last_24h item
                           && String.eqb (severity_key item) "critical")
              items)
    /\ (Dynamodb.critical_events_last_24h stats
        <= Dynamodb.events_last_24h stats
        <= Dynamodb.total_events stats)%nat.
Proof.
  intros last_24h items stats. subst stats. unfold get_event_stats.
  cbn [events_last_24h critical_events_last_24h total_events].
  pose proof (count_loop last_24h items
                {| severity_counts := []; source_counts := [];
                   category_counts := []; event_type_counts := [];
                   source_ip_counts := []; events_24h := 0;
                   critical_24h := 0 |}) as H.
  cbv zeta in H. destruct H as (_ & _ & _ & _ & -> & ->).
  cbn [events_24h critical_24h]. rewrite !Nat.add_0_l.
  split; [done|]. split; [done|]. split.
  - rewrite <- filter_filter. apply filter_length_le.
  - apply filter_length_le.
Qed.

Lemma insert_by_count_perm (x : string * nat) (l : list (string * nat)) :
  Permutation (insert_by_count x l) (x :: l).
Proof.
  induction l as [|h t IH]; simpl; [done|].
  destruct (Nat.leb h.2 x.2); [done|].
  rewrite IH. apply perm_swap.
Qed.

Lemma sorted_by_count_perm (l : list (string * nat)) :
  Permutation (sorted_by_count l) l.
Proof.
  induction l as [|x l IH]; simpl; [done|].
  rewrite insert_by_count_perm. by constructor.
Qed.

Lemma insert_by_count_sorted (x : string * nat) (l : list (string * nat)) :
  StronglySorted by_count_desc l ->
  StronglySorted by_count_desc (insert_by_count x l).
Proof.
  induction 1 as [|h t Hs IH Hall]; simpl.
  - by repeat constructor.
  - destruct (Nat.leb_spec h.2 x.2) as [Hle|Hgt].
    + constructor; [by constructor|].
      constructor; [done|].
      eapply Forall_impl; [exact Hall|]. unfold by_count_desc. intros y. lia.
    + constructor; [done|].
      rewrite insert_by_count_perm. constructor; [|done].
      unfold by_count_desc. lia.
Qed.

Lemma sorted_by_count_sorted (l : list (string * nat)) :
  StronglySorted by_count_desc (sorted_by_count l).
Proof.
  induction l as [|x l IH]; simpl; [constructor|].
  by apply insert_by_count_sorted.
Qed.

(** X29: [top_event_types] is the table of event-type counts in
    non-increasing order of count, cut after ten entries. *)
Theorem event_stats_top_event_types :
  forall (last_24h : string) (items : list Dynamodb.Item),
    let stats := Dynamodb.get_event_stats last_24h items in
    exists table rest,
      (forall k n, (k, n) ∈ table
                   <-> n = occurrences event_type_key k items /\ (0 < n)%nat)
      /\ NoDup table.*1
      /\ Permutation (Dynamodb.top_event_types stats ++ rest) table
      /\ StronglySorted by_count_desc (Dynamodb.top_event_types stats ++ rest)
      /\ List.length (Dynamodb.top_event_types stats)
         = Nat.min 10 (List.length table).
Proof.
  intros last_24h items stats. subst stats. unfold get_event_stats.
  cbn [top_event_types].
  pose proof (count_loop last_24h items
                {| severity_counts := []; source_counts := [];
                   category_counts := []; event_type_counts := [];
                   source_ip_counts := []; events_24h := 0;
                   critical_24h := 0 |}) as H.
  cbv zeta in H. destruct H as (_ & _ & _ & -> & _).
  cbn [event_type_counts].
  pose proof (tallied_initial event_type_key items) as Ht.
  set (table := List.fold_left
                  (fun m item => increment (event_type_key item) m) items [])
    in *.
  exists table, (List.skipn 10 (sorted_by_count table)).
  split; [intros k n; by apply tallied_elem_of|].
  split; [by destruct Ht|].
  rewrite List.firstn_skipn.
  split; [apply sorted_by_count_perm|].
  split; [apply sorted_by_count_sorted|].
  rewrite List.length_firstn.
  by rewrite (Permutation_length (sorted_by_count_perm table)).
Qed.

End StatsTheorems.


Section GuardDutyFacts.
Import QArith_base Lqa.
Import Models GuardDuty.

Lemma Qle_bool_false (a b : Q) : Qle_bool a b = false <-> (b < a)%Q.
Proof.
  rewrite <- not_true_iff_false, Qle_bool_iff. split.
  - apply Qnot_le_lt.
  - apply Qlt_not_le.
Qed.

Lemma severity_band (q : Q) :
    ((8 <= q)%Q /\ map_guardduty_severity q = CRITICAL)
    \/ ((6 <= q < 8)%Q /\ map_guardduty_severity q = HIGH)
    \/ ((4 <= q < 6)%Q /\ map_guardduty_severity q = MEDIUM)
    \/ ((2 <= q < 4)%Q /\ map_guardduty_severity q = LOW)
    \/ ((q < 2)%Q /\ map_guardduty_severity q = INFO).
Proof.
  unfold map_guardduty_severity.
  destruct (Qle_bool 8.0 q) eqn:E8;
    [apply Qle_bool_iff in E8 | apply Qle_bool_false in E8].
  { left. split; [lra | done]. }
  destruct (Qle_bool 6.0 q) eqn:E6;
    [apply Qle_bool_iff in E6 | apply Qle_bool_false in E6].
  { right; left. split; [lra | done]. }
  destruct (Qle_bool 4.0 q) eqn:E4;
    [apply Qle_bool_iff in E4 | apply Qle_bool_false in E4].
  { do 2 right; left. split; [lra | done]. }
  destruct (Qle_bool 2.0 q) eqn:E2;
    [apply Qle_bool_iff in E2 | apply Qle_bool_false in E2].
  { do 3 right; left. split; [lra | done]. }
  do 4 right. split; [lra | done].
Qed.

(** X21: [map_guardduty_severity] maps [8, oo) to CRITICAL, [6, 8) to
    HIGH, [4, 6) to MEDIUM, [2, 4) to LOW and everything below 2 to INFO
    (there is no upper or lower bound check), and is monotone: a higher
    number never gives a lower base score. *)
Theorem map_guardduty_severity_bands :
  forall (s : Q),
    (map_guardduty_severity s = CRITICAL <-> (8 <= s)%Q)
    /\ (map_guardduty_severity s = HIGH <-> (6 <= s < 8)%Q)
    /\ (map_guardduty_severity s = MEDIUM <-> (4 <= s < 6)%Q)
    /\ (map_guardduty_severity s = LOW <-> (2 <= s < 4)%Q)
    /\ (map_guardduty_severity s = INFO <-> (s < 2)%Q)
    /\ (forall s' : Q, (s <= s')%Q ->
          (Spec.base (map_guardduty_severity s)
          <= Spec.base (map_guardduty_severity s'))%Z).
Proof.
  intros s.
  pose proof (severity_band s) as Hs.
  split; [|split; [|split; [|split; [|split]]]].
  1-5: split; intros H;
       destruct Hs as [[Hb He]|[[Hb He]|[[Hb He]|[[Hb He]|[Hb He]]]]];
       first [congruence | lra | done].
  intros s' Hle.
  destruct Hs as [[Hb He]|[[Hb He]|[[Hb He]|[[Hb He]|[Hb He]]]]];
  destruct (severity_band s')
    as [[Hb' He']|[[Hb' He']|[[Hb' He']|[[Hb' He']|[Hb' He']]]]];
  rewrite He, He'; simpl; first [lia | lra].
Qed.

(** X25: the tags of a normalized finding start with guardduty and the
    category; high-priority is among the others whenever the numeric
    severity is at least 6, the tag of the technique whenever there is
    one, and every other tag is one of these two or comes from the
    non-empty resource type: its lower-cased form when it is ASCII
    text. *)
Theorem finding_tags_shape :
  forall (datetime : Type) (fromisoformat : string -> option datetime)
         (now_fallback now_ingested : datetime) (fresh_uuid : string)
         (raw_finding : GuardDuty.Finding),
    let ev :=
      GuardDuty.normalize_guardduty_finding datetime fromisoformat
        now_fallback now_ingested fresh_uuid raw_finding in
    let gd_severity := Correlator.get (GuardDuty.Severity raw_finding) 0%Q in
    exists rest,
      Models.tags ev = "guardduty" :: Models.event_category ev :: rest
      /\ ((6 <= gd_severity)%Q -> "high-priority" ∈ rest)
      /\ (forall m, Models.mitre_attack ev = Some m ->
            String.append "mitre-" (Models.technique_id m) ∈ rest)
      /\ (forall tag, tag ∈ rest ->
            (tag = "high-priority" /\ (6 <= gd_severity)%Q)
            \/ (exists m, Models.mitre_attack ev = Some m
                          /\ tag = String.append "mitre-"
                                     (Models.technique_id m))
            \/ (exists r resource_type,
                  GuardDuty.fd_Resource raw_finding = Some r
                  /\ GuardDuty.ResourceType r = Some resource_type
                  /\ resource_type <> ""
                  /\ (Py.is_ascii resource_type = true ->
                      tag = Py.lower resource_type))).
Proof.
  intros datetime fromisoformat now_fallback now_ingested fresh_uuid
         raw_finding ev gd_severity.
  eexists. split; [reflexivity|].
  fold gd_severity.
  set (mitre_attack := technique_of
         (Correlator.get (finding_Type raw_finding) "Unknown")).
  set (resource_type :=
         match fd_Resource raw_finding with
         | Some r => Correlator.get (ResourceType r) ""
         | None => ""
         end).
  pose proof (severity_band gd_severity) as Hband.
  split; [|split].
  - intros H6. apply elem_of_app. left.
    destruct Hband as [[Hb ->]|[[Hb ->]|[[Hb He]|[[Hb He]|[Hb He]]]]];
      first [by left | lra].
  - intros m Hm. apply elem_of_app. right. apply elem_of_app. left.
    cbn [Models.mitre_attack ev normalize_guardduty_finding] in Hm.
    fold mitre_attack in Hm. rewrite Hm. by left.
  - intros tag Htag.
    apply elem_of_app in Htag as [Htag|Htag];
      [|apply elem_of_app in Htag as [Htag|Htag]].
    + left.
      destruct Hband as [[Hb He]|[[Hb He]|[[Hb He]|[[Hb He]|[Hb He]]]]];
        rewrite He in Htag;
        first [ apply list_elem_of_singleton in Htag; split; [done | lra]
              | by apply elem_of_nil in Htag ].
    + right. left.
      cbn [Models.mitre_attack ev normalize_guardduty_finding].
      fold mitre_attack.
      destruct mitre_attack as [m|]; [|by apply elem_of_nil in Htag].
      apply list_elem_of_singleton in Htag. by exists m.
    + right. right.
      destruct (Py.truthy_str resource_type) eqn:Ht;
        [|by apply elem_of_nil in Htag].
      apply list_elem_of_singleton in Htag. subst resource_type.
      destruct (fd_Resource raw_finding) as [r|]; [|done].
      destruct (ResourceType r) as [rt|] eqn:Hrt; [|done].
      exists r, rt. split; [done|]. split; [done|]. split; [|done].
      intros ->. done.
Qed.

(** X26: the resource ARN of a normalized finding is the ARN of the first
    S3 bucket when bucket details are present, else the instance id when
    instance details are present, else null; the actor is null exactly
    when there are no access-key details. *)
Theorem finding_resource_precedence :
  forall (datetime : Type) (fromisoformat : string -> option datetime)
         (now_fallback now_ingested : datetime) (fresh_uuid : string)
         (raw_finding : GuardDuty.Finding),
    let ev :=
      GuardDuty.normalize_guardduty_finding datetime fromisoformat
        now_fallback now_ingested fresh_uuid raw_finding in
    exists ctx,
      Models.aws_context ev = Some ctx
      /\ (forall r bucket buckets,
            GuardDuty.fd_Resource raw_finding = Some r ->
            GuardDuty.S3BucketDetails r = bucket :: buckets ->
            Models.resource_arn ctx
            = GuardDuty.arn_value (GuardDuty.Arn bucket))
      /\ (forall r instance,
            GuardDuty.fd_Resource raw_finding = Some r ->
            GuardDuty.S3BucketDetails r = [] ->
            GuardDuty.res_InstanceDetails r = Some instance ->
            Models.resource_arn ctx
            = GuardDuty.arn_value (GuardDuty.InstanceId instance))
      /\ ((forall r, GuardDuty.fd_Resource raw_finding = Some r ->
                     GuardDuty.S3BucketDetails r = []
                     /\ GuardDuty.res_InstanceDetails r = None) ->
          Models.resource_arn ctx = Json.JNull)
      /\ (Models.actor ev = None
          <-> forall r, GuardDuty.fd_Resource raw_finding = Some r ->
                        GuardDuty.res_AccessKeyDetails r = None).
Proof.
  intros datetime fromisoformat now_fallback now_ingested fresh_uuid
         raw_finding ev.
  eexists. split; [reflexivity|].
  cbn [Models.resource_arn Models.actor ev normalize_guardduty_finding].
  split; [|split; [|split]].
  - intros r bucket buckets -> Hs3. destruct r. simpl in *. by subst.
  - intros r instance -> Hs3 Hi. destruct r. simpl in *. by subst.
  - intros H. destruct (fd_Resource raw_finding) as [r|]; [|done].
    destruct (H r eq_refl) as [Hs3 Hi]. destruct r. simpl in *. by subst.
  - destruct (fd_Resource raw_finding) as [r|]; simpl.
    + destruct (res_AccessKeyDetails r) eqn:E.
      * split; [done|]. intros H. specialize (H r eq_refl). congruence.
      * split; [|done]. by intros _ r' [= <-].
    + split; [|done]. by intros _ r [=].
Qed.

End GuardDutyFacts.


Section GuardDutyTables.
Import Models GuardDuty.

Lemma contains_colon_cons (c : ascii) (s : string) :
  Py.contains ":" (String c s) = Ascii.eqb c ":" || Py.contains ":" s.
Proof.
  cbn [Py.contains Py.startswith]. rewrite andb_true_r.
  by rewrite Ascii.eqb_sym.
Qed.

(** The text before the first colon. *)
Lemma before_colon_append (p rest : string) :
  Py.contains ":" p = false ->
  Py.before_colon (String.append p (String.append ":" rest)) = p.
Proof.
  induction p as [|c p IH]; [done|].
  rewrite contains_colon_cons. intros H.
  apply orb_false_iff in H as [Hc Hp].
  simpl. rewrite Hc. f_equal. by apply IH.
Qed.

Lemma before_colon_no_colon (s : string) :
  Py.contains ":" s = false -> Py.before_colon s = s.
Proof.
  induction s as [|c s IH]; [done|].
  rewrite contains_colon_cons. intros H.
  apply orb_false_iff in H as [Hc Hp].
  simpl. rewrite Hc. f_equal. by apply IH.
Qed.

Lemma before_colon_idem (s : string) :
  Py.before_colon (Py.before_colon s) = Py.before_colon s.
Proof.
  induction s as [|c s IH]; simpl; [done|].
  destruct (Ascii.eqb c ":") eqn:E; simpl; [done|]. by rewrite E, IH.
Qed.

(** X22: the category of a finding depends only on the text before the
    first colon of its type: a type that is, or starts with, one of the
    seventeen mapped prefixes followed by a colon has that prefix's
    category, and the category is other exactly when the text before the
    colon is not a mapped prefix. *)
Theorem categorize_guardduty_finding_prefix :
  forall (finding_type : string),
    GuardDuty.categorize_guardduty_finding finding_type
    = GuardDuty.categorize_guardduty_finding (Py.before_colon finding_type)
    /\ (forall prefix rest category,
          (prefix, category) ∈ GuardDuty.category_mapping ->
          (finding_type = prefix
           \/ finding_type = String.append prefix (String.append ":" rest)) ->
          GuardDuty.categorize_guardduty_finding finding_type = category)
    /\ (GuardDuty.categorize_guardduty_finding finding_type = "other"
        <-> Py.before_colon finding_type ∉
              ["Recon"; "UnauthorizedAccess"; "Execution"; "Persistence";
               "PrivilegeEscalation"; "DefenseEvasion"; "Stealth";
               "CredentialAccess"; "Discovery"; "Exfiltration"; "Impact";
               "CryptoCurrency"; "Trojan"; "Backdoor"; "Behavior"; "PenTest";
               "Policy"]).
Proof.
  intros finding_type. unfold categorize_guardduty_finding.
  split; [by rewrite before_colon_idem|]. split.
  - intros prefix rest category Hin Hft.
    assert (Hnc : Py.contains ":" prefix = false).
    { revert Hin. unfold category_mapping. rewrite !elem_of_cons.
      intros H. repeat (destruct H as [H|H]; [by inversion H|]).
      by apply elem_of_nil in H. }
    assert (Py.before_colon finding_type = prefix) as ->.
    { destruct Hft as [->| ->];
        [by apply before_colon_no_colon | by apply before_colon_append]. }
    rewrite (dict_get_NoDup prefix category_mapping category); [done| |done].
    apply (bool_decide_unpack (NoDup category_mapping.*1)). by vm_compute.
  - destruct (Py.dict_get (Py.before_colon finding_type) category_mapping)
      as [c|] eqn:E; simpl.
    + split.
      * intros ->. apply dict_get_elem_of in E.
        unfold category_mapping in E. rewrite !elem_of_cons in E.
        repeat (destruct E as [E|E]; [by inversion E|]). by apply elem_of_nil in E.
      * intros Hn. exfalso. apply Hn. apply dict_get_elem_of in E.
        change (Py.before_colon finding_type ∈ category_mapping.*1).
        apply list_elem_of_fmap. by exists (Py.before_colon finding_type, c).
    + split; [|done]. intros _. by apply dict_get_None in E.
Qed.


Lemma prefix_match_None (finding_type : string)
    (items : list (string * MitreAttackInfo)) :
  prefix_match finding_type items = None <->
  Forall (fun kv =>
            Py.startswith (String.append (Py.before_colon kv.1) ":")
                          finding_type = false) items.
Proof.
  induction items as [|[k v] items IH]; simpl.
  - split; [constructor | done].
  - rewrite Forall_cons. simpl.
    destruct (Py.startswith (String.append (Py.before_colon k) ":")
                            finding_type); [|tauto].
    split; [done | by intros [? _]].
Qed.

Lemma dict_get_prefix_match (k : string)
    (d : list (string * MitreAttackInfo)) (v : MitreAttackInfo) :
  Forall (fun kv =>
            Py.startswith (String.append (Py.before_colon kv.1) ":") kv.1
            = true) d ->
  Py.dict_get k d = Some v -> prefix_match k d <> None.
Proof.
  induction d as [|[k' v'] d IH]; simpl; [done|].
  intros Hall. apply Forall_cons in Hall as [Hk' Hall]. simpl in Hk'.
  destruct (String.eqb k k') eqn:E.
  - apply String.eqb_eq in E. subst k'. by rewrite Hk'.
  - intros Hget.
    destruct (Py.startswith (String.append (Py.before_colon k') ":") k);
      [done | by apply IH].
Qed.

(** X23: a finding type listed in [MITRE_MAPPINGS] has its own technique;
    any other type that starts with one of fourteen prefixes and a colon
    has the technique of the first listed type with that prefix (Impact
    gives T1110, UnauthorizedAccess T1110.001, ...); a type has no
    technique exactly when it starts with none of them. *)
Theorem technique_of_prefix_fallback :
  forall (finding_type : string),
    (forall m, (finding_type, m) ∈ GuardDuty.MITRE_MAPPINGS ->
               GuardDuty.technique_of finding_type = Some m)
    /\ (finding_type ∉ GuardDuty.MITRE_MAPPINGS.*1 ->
        forall prefix technique rest,
          (prefix, technique) ∈ PREFIX_TECHNIQUES ->
          finding_type = String.append prefix (String.append ":" rest) ->
          exists m, GuardDuty.technique_of finding_type = Some m
                    /\ Models.technique_id m = technique)
    /\ (GuardDuty.technique_of finding_type = None
        <-> forall prefix, prefix ∈ PREFIX_TECHNIQUES.*1 ->
              ~ exists rest,
                  finding_type = String.append prefix (String.append ":" rest)).
Proof.
  intros finding_type. split; [|split].
  - intros m Hin. unfold technique_of.
    rewrite (dict_get_NoDup finding_type MITRE_MAPPINGS m); [done| |done].
    apply (bool_decide_unpack (NoDup MITRE_MAPPINGS.*1)). by vm_compute.
  - intros Hkey prefix technique rest Hin ->. unfold technique_of.
    apply dict_get_None in Hkey. rewrite Hkey. clear Hkey.
    unfold PREFIX_TECHNIQUES in Hin. rewrite !elem_of_cons in Hin.
    repeat (destruct Hin as [Hin|Hin];
            [inversion Hin; subst; clear Hin; eexists; split;
               [vm_compute; reflexivity | reflexivity] |]).
    by apply elem_of_nil in Hin.
  - assert (Hnone :
      prefix_match finding_type MITRE_MAPPINGS = None <->
      forall prefix, prefix ∈ PREFIX_TECHNIQUES.*1 ->
        Py.startswith (String.append prefix ":") finding_type = false).
    { rewrite prefix_match_None.
      change (Forall
                ((fun p => Py.startswith (String.append p ":") finding_type
                           = false) ∘ (fun kv => Py.before_colon kv.1))
                MITRE_MAPPINGS <->
              forall prefix, prefix ∈ PREFIX_TECHNIQUES.*1 ->
                Py.startswith (String.append prefix ":") finding_type = false).
      rewrite <- Forall_fmap, Forall_forall.
      assert (H1 : Forall (fun p => p ∈ PREFIX_TECHNIQUES.*1)
                     ((fun kv => Py.before_colon kv.1) <$> MITRE_MAPPINGS)).
      { apply (bool_decide_unpack _). by vm_compute. }
      assert (H2 : Forall (fun p => p ∈ (fun kv : string * MitreAttackInfo =>
                                           Py.before_colon kv.1)
                                        <$> MITRE_MAPPINGS)
                     PREFIX_TECHNIQUES.*1).
      { apply (bool_decide_unpack _). by vm_compute. }
      rewrite Forall_forall in H1, H2.
      split; intros H p Hp; apply H; auto. }
    assert (Hstart : forall prefix,
      Py.startswith (String.append prefix ":") finding_type = false <->
      ~ exists rest,
          finding_type = String.append prefix (String.append ":" rest)).
    { intros prefix. rewrite <- not_true_iff_false, startswith_append.
      assert (Hassoc : forall rest,
        String.append (String.append prefix ":") rest
        = String.append prefix (String.append ":" rest)).
      { intros rest. induction prefix as [|a p IHp]; [done|].
        change (String a (String.append (String.append p ":") rest)
                = String a (String.append p (String.append ":" rest))).
        by rewrite IHp. }
      split; intros H [rest Hr]; apply H; exists rest.
      - by rewrite Hassoc.
      - by rewrite <- Hassoc. }
    unfold technique_of.
    destruct (Py.dict_get finding_type MITRE_MAPPINGS) as [v|] eqn:E.
    + split; [done|]. intros H. exfalso.
      assert (Hp : prefix_match finding_type MITRE_MAPPINGS = None).
      { apply Hnone. intros p Hp. by apply Hstart, H. }
      revert Hp. apply (dict_get_prefix_match _ _ v); [|done].
      apply (bool_decide_unpack _). by vm_compute.
    + rewrite Hnone. split; intros H p Hp.
      * by apply Hstart, H.
      * by apply Hstart, H.
Qed.


Lemma before_colon_has_no_colon (s : string) :
  Py.contains ":" (Py.before_colon s) = false.
Proof.
  induction s as [|c s IH]; [done|]. simpl.
  destruct (Ascii.eqb c ":") eqn:E; [done|].
  by rewrite contains_colon_cons, E, IH.
Qed.

Lemma append_assoc (a b c : string) :
  String.append (String.append a b) c = String.append a (String.append b c).
Proof.
  induction a as [|x a IH]; [done|].
  change (String x (String.append (String.append a b) c)
          = String x (String.append a (String.append b c))).
  by rewrite IH.
Qed.

Lemma prefix_match_Some (finding_type : string)
    (items : list (string * MitreAttackInfo)) (m : MitreAttackInfo) :
  prefix_match finding_type items = Some m ->
  exists key rest,
    (key, m) ∈ items
    /\ finding_type =
       String.append (Py.before_colon key) (String.append ":" rest).
Proof.
  induction items as [|[k v] items IH]; simpl; [done|].
  destruct (Py.startswith (String.append (Py.before_colon k) ":")
                          finding_type) eqn:E.
  - intros [= ->]. apply startswith_append in E as [rest ->].
    exists k, rest. split; [left | apply append_assoc].
  - intros H. destruct (IH H) as (key & rest & Hin & Hft).
    exists key, rest. split; [by right | done].
Qed.

(** X24: a finding type for which a technique is found has a category
    of its own, never other. *)
Theorem technique_implies_category :
  forall (finding_type : string) (m : Models.MitreAttackInfo),
    GuardDuty.technique_of finding_type = Some m ->
    GuardDuty.categorize_guardduty_finding finding_type <> "other".
Proof.
  intros finding_type m. unfold technique_of, categorize_guardduty_finding.
  assert (Hkeys :
    Forall (fun kv : string * MitreAttackInfo =>
              Py.dict_get (Py.before_colon kv.1) category_mapping <> None
              /\ Correlator.get
                   (Py.dict_get (Py.before_colon kv.1) category_mapping)
                   "other" <> "other")
           MITRE_MAPPINGS).
  { apply (bool_decide_unpack _). by vm_compute. }
  rewrite Forall_forall in Hkeys.
  destruct (Py.dict_get finding_type MITRE_MAPPINGS) as [v|] eqn:E.
  - intros _. apply dict_get_elem_of in E.
    by destruct (Hkeys _ E) as [_ H].
  - intros H. apply prefix_match_Some in H as (key & rest & Hin & ->).
    rewrite before_colon_append by apply before_colon_has_no_colon.
    by destruct (Hkeys _ Hin) as [_ H].
Qed.

End GuardDutyTables.

(** *** Instances of the conditional properties *)

Lemma stored_correlation_ids_witness :
  In Examples.stored_tampering_emitted
     (Correlator.correlate_events
        (List.map (Ingest.serialize_event string (fun t => t))
                  Examples.stored_events))
  /\ Correlator.correlation_id Examples.stored_tampering_emitted
     ∈ ["5c5b65e2d4bd37a6"; "5d1912b7de0d4dc6"; "028ea828b60b9df2"].
Proof.
  assert (H : In Examples.stored_tampering_emitted
                (Correlator.correlate_events
                   (List.map (Ingest.serialize_event string (fun t => t))
                             Examples.stored_events)))
    by (vm_compute; left; reflexivity).
  split; [exact H|].
  exact (proj2 (proj2 (proj2
           (stored_correlation_ids string (fun t => t) Examples.stored_events
              Examples.stored_tampering_emitted H))) eq_refl).
Defined.

Lemma risk_score_monotone_witness :
  [] `sublist_of` [Examples.escalation_emitted]
  /\ Correlator.calculate_risk_score
       (Examples.high_event ["cloudtrail"; "signin"]) []
     <= Correlator.calculate_risk_score
          (Examples.high_event ["cloudtrail"; "signin"])
          [Examples.escalation_emitted].
Proof.
  assert (H : @nil Correlator.CorrelationRecord
              `sublist_of` [Examples.escalation_emitted])
    by apply sublist_nil_l.
  split; [exact H|].
  exact (proj1 (risk_score_monotone
                  (Examples.high_event ["cloudtrail"; "signin"]) []
                  [Examples.escalation_emitted] H)).
Defined.

Lemma technique_implies_category_witness :
  GuardDuty.technique_of "Impact:EC2/PortSweep"
  = Some (CloudTrail.mitre "Impact" "T1110" "Brute Force")
  /\ GuardDuty.categorize_guardduty_finding "Impact:EC2/PortSweep" <> "other".
Proof.
  assert (H : GuardDuty.technique_of "Impact:EC2/PortSweep"
              = Some (CloudTrail.mitre "Impact" "T1110" "Brute Force"))
    by (vm_compute; reflexivity).
  split; [exact H|].
  exact (technique_implies_category "Impact:EC2/PortSweep"
           (CloudTrail.mitre "Impact" "T1110" "Brute Force") H).
Defined.

Lemma root_identity_scores_100_witness :
  exists ev,
    Examples.normalize Examples.raw_root_create_user = Json.Ok ev
    /\ Json.lookup "userIdentity" Examples.raw_root_create_user
       = Some (Json.JObj Examples.root_identity)
    /\ Json.lookup "type" Examples.root_identity = Some (Json.JStr "Root")
    /\ Models.severity ev = Models.CRITICAL
    /\ Correlator.calculate_risk_score
         (Ingest.serialize_event string (fun t => t) ev) [] = 100.
Proof.
  destruct (Examples.normalize Examples.raw_root_create_user) as [ev|] eqn:E;
    [|vm_compute in E; discriminate].
  exists ev.
  assert (H1 : Json.lookup "userIdentity" Examples.raw_root_create_user
               = Some (Json.JObj Examples.root_identity))
    by reflexivity.
  assert (H2 : Json.lookup "type" Examples.root_identity
               = Some (Json.JStr "Root")) by reflexivity.
  split; [reflexivity|]. split; [exact H1|]. split; [exact H2|].
  pose proof (root_identity_scores_100 string Examples.iso_parse (fun t => t)
                "2024-05-01T12:00:00.000100" "2024-05-01T12:00:00.000200"
                "2024-05-01T12:00:00.000300"
                "0b0e7a9c-5d1f-4c55-9a43-3f1c2d9e8a10"
                Examples.raw_root_create_user Examples.root_identity ev
                E H1 H2) as (Hsev & _ & Hscore & _).
  split; [exact Hsev | exact (Hscore [])].
Defined.

Lemma failed_call_is_tagged_witness :
  exists ev,
    Examples.normalize Examples.raw_failed_login = Json.Ok ev
    /\ Json.truthy (Json.get "errorCode" Examples.raw_failed_login) = true
    /\ "accessdenied" ∈ Models.tags ev
    /\ Correlator.has_failure_tag
         (Ingest.serialize_event string (fun t => t) ev) = true.
Proof.
  destruct (Examples.normalize Examples.raw_failed_login) as [ev|] eqn:E;
    [|vm_compute in E; discriminate].
  exists ev.
  assert (H : Json.truthy (Json.get "errorCode" Examples.raw_failed_login)
              = true) by reflexivity.
  split; [reflexivity|]. split; [exact H|].
  destruct (failed_call_is_tagged string Examples.iso_parse (fun t => t)
              "2024-05-01T12:00:00.000100" "2024-05-01T12:00:00.000200"
              "2024-05-01T12:00:00.000300"
              "0b0e7a9c-5d1f-4c55-9a43-3f1c2d9e8a10"
              Examples.raw_failed_login ev E H)
    as (code & Hcode & _ & _ & Hlower & Hfail & _).
  injection Hcode as <-. split; [exact (Hlower eq_refl) | exact Hfail].
Defined.

Lemma process_message_outcome_witness :
  exists calls stats',
    Processor.process_message Alerts.default_config
      (Examples.message_for "event-001-console-login")
      [Examples.login_1; Examples.create_key] Examples.no_stats
    = (true, calls, stats')
    /\ Processor.send_correlation_alert Examples.escalation_emitted ∈ calls
    /\ Processor.events_processed stats' = 1%nat.
Proof.
  destruct (Processor.process_message Alerts.default_config
              (Examples.message_for "event-001-console-login")
              [Examples.login_1; Examples.create_key] Examples.no_stats)
    as [[success calls] stats'] eqn:E.
  assert (success = true) as ->
    by (vm_compute in E; by injection E as <- _ _).
  exists calls, stats'. split; [reflexivity|].
  destruct (process_message_outcome Alerts.default_config
              (Examples.message_for "event-001-console-login")
              [Examples.login_1; Examples.create_key] Examples.no_stats
              stats' calls E)
    as (event_id & event & Hid & _ & _ & _ & _ & Hcorr & Hproc & _).
  split; [|exact Hproc].
  apply Hcorr. vm_compute in Hid. injection Hid as <-.
  split; [|reflexivity]. apply list_elem_of_In. vm_compute. by left.
Defined.

